(** * DocXScan / DocXReplace: token matching and replacement engine

    A shallow embedding of the token scanner ([DocXScan_v3.0.py],
    [docx_scan_final_1.0.py]) and of the replacement engine and batch driver
    ([DocXReplace_v3.0.py]), with the properties of the specification stated
    and settled against it.

    Text is modelled by [string]: a character is a code point below 256
    (the Latin-1 range of Python's [str]); the character classes below are
    the ones Python uses for those code points. *)

From Stdlib Require Import String Ascii List Arith Lia Bool PeanoNat.
From Stdlib Require Import Permutation.
From stdpp Require Import base strings gmap.
Import ListNotations.

Local Open Scope string_scope.
Local Open Scope list_scope.
Local Open Scope nat_scope.

(* ===================================================================== *)
(** ** Python [str] operations used by the sources                        *)
(* ===================================================================== *)

Module PyStr.

(** The newline character, ['\n']. *)
Definition nl : ascii := "010"%char.

(** [s.startswith(p)]. *)
Fixpoint startswith (p s : string) : bool :=
  match p, s with
  | EmptyString, _ => true
  | String a p', String b s' => Ascii.eqb a b && startswith p' s'
  | String _ _, EmptyString => false
  end.

(** [sub in s]: [sub] occurs in [s] as a contiguous substring. *)
Fixpoint contains (sub s : string) : bool :=
  startswith sub s ||
  match s with
  | EmptyString => false
  | String _ s' => contains sub s'
  end.

(** [s[n:]]. *)
Fixpoint drop (n : nat) (s : string) : string :=
  match n, s with
  | O, _ => s
  | S _, EmptyString => EmptyString
  | S n', String _ s' => drop n' s'
  end.

(** [s[:n]]. *)
Fixpoint take (n : nat) (s : string) : string :=
  match n, s with
  | O, _ => EmptyString
  | S _, EmptyString => EmptyString
  | S n', String c s' => String c (take n' s')
  end.

(** [s[i:j]]. *)
Definition slice (i j : nat) (s : string) : string := take (j - i) (drop i s).

(** [s.replace("", new)]: [new] is inserted before every character and
    at the end. *)
Fixpoint interleave (new s : string) : string :=
  match s with
  | EmptyString => new
  | String c s' => new +:+ String c (interleave new s')
  end.

(** The scan of [s.replace(old, new)] for a non-empty [old]: leftmost
    occurrences, not overlapping. [skip] counts the characters of the
    occurrence just replaced that are still to be passed over. *)
Fixpoint replace_from (old new : string) (skip : nat) (s : string) : string :=
  match s with
  | EmptyString => EmptyString
  | String c s' =>
      match skip with
      | S k => replace_from old new k s'
      | O =>
          if startswith old s
          then new +:+ replace_from old new (String.length old - 1) s'
          else String c (replace_from old new 0 s')
      end
  end.

(** [s.replace(old, new)]: every occurrence. *)
Definition replace (old new s : string) : string :=
  match old with
  | EmptyString => interleave new s
  | String _ _ => replace_from old new 0 s
  end.

(** [s.replace(old, new, 1)]: the first occurrence only. *)
Fixpoint replace_first (old new s : string) : string :=
  if startswith old s then new +:+ drop (String.length old) s
  else match s with
       | EmptyString => EmptyString
       | String c s' => String c (replace_first old new s')
       end.

(** [c.isspace()] for code points below 256. *)
Definition isspace (c : ascii) : bool :=
  let n := nat_of_ascii c in
  ((9 <=? n) && (n <=? 13)) || ((28 <=? n) && (n <=? 32))
  || (n =? 133) || (n =? 160).

Fixpoint lstrip (s : string) : string :=
  match s with
  | EmptyString => EmptyString
  | String c s' => if isspace c then lstrip s' else s
  end.

Fixpoint rstrip (s : string) : string :=
  match s with
  | EmptyString => EmptyString
  | String c s' =>
      match rstrip s' with
      | EmptyString => if isspace c then EmptyString else String c EmptyString
      | r => String c r
      end
  end.

(** [s.strip()]. *)
Definition strip (s : string) : string := lstrip (rstrip s).

(** [s.split('\n')]: never empty; [''.split('\n') == ['']]. *)
Fixpoint split_nl (s : string) : list string :=
  match s with
  | EmptyString => [EmptyString]
  | String c s' =>
      if Ascii.eqb c nl then EmptyString :: split_nl s'
      else match split_nl s' with
           | l :: ls => String c l :: ls
           | [] => [String c EmptyString]
           end
  end.

(** ['\n'.join(lines)]. *)
Definition join_nl (lines : list string) : string :=
  String.concat (String nl EmptyString) lines.

(** [s[:n] + '...' if len(s) > n else s]: the preview of a
    replacement detail. *)
Definition preview (n : nat) (s : string) : string :=
  if n <? String.length s then take n s +:+ "..." else s.

(** [str(n)] for a non-negative index, in decimal. *)
Definition digit (n : nat) : ascii := ascii_of_nat (48 + n).

Fixpoint str_of_nat_aux (fuel n : nat) (acc : string) : string :=
  match fuel with
  | O => acc
  | S fuel' =>
      let acc' := String (digit (n mod 10)) acc in
      if n <? 10 then acc' else str_of_nat_aux fuel' (n / 10) acc'
  end.

Definition str_of_nat (n : nat) : string := str_of_nat_aux (S n) n EmptyString.

End PyStr.

(* ===================================================================== *)
(** ** Exceptions                                                          *)
(* ===================================================================== *)

(** The exceptions the modelled code can meet. [ReError] is [re.error]. *)
Inductive exn : Type :=
| ReError
| TypeError
| IndexError
| OSError.

(** What a Python expression yields: a value, or a raised exception. *)
Inductive result (A : Type) : Type :=
| Ok (a : A)
| Raise (e : exn).

Arguments Ok {A} a.
Arguments Raise {A} e.

(** Sequencing: the first exception raised ends the computation. *)
#[global] Instance result_bind : MBind result :=
  fun A B (f : A -> result B) (r : result A) =>
    match r with
    | Ok a => f a
    | Raise e => Raise e
    end.

#[global] Instance result_ret : MRet result := fun A (a : A) => Ok a.

Definition is_ok {A : Type} (r : result A) : bool :=
  match r with Ok _ => true | Raise _ => false end.

(* ===================================================================== *)
(** ** The [re] module, as the sources use it                              *)
(* ===================================================================== *)

Module PyRe.

(** A match object: [m.start()], [m.end()] and [m.groups()]; a group that
    took no part in the match is [None]. *)
Record Match : Type := mkMatch {
  m_start : nat;
  m_end : nat;
  m_groups : list (option string)
}.

(** [m.group(0)]: the matched text. *)
Definition group0 (text : string) (m : Match) : string :=
  PyStr.slice (m_start m) (m_end m) text.

(** The regular-expression engine. The sources only call [re.search] and
    [re.sub]; both compile the pattern and then walk the matches of the
    compiled pattern in the text from left to right.

    - [re_compile p] is [None] when [re.compile(p)] raises [re.error];
    - [pat_groups c] is [c.groups], the number of capture groups;
    - [named_group c name] resolves the name of a [\g<name>] reference
      that is not a decimal number: the index of the group so named, an
      [IndexError] for an identifier that names no group, [re.error] for
      anything else;
    - [finditer c text] lists the successive non-overlapping matches of
      [c] in [text], leftmost first, as [re.sub] replaces them. *)
Record ReEngine : Type := mkEngine {
  pattern : Type;
  re_compile : string -> option pattern;
  pat_groups : pattern -> nat;
  named_group : pattern -> string -> result nat;
  finditer : pattern -> string -> list Match
}.

Section Engine.

Variable E : ReEngine.

Definition compile (p : string) : result (pattern E) :=
  match re_compile E p with
  | Some c => Ok c
  | None => Raise ReError
  end.

(** [re.search(p, text)]: the first match, if any. *)
Definition search (p text : string) : result (option Match) :=
  c ← compile p;
  Ok (List.hd_error (finditer E c text)).

(** The assembly loop of [re.sub]: [i] is the end of the previous
    match; the text between matches is copied, each match is replaced
    by what [repl] returns for it. An exception in [repl] ends the
    substitution. *)
Fixpoint sub_loop (repl : Match -> result string) (text : string)
         (i : nat) (ms : list Match) : result string :=
  match ms with
  | [] => Ok (PyStr.drop i text)
  | m :: ms' =>
      r ← repl m;
      rest ← sub_loop repl text (m_end m) ms';
      Ok (PyStr.slice i (m_start m) text +:+ r +:+ rest)
  end.

(** [re.sub(p, repl, text)] for a callable [repl]. *)
Definition sub_with (p : string) (repl : Match -> result string)
           (text : string) : result string :=
  c ← compile p;
  sub_loop repl text 0 (finditer E c text).

(** *** Replacement templates: [re.sub] with a string [repl] *)

(** A parsed template: literal text and group references. *)
Inductive titem : Type :=
| TLit (s : string)
| TGroup (n : nat).

Definition is_digit (c : ascii) : bool :=
  let n := nat_of_ascii c in (48 <=? n) && (n <=? 57).

Definition is_octdigit (c : ascii) : bool :=
  let n := nat_of_ascii c in (48 <=? n) && (n <=? 55).

Definition is_ascii_letter (c : ascii) : bool :=
  let n := nat_of_ascii c in
  ((65 <=? n) && (n <=? 90)) || ((97 <=? n) && (n <=? 122)).

Definition digit_val (c : ascii) : nat := nat_of_ascii c - 48.

(** [int(name)] for a name made of ASCII decimal digits. *)
Fixpoint decimal_value (acc : nat) (s : string) : nat :=
  match s with
  | EmptyString => acc
  | String c s' => decimal_value (10 * acc + digit_val c) s'
  end.

Fixpoint all_digits (s : string) : bool :=
  match s with
  | EmptyString => true
  | String c s' => is_digit c && all_digits s'
  end.

(** The escapes of a template that stand for one character:
    [\a \b \f \n \r \t \v \\]. *)
Definition template_escape (c : ascii) : option ascii :=
  if Ascii.eqb c "a" then Some "007"%char
  else if Ascii.eqb c "b" then Some "008"%char
  else if Ascii.eqb c "f" then Some "012"%char
  else if Ascii.eqb c "n" then Some "010"%char
  else if Ascii.eqb c "r" then Some "013"%char
  else if Ascii.eqb c "t" then Some "009"%char
  else if Ascii.eqb c "v" then Some "011"%char
  else if Ascii.eqb c "\" then Some "\"%char
  else None.

(** The name of [\g<name>]: the tokens up to the closing [>]; a
    backslash and the character after it are one token. [None] is
    [re.error] (no name, or no closing [>]). *)
Fixpoint getuntil (s : string) (acc : string) : option (string * string) :=
  match s with
  | EmptyString => None
  | String c s' =>
      if Ascii.eqb c ">" then
        match acc with
        | EmptyString => None
        | _ => Some (acc, s')
        end
      else if Ascii.eqb c "\" then
        match s' with
        | EmptyString => None
        | String d s'' => getuntil s'' (acc +:+ String c (String d EmptyString))
        end
      else getuntil s' (acc +:+ String c EmptyString)
  end.

(** A group reference is checked against the number of groups of the
    pattern when the template is parsed. *)
Definition addgroup (c : pattern E) (index : nat) : result titem :=
  if pat_groups E c <? index then Raise ReError else Ok (TGroup index).

Definition cons_item (it : result titem) (rest : result (list titem))
  : result (list titem) :=
  i ← it; r ← rest; Ok (i :: r).

Definition lit1 (c : ascii) : titem := TLit (String c EmptyString).

(** The reader of a template looks one token ahead: a backslash that
    ends the template is refused as soon as the token before it has
    been read, so before the name of a [\g<name>] that precedes it is
    looked up. *)
Definition lone_backslash (s : string) : bool :=
  match s with
  | String c EmptyString => Ascii.eqb c "\"
  | _ => false
  end.

(** [parse_template]: the template is read left to right; [fuel] bounds
    the number of tokens and is the length of the template. *)
Fixpoint parse_template (fuel : nat) (c : pattern E) (s : string)
  : result (list titem) :=
  match fuel with
  | O => match s with EmptyString => Ok [] | _ => Raise ReError end
  | S fuel' =>
      match s with
      | EmptyString => Ok []
      | String a rest =>
          if negb (Ascii.eqb a "\") then
            cons_item (Ok (lit1 a)) (parse_template fuel' c rest)
          else
            match rest with
            | EmptyString => Raise ReError
            | String e rest1 =>
                if Ascii.eqb e "g" then
                  match rest1 with
                  | String "<" rest2 =>
                      match getuntil rest2 EmptyString with
                      | None => Raise ReError
                      | Some (name, rest3) =>
                          if lone_backslash rest3 then Raise ReError
                          else
                            cons_item
                              (index ← (if all_digits name
                                        then Ok (decimal_value 0 name)
                                        else named_group E c name);
                               addgroup c index)
                              (parse_template fuel' c rest3)
                      end
                  | _ => Raise ReError
                  end
                else if Ascii.eqb e "0" then
                  match rest1 with
                  | String d1 rest2 =>
                      if is_octdigit d1 then
                        match rest2 with
                        | String d2 rest3 =>
                            if is_octdigit d2 then
                              cons_item
                                (Ok (lit1 (ascii_of_nat
                                             (8 * digit_val d1 + digit_val d2))))
                                (parse_template fuel' c rest3)
                            else
                              cons_item (Ok (lit1 (ascii_of_nat (digit_val d1))))
                                        (parse_template fuel' c rest2)
                        | EmptyString =>
                            cons_item (Ok (lit1 (ascii_of_nat (digit_val d1))))
                                      (parse_template fuel' c rest2)
                        end
                      else
                        cons_item (Ok (lit1 zero)) (parse_template fuel' c rest1)
                  | EmptyString =>
                      cons_item (Ok (lit1 zero)) (parse_template fuel' c rest1)
                  end
                else if is_digit e then
                  match rest1 with
                  | String d1 rest2 =>
                      if is_digit d1 then
                        match rest2 with
                        | String d2 rest3 =>
                            if is_octdigit e && is_octdigit d1 && is_octdigit d2
                            then
                              let v := 64 * digit_val e + 8 * digit_val d1
                                       + digit_val d2 in
                              if 255 <? v then Raise ReError
                              else cons_item (Ok (lit1 (ascii_of_nat v)))
                                             (parse_template fuel' c rest3)
                            else
                              cons_item
                                (addgroup c (10 * digit_val e + digit_val d1))
                                (parse_template fuel' c rest2)
                        | EmptyString =>
                            cons_item
                              (addgroup c (10 * digit_val e + digit_val d1))
                              (parse_template fuel' c rest2)
                        end
                      else
                        cons_item (addgroup c (digit_val e))
                                  (parse_template fuel' c rest1)
                  | EmptyString =>
                      cons_item (addgroup c (digit_val e))
                                (parse_template fuel' c rest1)
                  end
                else
                  match template_escape e with
                  | Some ch =>
                      cons_item (Ok (lit1 ch)) (parse_template fuel' c rest1)
                  | None =>
                      if is_ascii_letter e then Raise ReError
                      else cons_item
                             (Ok (TLit (String a (String e EmptyString))))
                             (parse_template fuel' c rest1)
                  end
            end
      end
  end.

(** The text a parsed template stands for at one match; a group that
    took no part in the match gives the empty string. *)
Definition expand_item (text : string) (m : Match) (it : titem) : string :=
  match it with
  | TLit s => s
  | TGroup O => group0 text m
  | TGroup (S n) =>
      match nth n (m_groups m) None with
      | Some g => g
      | None => EmptyString
      end
  end.

Definition expand_template (items : list titem) (text : string) (m : Match)
  : string :=
  String.concat EmptyString (map (expand_item text m) items).

(** [re.sub(p, repl, text)] for a string [repl]: the template is
    parsed before the text is searched. *)
Definition sub (p repl text : string) : result string :=
  c ← compile p;
  items ← parse_template (String.length repl) c repl;
  sub_loop (fun m => Ok (expand_template items text m)) text 0
           (finditer E c text).

End Engine.

End PyRe.

(* ===================================================================== *)
(** ** A regular-expression engine for a fragment of Python's syntax       *)
(* ===================================================================== *)

(** The fragment: literal characters, [.], [^], [$], the classes
    [\d \D \w \W \s \S], character sets [[...]] and [[^...]] with ranges,
    escaped punctuation, the control escapes [\a \f \n \r \t \v], capture
    groups [( )], plain groups [(?: )], alternation [|] and the greedy
    repeats [*], [+], [?]. Matching is by backtracking, the first
    alternative and the longest repeat tried first, as in CPython.

    A pattern outside the fragment (lazy or counted repeats, look-around,
    back-references, named groups, flags, [\b] and other escapes) is
    reported as [PUnsupported] by the parser. *)

Module Frag.

Inductive citem : Type :=
| CLit (c : ascii)
| CRange (lo hi : ascii)
| CDigit | CNotDigit
| CWord | CNotWord
| CSpace | CNotSpace.

Inductive regex : Type :=
| REmpty
| RChar (c : ascii)
| RAny
| RIn (negate : bool) (items : list citem)
| RSeq (r1 r2 : regex)
| RAlt (r1 r2 : regex)
| RRepeat (lo : nat) (hi : option nat) (r : regex)
| RGroup (n : nat) (r : regex)
| RBol
| REol.

(** [\d], [\w] and [\s] on code points below 256, for a [str] pattern. *)
Definition is_digit (c : ascii) : bool :=
  let n := nat_of_ascii c in (48 <=? n) && (n <=? 57).

Definition is_word (c : ascii) : bool :=
  let n := nat_of_ascii c in
  ((48 <=? n) && (n <=? 57)) || ((65 <=? n) && (n <=? 90)) || (n =? 95)
  || ((97 <=? n) && (n <=? 122)) || (n =? 170) || (n =? 178) || (n =? 179)
  || (n =? 181) || (n =? 185) || (n =? 186) || ((188 <=? n) && (n <=? 190))
  || ((192 <=? n) && (n <=? 214)) || ((216 <=? n) && (n <=? 246))
  || (248 <=? n).

Definition citem_mem (a : ascii) (it : citem) : bool :=
  match it with
  | CLit c => Ascii.eqb a c
  | CRange lo hi =>
      (nat_of_ascii lo <=? nat_of_ascii a) && (nat_of_ascii a <=? nat_of_ascii hi)
  | CDigit => is_digit a
  | CNotDigit => negb (is_digit a)
  | CWord => is_word a
  | CNotWord => negb (is_word a)
  | CSpace => PyStr.isspace a
  | CNotSpace => negb (PyStr.isspace a)
  end.

Definition set_mem (negate : bool) (items : list citem) (a : ascii) : bool :=
  xorb negate (existsb (citem_mem a) items).

(** The groups captured so far, group [i] at index [i - 1]. *)
Definition caps : Type := list (option string).

Fixpoint set_cap (i : nat) (v : string) (c : caps) : caps :=
  match c, i with
  | [], _ => []
  | _ :: c', O => Some v :: c'
  | x :: c', S i' => x :: set_cap i' v c'
  end.

(** A match in progress: the text not yet consumed, and the captures. *)
Definition mstate : Type := (string * caps)%type.

Definition is_eol (s : string) : bool :=
  match s with
  | EmptyString => true
  | String c EmptyString => Ascii.eqb c PyStr.nl
  | _ => false
  end.

(** [rmatch r n0 s c k]: match [r] at the front of [s] (the whole text
    has length [n0]) and hand what is left to the continuation [k];
    [None] when no way of matching [r] makes [k] succeed.

    A repeat first makes its [lo] compulsory rounds. After them a further
    round is tried, before the rest of the pattern, while the bound [hi]
    allows it and the previous optional round has consumed text; the
    inner counter is the length of the text left plus one, which this
    rule never exhausts. *)
Fixpoint rmatch (r : regex) (n0 : nat) (s : string) (c : caps)
         (k : string -> caps -> option mstate) {struct r} : option mstate :=
  match r with
  | REmpty => k s c
  | RChar a =>
      match s with
      | String b s' => if Ascii.eqb a b then k s' c else None
      | EmptyString => None
      end
  | RAny =>
      match s with
      | String b s' => if Ascii.eqb b PyStr.nl then None else k s' c
      | EmptyString => None
      end
  | RIn negate items =>
      match s with
      | String b s' => if set_mem negate items b then k s' c else None
      | EmptyString => None
      end
  | RSeq r1 r2 => rmatch r1 n0 s c (fun s' c' => rmatch r2 n0 s' c' k)
  | RAlt r1 r2 =>
      match rmatch r1 n0 s c k with
      | Some res => Some res
      | None => rmatch r2 n0 s c k
      end
  | RGroup i r1 =>
      rmatch r1 n0 s c
        (fun s' c' =>
           k s' (set_cap (i - 1)
                         (PyStr.take (String.length s - String.length s') s) c'))
  | RRepeat lo hi r1 =>
      let more :=
        fix more (n : nat) (left : option nat) (last : option nat)
            (s : string) (c : caps) {struct n} : option mstate :=
          let allowed :=
            match left with Some O => false | _ => true end
            && negb (match last with
                     | Some l => l =? String.length s
                     | None => false
                     end) in
          match n with
          | S n' =>
              if allowed then
                match rmatch r1 n0 s c
                        (fun s' c' =>
                           more n' (option_map Nat.pred left)
                                (Some (String.length s)) s' c') with
                | Some res => Some res
                | None => k s c
                end
              else k s c
          | O => k s c
          end in
      (fix must (j : nat) (s : string) (c : caps) {struct j} : option mstate :=
         match j with
         | S j' => rmatch r1 n0 s c (fun s' c' => must j' s' c')
         | O =>
             more (S (String.length s))
                  (option_map (fun h => h - lo) hi) None s c
         end) lo s c
  | RBol => if String.length s =? n0 then k s c else None
  | REol => if is_eol s then k s c else None
  end.

(** A compiled pattern: its syntax tree and its number of groups. *)
Record compiled : Type := mkCompiled {
  c_regex : regex;
  c_groups : nat
}.

(** One attempt at the front of [s]. With [must_advance] an empty match
    is refused and the matcher backtracks for a longer one. *)
Definition match_here (p : compiled) (n0 : nat) (must_advance : bool)
           (s : string) : option mstate :=
  rmatch (c_regex p) n0 s (repeat None (c_groups p))
         (fun s' c' =>
            if must_advance && (String.length s' =? String.length s)
            then None else Some (s', c')).

(** The leftmost match at or after the front of [s]: the text at its
    start, the text after its end, and the groups. [must_advance] only
    binds the first position tried. *)
Fixpoint scan (p : compiled) (n0 : nat) (must_advance : bool) (s : string)
  : option (string * string * caps) :=
  match match_here p n0 must_advance s with
  | Some (s', c') => Some (s, s', c')
  | None =>
      match s with
      | EmptyString => None
      | String _ s1 => scan p n0 false s1
      end
  end.

(** The successive matches [re.sub] and [re.finditer] walk through: the
    search resumes at the end of the previous match, and after an empty
    match the next one must advance. Each round either shortens the
    text left or turns [must_advance] on, so [fuel] twice the length of
    the text, plus two, is never exhausted. *)
Fixpoint matches_from (fuel : nat) (p : compiled) (n0 : nat)
         (must_advance : bool) (s : string) : list PyRe.Match :=
  match fuel with
  | O => []
  | S fuel' =>
      match scan p n0 must_advance s with
      | None => []
      | Some (s1, s2, c') =>
          PyRe.mkMatch (n0 - String.length s1) (n0 - String.length s2) c'
          :: matches_from fuel' p n0
               (String.length s2 =? String.length s1) s2
      end
  end.

Definition finditer (p : compiled) (text : string) : list PyRe.Match :=
  let n0 := String.length text in
  matches_from (2 * n0 + 2) p n0 false text.

(** *** Parsing a pattern *)

(** The outcome of parsing: a syntax tree, [re.error], or a pattern that
    is outside the fragment. *)
Inductive parsed (A : Type) : Type :=
| POk (a : A)
| PErr
| PUnsupported.

Arguments POk {A} a.
Arguments PErr {A}.
Arguments PUnsupported {A}.

#[global] Instance parsed_bind : MBind parsed :=
  fun A B (f : A -> parsed B) (r : parsed A) =>
    match r with
    | POk a => f a
    | PErr => PErr
    | PUnsupported => PUnsupported
    end.

Definition is_ascii_alnum (c : ascii) : bool :=
  let n := nat_of_ascii c in
  ((48 <=? n) && (n <=? 57)) || ((65 <=? n) && (n <=? 90))
  || ((97 <=? n) && (n <=? 122)).

(** The escapes that stand for a control character. [\b] is a backspace
    inside a set only. *)
Definition control_escape (in_set : bool) (c : ascii) : option ascii :=
  if Ascii.eqb c "a" then Some "007"%char
  else if Ascii.eqb c "b" then (if in_set then Some "008"%char else None)
  else if Ascii.eqb c "f" then Some "012"%char
  else if Ascii.eqb c "n" then Some "010"%char
  else if Ascii.eqb c "r" then Some "013"%char
  else if Ascii.eqb c "t" then Some "009"%char
  else if Ascii.eqb c "v" then Some "011"%char
  else None.

Definition category_escape (c : ascii) : option citem :=
  if Ascii.eqb c "d" then Some CDigit
  else if Ascii.eqb c "D" then Some CNotDigit
  else if Ascii.eqb c "w" then Some CWord
  else if Ascii.eqb c "W" then Some CNotWord
  else if Ascii.eqb c "s" then Some CSpace
  else if Ascii.eqb c "S" then Some CNotSpace
  else None.

(** The character after a backslash. *)
Definition escape (in_set : bool) (c : ascii) : parsed citem :=
  match category_escape c with
  | Some cat => POk cat
  | None =>
      match control_escape in_set c with
      | Some ch => POk (CLit ch)
      | None => if is_ascii_alnum c then PUnsupported else POk (CLit c)
      end
  end.

(** One member of a set: a character or an escape. *)
Definition set_atom (s : string) : parsed (citem * string) :=
  match s with
  | EmptyString => PErr
  | String c rest =>
      if Ascii.eqb c "\" then
        match rest with
        | EmptyString => PErr
        | String e rest' => it ← escape true e; POk (it, rest')
        end
      else POk (CLit c, rest)
  end.

(** The members of a set, after [[] or [[^]; a []] in first place is a
    member, a [-] before the closing []] is a member, and the ends of a
    range are characters in increasing order. *)
Fixpoint parse_set (fuel : nat) (s : string) (acc : list citem)
  : parsed (list citem * string) :=
  match fuel with
  | O => PUnsupported
  | S fuel' =>
      match s with
      | EmptyString => PErr
      | String c rest =>
          if Ascii.eqb c "]" && negb (match acc with [] => true | _ => false end)
          then POk (rev acc, rest)
          else
            '(code1, rest1) ← set_atom s;
            match rest1 with
            | String "-" rest2 =>
                match rest2 with
                | EmptyString => PErr
                | String "]" rest3 => POk (rev (CLit "-" :: code1 :: acc), rest3)
                | _ =>
                    '(code2, rest3) ← set_atom rest2;
                    match code1, code2 with
                    | CLit lo, CLit hi =>
                        if nat_of_ascii hi <? nat_of_ascii lo then PErr
                        else parse_set fuel' rest3 (CRange lo hi :: acc)
                    | _, _ => PErr
                    end
                end
            | _ => parse_set fuel' rest1 (code1 :: acc)
            end
      end
  end.

Fixpoint skip_digits (s : string) : string :=
  match s with
  | String c s' => if is_digit c then skip_digits s' else s
  | EmptyString => s
  end.

(** Whether the text after a [{] makes it a counted repeat, [{m}],
    [{m,}], [{,n}] or [{m,n}]; otherwise the brace is a plain
    character. *)
Definition is_counted_repeat (s : string) : bool :=
  match s with
  | String "}" _ => false
  | _ =>
      match skip_digits s with
      | String "}" _ => true
      | String "," s' =>
          match skip_digits s' with
          | String "}" _ => true
          | _ => false
          end
      | _ => false
      end
  end.

Definition is_anchor (r : regex) : bool :=
  match r with RBol | REol => true | _ => false end.

(** The repeat after an item, if any. *)
Definition parse_repeat (item : regex) (s : string) : parsed (regex * string) :=
  let after (lo : nat) (hi : option nat) (rest : string) :=
    if is_anchor item then PErr
    else match rest with
         | String "?" _ | String "+" _ => PUnsupported
         | String "*" _ => PErr
         | String "{" rest' =>
             if is_counted_repeat rest' then PUnsupported
             else POk (RRepeat lo hi item, rest)
         | _ => POk (RRepeat lo hi item, rest)
         end in
  match s with
  | String "*" rest => after 0 None rest
  | String "+" rest => after 1 None rest
  | String "?" rest => after 0 (Some 1) rest
  | String "{" rest =>
      if is_counted_repeat rest then PUnsupported else POk (item, s)
  | _ => POk (item, s)
  end.

(** [parse_alt] reads alternatives up to a [)] or the end of the
    pattern, [parse_seq] one alternative, [parse_item] one item before
    its repeat. [g] is the number of groups opened so far; groups are
    numbered from 1 in the order of their opening parenthesis. Every
    call consumes a character or moves to the next function, so [fuel]
    four times the length of the pattern is never exhausted. *)
Fixpoint parse_alt (fuel : nat) (s : string) (g : nat)
  : parsed (regex * string * nat) :=
  match fuel with
  | O => PUnsupported
  | S fuel' =>
      '(r1, rest, g1) ← parse_seq fuel' s g;
      match rest with
      | String "|" rest' =>
          '(r2, rest2, g2) ← parse_alt fuel' rest' g1;
          POk (RAlt r1 r2, rest2, g2)
      | _ => POk (r1, rest, g1)
      end
  end
with parse_seq (fuel : nat) (s : string) (g : nat)
  : parsed (regex * string * nat) :=
  match fuel with
  | O => PUnsupported
  | S fuel' =>
      match s with
      | EmptyString => POk (REmpty, s, g)
      | String "|" _ => POk (REmpty, s, g)
      | String ")" _ => POk (REmpty, s, g)
      | _ =>
          '(item, rest, g1) ← parse_item fuel' s g;
          '(item', rest1) ← parse_repeat item rest;
          '(r2, rest2, g2) ← parse_seq fuel' rest1 g1;
          POk (RSeq item' r2, rest2, g2)
      end
  end
with parse_item (fuel : nat) (s : string) (g : nat)
  : parsed (regex * string * nat) :=
  match fuel with
  | O => PUnsupported
  | S fuel' =>
      match s with
      | EmptyString => PErr
      | String c rest =>
          if Ascii.eqb c "(" then
            match rest with
            | String "?" (String ":" rest') =>
                '(r, rest1, g1) ← parse_alt fuel' rest' g;
                match rest1 with
                | String ")" rest2 => POk (r, rest2, g1)
                | _ => PErr
                end
            | String "?" _ => PUnsupported
            | _ =>
                '(r, rest1, g1) ← parse_alt fuel' rest (S g);
                match rest1 with
                | String ")" rest2 => POk (RGroup (S g) r, rest2, g1)
                | _ => PErr
                end
            end
          else if Ascii.eqb c "[" then
            let '(negate, body) :=
              match rest with
              | String "^" rest' => (true, rest')
              | _ => (false, rest)
              end in
            '(items, rest1) ← parse_set (S (String.length body)) body [];
            POk (RIn negate items, rest1, g)
          else if Ascii.eqb c "\" then
            match rest with
            | EmptyString => PErr
            | String e rest' =>
                it ← escape false e;
                POk (match it with
                     | CLit ch => RChar ch
                     | _ => RIn false [it]
                     end, rest', g)
            end
          else if Ascii.eqb c "." then POk (RAny, rest, g)
          else if Ascii.eqb c "^" then POk (RBol, rest, g)
          else if Ascii.eqb c "$" then POk (REol, rest, g)
          else if Ascii.eqb c "*" || Ascii.eqb c "+" || Ascii.eqb c "?"
          then PErr
          else if Ascii.eqb c "{" && is_counted_repeat rest then PUnsupported
          else POk (RChar c, rest, g)
      end
  end.

(** [re.compile(p)] on the fragment. A [)] left over closes no group. *)
Definition parse (p : string) : parsed compiled :=
  '(r, rest, g) ← parse_alt (4 * String.length p + 4) p 0;
  match rest with
  | EmptyString => POk (mkCompiled r g)
  | _ => PErr
  end.

(** Whether a name is an identifier, [name.isidentifier()], on code
    points below 256. *)
Definition is_id_start (c : ascii) : bool :=
  let n := nat_of_ascii c in
  ((65 <=? n) && (n <=? 90)) || (n =? 95) || ((97 <=? n) && (n <=? 122))
  || (n =? 170) || (n =? 181) || (n =? 186)
  || ((192 <=? n) && (n <=? 214)) || ((216 <=? n) && (n <=? 246))
  || (248 <=? n).

Definition is_id_continue (c : ascii) : bool :=
  is_id_start c || is_digit c || (nat_of_ascii c =? 183).

Fixpoint all_chars (f : ascii -> bool) (s : string) : bool :=
  match s with
  | EmptyString => true
  | String c s' => f c && all_chars f s'
  end.

Definition isidentifier (s : string) : bool :=
  match s with
  | EmptyString => false
  | String c s' => is_id_start c && all_chars is_id_continue s'
  end.

(** The engine of the fragment. It has no named groups: an identifier
    names no group, and any other name is refused. A pattern outside
    the fragment is not compiled; the examples below only use patterns
    of the fragment, and patterns that CPython refuses too. *)
Definition engine : PyRe.ReEngine :=
  {| PyRe.pattern := compiled;
     PyRe.re_compile := fun p =>
       match parse p with
       | POk c => Some c
       | _ => None
       end;
     PyRe.pat_groups := c_groups;
     PyRe.named_group := fun _ name =>
       if isidentifier name then Raise IndexError else Raise ReError;
     PyRe.finditer := finditer |}.

End Frag.

(* ===================================================================== *)
(** ** Documents                                                           *)
(* ===================================================================== *)

(** A document as the sources see it through [python-docx]: the top-level
    paragraphs, and the tables, each a list of rows of cells of
    paragraphs. A paragraph is its text. *)
Definition Cell : Type := list string.
Definition Row : Type := list Cell.
Definition Table : Type := list Row.

Record Document : Type := mkDocument {
  paragraphs : list string;
  tables : list Table
}.

(** [cell.text]: the paragraphs of the cell joined by newlines. *)
Definition cell_text (c : Cell) : string := PyStr.join_nl c.

(** [extract_full_text_lines(doc)], the same in both scanners: the text of
    every top-level paragraph, then the text of every cell. *)
Definition extract_full_text_lines (doc : Document) : list string :=
  paragraphs doc
  ++ flat_map (fun t : Table => flat_map (fun r : Row => map cell_text r) t)
              (tables doc).

(* ===================================================================== *)
(** ** The replacement engine ([DocXReplace_v3.0.py])                      *)
(* ===================================================================== *)

Module Replace.

(** A value of the replacement map as [json.load] gives it: a string, or
    a scalar that is not a string. *)
Inductive json_value : Type :=
| JString (s : string)
| JNumber (n : nat)
| JBool (b : bool)
| JNull.

(** The replacement map: a [dict] from [json.load], iterated with
    [.items()] in insertion order. *)
Definition replacement_map : Type := list (string * json_value).

Definition placeholder : string := "{{match}}".

(** The loop of [replace_with_match] over [match.groups()]: each group
    replaces the first placeholder left in the replacement built so far;
    a group that is [None] makes [str.replace] raise [TypeError]. *)
Fixpoint fill_groups (replacement : string) (gs : list (option string))
  : result string :=
  match gs with
  | [] => Ok replacement
  | Some g :: gs' =>
      fill_groups (PyStr.replace_first placeholder g replacement) gs'
  | None :: _ => Raise TypeError
  end.

(** [replace_with_match(match)], the callback given to [re.sub]. *)
Definition replace_with_match (new_text text : string) (m : PyRe.Match)
  : result string :=
  match PyRe.m_groups m with
  | [] => Ok (PyStr.replace placeholder (PyRe.group0 text m) new_text)
  | gs => fill_groups new_text gs
  end.

Section Engine.

Variable E : PyRe.ReEngine.

(** The body of the [try] for one rule: what [modified_text] would be
    assigned, or the exception raised before the assignment. *)
Definition rule_body (regex_mode : bool) (old_text : string)
           (new_text : json_value) (modified_text : string) : result string :=
  if regex_mode then
    match new_text with
    | JString nt =>
        if PyStr.contains placeholder nt
        then PyRe.sub_with E old_text
               (replace_with_match nt modified_text) modified_text
        else PyRe.sub E old_text nt modified_text
    | _ => Raise TypeError
    end
  else
    if PyStr.contains old_text modified_text then
      match new_text with
      | JString nt => Ok (PyStr.replace old_text nt modified_text)
      | _ => Raise TypeError
      end
    else Ok modified_text.

(** One round of the loop over the rules: both [except] clauses
    [continue], leaving [modified_text] as it was. *)
Definition apply_rule (regex_mode : bool) (modified_text : string)
           (rule : string * json_value) : string :=
  match rule_body regex_mode (fst rule) (snd rule) modified_text with
  | Ok t => t
  | Raise _ => modified_text
  end.

(** The loop over [replacement_map.items()] for one paragraph. *)
Definition apply_rules (regex_mode : bool) (rules : replacement_map)
           (text : string) : string :=
  fold_left (apply_rule regex_mode) rules text.

(** An entry of [replacement_details]. *)
Record detail : Type := mkDetail {
  location : string;
  original : string;
  modified : string
}.

(** The two results the function builds as it goes:
    [replacements_made] and [replacement_details]. *)
Definition tally : Type := (nat * list detail)%type.

(** One paragraph of either loop. When the text has changed the
    paragraph is rewritten, the counter is incremented and a detail
    with the texts cut to [cut] characters is appended. *)
Definition process_paragraph (regex_mode : bool) (rules : replacement_map)
           (cut : nat) (loc : string) (acc : tally) (original_text : string)
  : string * tally :=
  let modified_text := apply_rules regex_mode rules original_text in
  if negb (String.eqb modified_text original_text) then
    (modified_text,
     (fst acc + 1,
      snd acc ++ [mkDetail loc (PyStr.preview cut original_text)
                           (PyStr.preview cut modified_text)]))
  else (original_text, acc).

(** [for i, x in enumerate(l)], threading the tally. *)
Fixpoint enum_loop {A : Type} (f : nat -> tally -> A -> A * tally)
         (i : nat) (acc : tally) (l : list A) : list A * tally :=
  match l with
  | [] => ([], acc)
  | x :: l' =>
      let '(y, acc1) := f i acc x in
      let '(ys, acc2) := enum_loop f (S i) acc1 l' in
      (y :: ys, acc2)
  end.

Definition para_location (para_idx : nat) : string :=
  "paragraph_" +:+ PyStr.str_of_nat para_idx.

Definition cell_location (table_idx row_idx cell_idx para_idx : nat) : string :=
  "table_" +:+ PyStr.str_of_nat table_idx
  +:+ "_row_" +:+ PyStr.str_of_nat row_idx
  +:+ "_cell_" +:+ PyStr.str_of_nat cell_idx
  +:+ "_para_" +:+ PyStr.str_of_nat para_idx.

(** The loop over [doc.paragraphs]. *)
Definition process_paragraphs (regex_mode : bool) (rules : replacement_map)
           (acc : tally) (ps : list string) : list string * tally :=
  enum_loop (fun para_idx =>
               process_paragraph regex_mode rules 100 (para_location para_idx))
            0 acc ps.

(** The loops over [doc.tables], rows, cells and their paragraphs. *)
Definition process_tables (regex_mode : bool) (rules : replacement_map)
           (acc : tally) (ts : list Table) : list Table * tally :=
  enum_loop (fun table_idx acc1 =>
    enum_loop (fun row_idx acc2 =>
      enum_loop (fun cell_idx acc3 =>
        enum_loop (fun para_idx =>
          process_paragraph regex_mode rules 50
            (cell_location table_idx row_idx cell_idx para_idx))
          0 acc3) 0 acc2) 0 acc1)
    0 acc ts.

(** [perform_replacement_in_doc]: the document as the run leaves it,
    [replacements_made] and [replacement_details]. *)
Definition perform_replacement_in_doc (doc : Document)
           (rules : replacement_map) (regex_mode : bool)
  : Document * nat * list detail :=
  let '(ps, acc1) := process_paragraphs regex_mode rules (0, []) (paragraphs doc) in
  let '(ts, acc2) := process_tables regex_mode rules acc1 (tables doc) in
  (mkDocument ps ts, fst acc2, snd acc2).

(** Every paragraph the function visits, in the order of the visit. *)
Definition editable_paragraphs (doc : Document) : list string :=
  paragraphs doc
  ++ flat_map (fun t : Table =>
       flat_map (fun r : Row => flat_map (fun c : Cell => c) r) t)
       (tables doc).

End Engine.

End Replace.

(* ===================================================================== *)
(** ** The scanners                                                        *)
(* ===================================================================== *)

Module Scan.

(** *** [scan_documents] of [DocXScan_v3.0.py], for one file *)

(** The lines of the full text that hold [token], stripped. *)
Definition lines_with (token full_text : string) : list string :=
  map PyStr.strip
      (List.filter (fun line => PyStr.contains token line)
              (PyStr.split_nl full_text)).

(** One round of the loop over [patterns]: the lists [matched] and
    [matched_lines] after it. *)
Definition scan_token (full_text : string)
           (acc : list string * list string) (token : string)
  : list string * list string :=
  if PyStr.contains token full_text
  then (fst acc ++ [token], snd acc ++ lines_with token full_text)
  else acc.

(** The scan of one document: [matched] and [matched_lines]. *)
Definition scan_document (patterns : list string) (doc : Document)
  : list string * list string :=
  let full_text := PyStr.join_nl (extract_full_text_lines doc) in
  fold_left (scan_token full_text) patterns ([], []).

(** *** [get_matching_lines_combined] of [docx_scan_final_1.0.py] *)

Section Engine.

Variable E : PyRe.ReEngine.

(** The test [if re.search(pattern, line)] when the pattern compiles:
    whether there is a match. *)
Definition found (pattern line : string) : bool :=
  match PyRe.search E pattern line with
  | Ok (Some _) => true
  | _ => false
  end.

(** The inner loop, over the patterns, for one line. *)
Fixpoint match_line (line : string) (patterns : list string)
         (acc : gset string * list string)
  : result (gset string * list string) :=
  match patterns with
  | [] => Ok acc
  | pattern :: patterns' =>
      found ← PyRe.search E pattern line;
      match_line line patterns'
        (match found with
         | Some _ => ({[ pattern ]} ∪ fst acc, snd acc ++ [PyStr.strip line])
         | None => acc
         end)
  end.

(** The outer loop, over the lines. *)
Fixpoint match_lines (lines patterns : list string)
         (acc : gset string * list string)
  : result (gset string * list string) :=
  match lines with
  | [] => Ok acc
  | line :: lines' =>
      acc' ← match_line line patterns acc;
      match_lines lines' patterns acc'
  end.

(** The function on an opened document: [matched_patterns] and
    [matched_lines]; any exception gives two empty results. *)
Definition get_matching_lines_combined (doc : Document)
           (patterns : list string) : gset string * list string :=
  match match_lines (extract_full_text_lines doc) patterns (∅, []) with
  | Ok r => r
  | Raise _ => (∅, [])
  end.

End Engine.

(** *** The order the specification asks of the excerpts *)

(** The hits of a scan in document order: line after line, and for each
    line one excerpt for every pattern that matches it. *)
Definition hits_in_document_order (matches : string -> string -> bool)
           (patterns lines : list string) : list string :=
  flat_map (fun line =>
              map (fun _ => PyStr.strip line)
                  (List.filter (fun pattern => matches pattern line) patterns))
           lines.

End Scan.

(* ===================================================================== *)
(** ** The batch driver ([process_replacements])                           *)
(* ===================================================================== *)

Module Batch.

Definition dry_run : string := "Dry Run (preview only)".
Definition modified_copies : string := "Create Modified Copies (originals untouched)".
Definition in_place : string := "In-place Replace (modify originals)".

(** The file system and clock the driver works on. Looking at the world
    ([os.path.exists], [Document(path)], [datetime.now()]) leaves it as
    it is; [doc.save] and [create_output_copy] give a new world, also
    when they raise. [create_output_copy], which makes the session
    directory and copies the file into it, is taken as one operation:
    it returns [(output_dir, output_path)]. *)
Record OS (W : Type) : Type := mkOS {
  path_exists : W -> string -> bool;
  load_document : W -> string -> result Document;
  save_document : W -> Document -> string -> W * result unit;
  create_output_copy : W -> string -> string -> string -> W * result (string * string);
  timestamp : W -> string
}.

Arguments path_exists {W}.
Arguments load_document {W}.
Arguments save_document {W}.
Arguments create_output_copy {W}.
Arguments timestamp {W}.

(** What the worker does, in order; [i] is the index of the file in
    [loaded_files]. *)
Inductive event : Type :=
| EvPoll (i : nat)
| EvExists (i : nat)
| EvOpen (i : nat)
| EvCopy (i : nat)
| EvSave (i : nat) (path : string).

(** The local variables of the loop, the world, and the events so far. *)
Record state (W : Type) : Type := mkState {
  world : W;
  processed_files : nat;
  modified_files : nat;
  total_replacements : nat;
  current_output_dir : option string;
  session_timestamp : option string;
  trace : list event
}.

Arguments mkState {W}.
Arguments world {W}.
Arguments processed_files {W}.
Arguments modified_files {W}.
Arguments total_replacements {W}.
Arguments current_output_dir {W}.
Arguments session_timestamp {W}.
Arguments trace {W}.

Section Driver.

Context {W : Type}.
Variable os : OS W.
Variable E : PyRe.ReEngine.

(** The settings of the run. *)
Variable mode : string.
Variable backup_root : string.
Variable rules : Replace.replacement_map.
Variable regex_mode : bool.

(** [stop_at i] is the value of [self.stop_processing] when the worker
    reads it before file [i]; the flag is set from another thread. *)
Variable stop_at : nat -> bool.

Definition log (ev : event) (st : state W) : state W :=
  mkState (world st) (processed_files st) (modified_files st)
          (total_replacements st) (current_output_dir st)
          (session_timestamp st) (trace st ++ [ev]).

Definition set_world (w : W) (st : state W) : state W :=
  mkState w (processed_files st) (modified_files st)
          (total_replacements st) (current_output_dir st)
          (session_timestamp st) (trace st).

(** The part of the [try] after [perform_replacement_in_doc] for a
    file with [replacements_made > 0]. The state is returned also
    when an exception ends the [try]: the assignments made before it
    stay. *)
Definition write_out (i : nat) (file_path : string) (doc : Document)
           (replacements_made : nat) (st : state W) : state W * result unit :=
  if String.eqb mode dry_run then
    (mkState (world st) (processed_files st) (modified_files st + 1)
             (total_replacements st) (current_output_dir st)
             (session_timestamp st) (trace st), Ok ())
  else if PyStr.contains "Modified Copies" mode then
    let ts :=
      match current_output_dir st with
      | None => Some (timestamp os (world st))
      | Some _ => session_timestamp st
      end in
    let ts_arg := match ts with Some t => t | None => timestamp os (world st) end in
    let '(w1, copied) :=
      create_output_copy os (world st) file_path backup_root ts_arg in
    let st1 :=
      mkState w1 (processed_files st) (modified_files st)
              (total_replacements st) (current_output_dir st) ts
              (trace st ++ [EvCopy i]) in
    match copied with
    | Raise e => (st1, Raise e)
    | Ok (output_dir, output_file_path) =>
        let dir :=
          match current_output_dir st with
          | None => Some output_dir
          | Some d => Some d
          end in
        let '(w2, saved) := save_document os w1 doc output_file_path in
        let st2 :=
          mkState w2 (processed_files st) (modified_files st)
                  (total_replacements st) dir ts
                  (trace st1 ++ [EvSave i output_file_path]) in
        match saved with
        | Raise e => (st2, Raise e)
        | Ok _ =>
            (mkState w2 (processed_files st) (modified_files st + 1)
                     (total_replacements st + replacements_made) dir ts
                     (trace st2), Ok ())
        end
    end
  else
    let '(w1, saved) := save_document os (world st) doc file_path in
    let st1 := log (EvSave i file_path) (set_world w1 st) in
    match saved with
    | Raise e => (st1, Raise e)
    | Ok _ =>
        (mkState w1 (processed_files st) (modified_files st + 1)
                 (total_replacements st + replacements_made)
                 (current_output_dir st) (session_timestamp st)
                 (trace st1), Ok ())
    end.

(** The body of the loop for a file that is there: the [try] and its
    [except], which logs and goes on to the next file. *)
Definition process_file (i : nat) (file_path : string) (st : state W)
  : state W :=
  let st := log (EvOpen i) st in
  match load_document os (world st) file_path with
  | Raise _ => st
  | Ok doc =>
      let '(doc', replacements_made, _) :=
        Replace.perform_replacement_in_doc E doc rules regex_mode in
      let '(st1, r) :=
        if 0 <? replacements_made
        then write_out i file_path doc' replacements_made st
        else (st, Ok ()) in
      match r with
      | Raise _ => st1
      | Ok _ =>
          mkState (world st1) (processed_files st1 + 1) (modified_files st1)
                  (total_replacements st1) (current_output_dir st1)
                  (session_timestamp st1) (trace st1)
      end
  end.

(** [for i, file_path in enumerate(self.loaded_files)]; the second
    component tells whether the loop was left by [break]. *)
Fixpoint loop (i : nat) (files : list string) (st : state W)
  : state W * bool :=
  match files with
  | [] => (st, false)
  | file_path :: files' =>
      let st := log (EvPoll i) st in
      if stop_at i then (st, true)
      else
        let st := log (EvExists i) st in
        if negb (path_exists os (world st) file_path)
        then loop (S i) files' st
        else loop (S i) files' (process_file i file_path st)
  end.

Definition initial (w : W) : state W := mkState w 0 0 0 None None [].

(** [process_replacements]: [None] when the checks before the loop
    refuse the run (no file, no rule, or no output folder for the
    copies); otherwise the state after the loop and whether the run
    was stopped. *)
Definition process_replacements (w : W) (loaded_files : list string)
  : option (state W * bool) :=
  match loaded_files, rules with
  | [], _ => None
  | _, [] => None
  | _, _ =>
      if negb (String.eqb mode dry_run)
         && PyStr.contains "Modified Copies" mode
         && String.eqb backup_root ""
      then None
      else Some (loop 0 loaded_files (initial w))
  end.

(** *** What a run is measured against *)

(** The files the loop reaches: those before the first one at which
    the flag is found set. *)
Fixpoint reached (i : nat) (files : list string) : list string :=
  match files with
  | [] => []
  | file_path :: files' =>
      if stop_at i then [] else file_path :: reached (S i) files'
  end.

(** A file that is there and opens as a document. *)
Definition readable (w : W) (file_path : string) : bool :=
  path_exists os w file_path && is_ok (load_document os w file_path).

(** A file in which the rules change at least one paragraph. *)
Definition would_change (w : W) (file_path : string) : bool :=
  path_exists os w file_path
  && match load_document os w file_path with
     | Ok doc =>
         0 <? snd (fst (Replace.perform_replacement_in_doc
                          E doc rules regex_mode))
     | Raise _ => false
     end.

(** A file that goes through, in the state in which the loop comes to
    it: it is there, it opens, and what the mode writes for it is
    written without an exception. *)
Definition goes_through (i : nat) (file_path : string) (st : state W) : bool :=
  path_exists os (world st) file_path
  && match load_document os (world st) file_path with
     | Raise _ => false
     | Ok doc =>
         let '(doc', replacements_made, _) :=
           Replace.perform_replacement_in_doc E doc rules regex_mode in
         if 0 <? replacements_made
         then is_ok (snd (write_out i file_path doc' replacements_made
                            (log (EvOpen i) st)))
         else true
     end.

(** Every file the run comes to before it is stopped goes through, each
    in the state the files before it have left. *)
Fixpoint all_go_through (i : nat) (files : list string) (st : state W) : bool :=
  match files with
  | [] => true
  | file_path :: files' =>
      if stop_at i then true
      else
        let st := log (EvExists i) (log (EvPoll i) st) in
        goes_through i file_path st
        && all_go_through (S i) files' (process_file i file_path st)
  end.

End Driver.

(** The file an event is about. *)
Definition event_index (ev : event) : nat :=
  match ev with
  | EvPoll i | EvExists i | EvOpen i | EvCopy i | EvSave i _ => i
  end.

Definition is_poll (ev : event) : bool :=
  match ev with EvPoll _ => true | _ => false end.

(** The events that write: a copy made, a document saved. *)
Definition is_write (ev : event) : bool :=
  match ev with EvCopy _ | EvSave _ _ => true | _ => false end.

(** The events of the work on file [i]: about that file, and no
    reading of the flag among them. *)
Definition events_of_file (i : nat) (evs : list event) : Prop :=
  Forall (fun ev => event_index ev = i /\ is_poll ev = false) evs.

(** The events of a run stopped before file [k]: none is about a later
    file, and the only one about file [k] is the reading of the flag. *)
Definition events_up_to (k : nat) (evs : list event) : Prop :=
  Forall (fun ev => event_index ev <= k
                    /\ (event_index ev = k -> ev = EvPoll k)) evs.

End Batch.

(* ===================================================================== *)
(** ** The backup history ([process_replacements], after the loop)         *)
(* ===================================================================== *)

Module History.

(** The test before [self.backup_history.append]: an output directory
    was made (a string that is not empty), the run was no dry run, and
    the flag [self.stop_processing], as it is then, is not set. Only a
    run that passes it can be undone with [undo_last_operation]. *)
Definition records_history {W : Type} (mode : string) (st : Batch.state W)
           (stop_processing : bool) : bool :=
  match Batch.current_output_dir st with
  | Some dir => negb (String.eqb dir "")
  | None => false
  end
  && negb (String.eqb mode Batch.dry_run)
  && negb stop_processing.

End History.

(* ===================================================================== *)
(** ** More of Python's [str] and [list]                                   *)
(* ===================================================================== *)

Module PyMore.

(** [s.endswith(suffix)]. *)
Definition endswith (suffix s : string) : bool :=
  (String.length suffix <=? String.length s)
  && String.eqb (PyStr.drop (String.length s - String.length suffix) s) suffix.

(** [s.split(sep)] for a separator of one character: never empty. *)
Fixpoint split_on (sep : ascii) (s : string) : list string :=
  match s with
  | EmptyString => [EmptyString]
  | String c s' =>
      if Ascii.eqb c sep then EmptyString :: split_on sep s'
      else match split_on sep s' with
           | l :: ls => String c l :: ls
           | [] => [String c EmptyString]
           end
  end.

(** The scan of [s.count(sub)] for a non-empty [sub]: occurrences from the
    left, not overlapping. *)
Fixpoint count_from (sub : string) (skip : nat) (s : string) : nat :=
  match s with
  | EmptyString => 0
  | String _ s' =>
      match skip with
      | S k => count_from sub k s'
      | O =>
          if PyStr.startswith sub s
          then S (count_from sub (String.length sub - 1) s')
          else count_from sub 0 s'
      end
  end.

(** [s.count(sub)]; the empty string is counted between all characters
    and at both ends. *)
Definition count (sub s : string) : nat :=
  match sub with
  | EmptyString => S (String.length s)
  | String _ _ => count_from sub 0 s
  end.

(** [c in s] for a character. *)
Fixpoint has_char (c : ascii) (s : string) : bool :=
  match s with
  | EmptyString => false
  | String d s' => Ascii.eqb c d || has_char c s'
  end.

(** [x in l] for a list of strings. *)
Definition mem (x : string) (l : list string) : bool :=
  existsb (String.eqb x) l.

(** [l.remove(x)]: the first [x] is taken out (the code calls it only
    when [x in l]). *)
Fixpoint remove_first (x : string) (l : list string) : list string :=
  match l with
  | [] => []
  | y :: l' => if String.eqb x y then l' else y :: remove_first x l'
  end.

End PyMore.

(* ===================================================================== *)
(** ** Helpers of [DocXReplace_v3.0.py]                                    *)
(* ===================================================================== *)

Module Helpers.

(** The checks of [validate_replacement_map] on one rule, in their
    order. *)
Definition validate_rule (rule : string * Replace.json_value) : list string :=
  let '(old_text, new_text) := rule in
  (if String.eqb (PyStr.strip old_text) "" then ["Empty search pattern found"]
   else [])
  ++ (if 1000 <? String.length old_text
      then ["Search pattern too long: " +:+ PyStr.take 50 old_text +:+ "..."]
      else [])
  ++ match new_text with
     | Replace.JString _ => []
     | _ => ["Invalid replacement type for '" +:+ old_text
             +:+ "': expected string"]
     end.

(** [validate_replacement_map]: the list [errors]. *)
Definition validate_replacement_map (replacement_map : Replace.replacement_map)
  : list string :=
  flat_map validate_rule replacement_map.

(** The body shared by [add_to_recent_files] and
    [add_to_recent_replacements]: the path is moved or put in front, and
    the list is cut to [limit] entries. *)
Definition add_recent (limit : nat) (file_path : string) (recent : list string)
  : list string :=
  let removed :=
    if PyMore.mem file_path recent
    then PyMore.remove_first file_path recent else recent in
  firstn limit (file_path :: removed).

(** [add_to_recent_files]: [self.recent_files] afterwards. *)
Definition add_to_recent_files : string -> list string -> list string :=
  add_recent 10.

(** [add_to_recent_replacements]: [self.recent_replacements] afterwards. *)
Definition add_to_recent_replacements : string -> list string -> list string :=
  add_recent 5.

(** *** The name of an output copy, in [create_output_copy] *)

Section OutputName.

(** [os.path.exists], and the pieces of [os.path] the function uses, as
    the platform gives them. *)
Variable path_exists : string -> bool.
Variable join : string -> string -> string.
Variable basename : string -> string.
Variable splitext : string -> string * string.

(** The name tried when the counter is [counter]:
    [f"{base_name}_{counter}{ext}"] in the output directory. *)
Definition numbered (output_dir base_name ext : string) (counter : nat) : string :=
  join output_dir (base_name +:+ "_" +:+ PyStr.str_of_nat counter +:+ ext).

(** [while os.path.exists(output_path)]: the path is replaced by the next
    numbered one and the counter goes up. [fuel] bounds the rounds. *)
Fixpoint free_path (fuel counter : nat) (output_dir base_name ext : string)
         (output_path : string) : option string :=
  if path_exists output_path then
    match fuel with
    | O => None
    | S fuel' =>
        free_path fuel' (S counter) output_dir base_name ext
                  (numbered output_dir base_name ext counter)
    end
  else Some output_path.

(** The path [create_output_copy] copies the file to. *)
Definition output_path_for (fuel : nat) (output_dir file_path : string)
  : option string :=
  let output_filename := basename file_path in
  let '(base_name, ext) := splitext output_filename in
  free_path fuel 1 output_dir base_name ext (join output_dir output_filename).

End OutputName.

End Helpers.

(* ===================================================================== *)
(** ** The set-up of a scan ([scan_documents], [scan_docs])                *)
(* ===================================================================== *)

Module Setup.

(** The text [load_token_file] shows for a loaded file: the name is cut
    to 20 characters and the whole text to 33. *)
Definition display_text (filename : string) (tokens : nat) : string :=
  let filename :=
    if 20 <? String.length filename
    then PyStr.take 17 filename +:+ "..." else filename in
  let display_text :=
    "Loaded: " +:+ filename +:+ " (" +:+ PyStr.str_of_nat tokens
    +:+ " tokens)" in
  if 33 <? String.length display_text
  then PyStr.take 30 display_text +:+ "..." else display_text.

(** The three file filters of [file_type_map], the same in both
    scanners. *)
Definition only_dcp (f : string) : bool := PyMore.endswith ".dcp.docx" f.

Definition only_docx (f : string) : bool :=
  PyMore.endswith ".docx" f && negb (PyMore.endswith ".dcp.docx" f).

Definition both (f : string) : bool := PyMore.endswith ".docx" f.

(** [file_type_map.get(choice)]. *)
Definition file_type_map (choice : string) : option (string -> bool) :=
  if String.eqb choice "Only .dcp.docx" then Some only_dcp
  else if String.eqb choice "Only .docx (excluding .dcp.docx)" then Some only_docx
  else if String.eqb choice "Both (.docx and .dcp.docx)" then Some both
  else None.

(** The test of [scan_documents] on a file name of the folder:
    [file_filter(file) and not file.startswith('~')]. *)
Definition scanned (file_filter : string -> bool) (file : string) : bool :=
  file_filter file && negb (PyStr.startswith "~" file).

(** [[t.strip() for t in text.split(",") if t.strip()]]: the custom
    tokens of [scan_documents], the custom patterns of [scan_docs]. *)
Definition custom_tokens (text : string) : list string :=
  map PyStr.strip
      (List.filter (fun t => negb (String.eqb (PyStr.strip t) ""))
                   (PyMore.split_on "," text)).

(** The token map: a [dict] from token to label, in insertion order. *)
Definition token_map : Type := list (string * string).

(** [d[key] = value]: an entry with that key is overwritten in place, a
    new key goes to the end. *)
Fixpoint dict_set (key value : string) (d : token_map) : token_map :=
  match d with
  | [] => [(key, value)]
  | (k, v) :: d' =>
      if String.eqb k key then (k, value) :: d'
      else (k, v) :: dict_set key value d'
  end.

(** [key in d]. *)
Definition dict_has (key : string) (d : token_map) : bool :=
  existsb (fun kv => String.eqb (fst kv) key) d.

(** [d[key]] when the key is there. *)
Fixpoint dict_get (key : string) (d : token_map) : option string :=
  match d with
  | [] => None
  | (k, v) :: d' => if String.eqb k key then Some v else dict_get key d'
  end.

Definition no_selection : string := "-- Select Token --".

(** The loop [for ct in custom_tokens: self.token_map[ct] = ...]. *)
Definition add_custom (d : token_map) (cts : list string) : token_map :=
  fold_left (fun d ct => dict_set ct ("Custom: " +:+ ct) d) cts d.

(** The choice of the patterns in [scan_documents]: [None] when the scan
    is refused (no token map, no token selected, or no pattern at all);
    otherwise the
    token map with the custom tokens added, and the patterns. *)
Definition select_patterns (d : token_map) (selected_label custom_input : string)
  : option (token_map * list string) :=
  let matched_tokens :=
    map fst (List.filter (fun kv => String.eqb (snd kv) selected_label) d) in
  if match d with [] => true | _ => false end then None
  else if String.eqb selected_label no_selection then None
  else
    let cts := custom_tokens custom_input in
    let patterns := matched_tokens ++ cts in
    match patterns with
    | [] => None
    | _ => Some (add_custom d cts, patterns)
    end.

(** The label of a matched token in the report. *)
Definition token_label (d : token_map) (token : string) : string :=
  if dict_has token d
  then match dict_get token d with Some l => l | None => token end
  else token.

(** [sum(full_text.count(token) for token in matched)]. *)
Definition token_count (full_text : string) (matched : list string) : nat :=
  list_sum (map (fun token => PyMore.count token full_text) matched).

End Setup.

(* ===================================================================== *)
(** ** The words of the specification                                      *)
(* ===================================================================== *)

Module Spec.

(** [applyRules(text, rules).changed]: the new text differs from the
    text given. *)
Definition changed (E : PyRe.ReEngine) (regex_mode : bool)
           (rules : Replace.replacement_map) (text : string) : bool :=
  negb (String.eqb (Replace.apply_rules E regex_mode rules text) text).

(** The number of texts of a list that the rules change. *)
Definition count_changed (E : PyRe.ReEngine) (regex_mode : bool)
           (rules : Replace.replacement_map) (l : list string) : nat :=
  length (List.filter (changed E regex_mode rules) l).

(** The counter and the list of details have both grown by [n]. *)
Definition grows_by (n : nat) (acc acc' : Replace.tally) : Prop :=
  fst acc' = fst acc + n /\ length (snd acc') = length (snd acc) + n.

(** The two texts of a detail. *)
Definition excerpts (d : Replace.detail) : string * string :=
  (Replace.original d, Replace.modified d).

(** The excerpts a paragraph gives rise to: none when the rules leave
    its text alone, else the text before and after, cut to [cut]. *)
Definition excerpts_of (E : PyRe.ReEngine) (regex_mode : bool)
           (rules : Replace.replacement_map) (cut : nat) (text : string)
  : list (string * string) :=
  if changed E regex_mode rules text
  then [(PyStr.preview cut text,
         PyStr.preview cut (Replace.apply_rules E regex_mode rules text))]
  else [].

(** [enumerate(l)] from [i] on. *)
Definition enumerate_from {A : Type} (i : nat) (l : list A) : list (nat * A) :=
  combine (seq i (List.length l)) l.

(** The location of a paragraph when the rules change its text. *)
Definition location_of (E : PyRe.ReEngine) (regex_mode : bool)
           (rules : Replace.replacement_map) (loc text : string)
  : list string :=
  if changed E regex_mode rules text then [loc] else [].

(** The locations of the changed paragraphs of a document: the
    top-level paragraphs by their index, then the paragraphs of the
    cells by the indices of table, row, cell and paragraph. *)
Definition changed_locations (E : PyRe.ReEngine) (regex_mode : bool)
           (rules : Replace.replacement_map) (doc : Document) : list string :=
  flat_map (fun ix => location_of E regex_mode rules
                        (Replace.para_location (fst ix)) (snd ix))
           (enumerate_from 0 (paragraphs doc))
  ++ flat_map (fun t =>
       flat_map (fun r =>
         flat_map (fun c =>
           flat_map (fun p =>
               location_of E regex_mode rules
                 (Replace.cell_location (fst t) (fst r) (fst c) (fst p))
                 (snd p))
             (enumerate_from 0 (snd c)))
           (enumerate_from 0 (snd r)))
         (enumerate_from 0 (snd t)))
       (enumerate_from 0 (tables doc)).

(** [m.group(1)] as a template inserts it: the empty string when the
    group took no part in the match. *)
Definition group1 (m : PyRe.Match) : string :=
  match nth 0 (PyRe.m_groups m) None with
  | Some g => g
  | None => EmptyString
  end.

(** The text begins with a decimal digit. *)
Definition digit_first (s : string) : bool :=
  match s with
  | String d _ => PyRe.is_digit d
  | EmptyString => false
  end.

(** No target contains the source of any rule. *)
Definition targets_free_of_sources (rules : Replace.replacement_map) : Prop :=
  forall r1 r2 t,
    In r1 rules -> In r2 rules -> snd r1 = Replace.JString t ->
    PyStr.contains (fst r2) t = false.

(** A text in which the source of no rule occurs. *)
Definition fully_migrated (rules : Replace.replacement_map) (text : string)
  : Prop :=
  forall r, In r rules -> PyStr.contains (fst r) text = false.

(** The replacement the specification describes for a pattern with
    groups: the target is read from left to right and its successive
    placeholders are filled with the successive groups, the first with
    group 1, the second with group 2; placeholders beyond the last
    group stay. [skip] counts the characters of a placeholder still to
    be passed over. *)
Fixpoint render_from (skip : nat) (target : string) (groups : list string)
  : string :=
  match target with
  | EmptyString => EmptyString
  | String c target' =>
      match skip with
      | S k => render_from k target' groups
      | O =>
          if PyStr.startswith Replace.placeholder target then
            match groups with
            | g :: groups' =>
                g +:+ render_from (String.length Replace.placeholder - 1)
                                  target' groups'
            | [] => String c (render_from 0 target' [])
            end
          else String c (render_from 0 target' groups)
      end
  end.

Definition render_template (target : string) (groups : list string) : string :=
  render_from 0 target groups.

(** A rule the engine can apply: its target is a string. *)
Definition string_target (rule : string * Replace.json_value) : bool :=
  match snd rule with Replace.JString _ => true | _ => false end.

End Spec.

(* ===================================================================== *)
(** ** A small world for the examples                                      *)
(* ===================================================================== *)

(** A file system that maps paths to documents. A path that is not in the
    map does not exist; every write succeeds; the copy of a file goes to
    [<root>/modified_<timestamp>/<path>]; the clock is fixed. *)
Module SimpleFS.

Definition world : Type := gmap string Document.

Definition out_dir (root ts : string) : string :=
  root +:+ "/modified_" +:+ ts.

Definition os : Batch.OS world :=
  {| Batch.path_exists := fun w path =>
       match w !! path with Some _ => true | None => false end;
     Batch.load_document := fun w path =>
       match w !! path with Some d => Ok d | None => Raise OSError end;
     Batch.save_document := fun w doc path => (<[path := doc]> w, Ok ());
     Batch.create_output_copy := fun w file_path root ts =>
       match w !! file_path with
       | Some d =>
           let out := out_dir root ts +:+ "/" +:+ file_path in
           (<[out := d]> w, Ok (out_dir root ts, out))
       | None => (w, Raise OSError)
       end;
     Batch.timestamp := fun _ => "20250101_000000" |}.

End SimpleFS.

(* ===================================================================== *)
(** * Properties                                                           *)
(* ===================================================================== *)

(** ** Strings *)

#[local] Arguments String.append !_ _ / : simpl nomatch.

Lemma str_length_app (a b : string) :
  String.length (a +:+ b) = String.length a + String.length b.
Proof. induction a as [|c a IH]; simpl; [reflexivity|]. rewrite IH. reflexivity. Qed.

Lemma startswith_app (p t : string) : PyStr.startswith p (p +:+ t) = true.
Proof.
  induction p as [|a p IH]; simpl; [reflexivity|].
  rewrite Ascii.eqb_refl. exact IH.
Qed.

Lemma startswith_inv (p s : string) :
  PyStr.startswith p s = true -> exists t, s = p +:+ t.
Proof.
  revert s. induction p as [|a p IH]; intros s H; simpl in *.
  - exists s. reflexivity.
  - destruct s as [|b s]; [discriminate|].
    apply andb_prop in H as [Hab Hps].
    apply Ascii.eqb_eq in Hab. subst b.
    destruct (IH _ Hps) as [t ->]. exists t. reflexivity.
Qed.

Lemma contains_startswith (p s : string) :
  PyStr.startswith p s = true -> PyStr.contains p s = true.
Proof. intros H. destruct s; simpl; rewrite H; reflexivity. Qed.

Lemma contains_intro (sub a b : string) :
  PyStr.contains sub (a +:+ sub +:+ b) = true.
Proof.
  induction a as [|c a IH]; simpl.
  - apply contains_startswith, startswith_app.
  - rewrite IH. apply orb_true_r.
Qed.

Lemma contains_inv (sub s : string) :
  PyStr.contains sub s = true -> exists a b, s = a +:+ sub +:+ b.
Proof.
  induction s as [|c s IH]; simpl; intros H.
  - rewrite orb_false_r in H. apply startswith_inv in H as [t ->].
    exists EmptyString, t. reflexivity.
  - apply orb_prop in H as [H|H].
    + apply startswith_inv in H as [t ->]. exists EmptyString, t. reflexivity.
    + destruct (IH H) as (a & b & ->). exists (String c a), b. reflexivity.
Qed.

Lemma string_app_assoc (a b c : string) : (a +:+ b) +:+ c = a +:+ (b +:+ c).
Proof. induction a; simpl; congruence. Qed.

Lemma contains_trans (a b c : string) :
  PyStr.contains a b = true -> PyStr.contains b c = true ->
  PyStr.contains a c = true.
Proof.
  intros Hab Hbc.
  apply contains_inv in Hab as (x & y & ->).
  apply contains_inv in Hbc as (u & v & ->).
  replace (u +:+ (x +:+ a +:+ y) +:+ v) with ((u +:+ x) +:+ a +:+ (y +:+ v)).
  - apply contains_intro.
  - rewrite !string_app_assoc. reflexivity.
Qed.

Lemma split_nl_not_nil (s : string) : PyStr.split_nl s <> [].
Proof.
  induction s as [|c s IH]; simpl; [discriminate|].
  destruct (Ascii.eqb c PyStr.nl); [discriminate|].
  destruct (PyStr.split_nl s); [contradiction|discriminate].
Qed.

Lemma split_nl_part (s line : string) :
  In line (PyStr.split_nl s) -> exists a b, s = a +:+ line +:+ b.
Proof.
  revert line. induction s as [|c s IH]; simpl; intros line H.
  - destruct H as [<-|[]]. exists EmptyString, EmptyString. reflexivity.
  - destruct (Ascii.eqb c PyStr.nl).
    + destruct H as [<-|H].
      * exists EmptyString, (String c s). reflexivity.
      * destruct (IH _ H) as (a & b & ->). exists (String c a), b. reflexivity.
    + destruct (PyStr.split_nl s) as [|l ls] eqn:Hs.
      * destruct H as [<-|[]]. exfalso. exact (split_nl_not_nil _ Hs).
      * destruct H as [<-|H].
        -- destruct (IH l (or_introl eq_refl)) as (a & b & Hab).
           (* the first line starts the text *)
           clear IH.
           assert (Hfirst : exists b', s = l +:+ b').
           { clear Hab a b. revert l ls Hs.
             induction s as [|d s IHs]; simpl; intros l ls Hs.
             - injection Hs as <- <-. exists EmptyString. reflexivity.
             - destruct (Ascii.eqb d PyStr.nl).
               + injection Hs as <- <-. exists (String d s). reflexivity.
               + destruct (PyStr.split_nl s) as [|l' ls'] eqn:Hs'.
                 * exfalso. exact (split_nl_not_nil _ Hs').
                 * injection Hs as <- <-.
                   destruct (IHs _ _ eq_refl) as [b' ->].
                   exists b'. reflexivity. }
           destruct Hfirst as [b' ->].
           exists EmptyString, b'. reflexivity.
        -- destruct (IH line (or_intror H)) as (a & b & ->).
           exists (String c a), b. reflexivity.
Qed.

Lemma contains_line (token line s : string) :
  In line (PyStr.split_nl s) -> PyStr.contains token line = true ->
  PyStr.contains token s = true.
Proof.
  intros Hl Ht. apply contains_trans with line; [exact Ht|].
  destruct (split_nl_part _ _ Hl) as (a & b & ->). apply contains_intro.
Qed.

(** ** The replacement engine *)

Section ReplaceFacts.

Variable E : PyRe.ReEngine.

Lemma apply_rules_app (regex_mode : bool) (rules1 rules2 : Replace.replacement_map)
      (text : string) :
  Replace.apply_rules E regex_mode (rules1 ++ rules2) text
  = Replace.apply_rules E regex_mode rules2
      (Replace.apply_rules E regex_mode rules1 text).
Proof. unfold Replace.apply_rules. apply fold_left_app. Qed.

Lemma apply_rules_cons (regex_mode : bool) (rule : string * Replace.json_value)
      (rules : Replace.replacement_map) (text : string) :
  Replace.apply_rules E regex_mode (rule :: rules) text
  = Replace.apply_rules E regex_mode rules
      (Replace.apply_rule E regex_mode text rule).
Proof. reflexivity. Qed.

(** A rule whose body raises leaves the text as it was. *)
Lemma apply_rule_raise (regex_mode : bool) (rule : string * Replace.json_value)
      (text : string) :
  is_ok (Replace.rule_body E regex_mode (fst rule) (snd rule) text) = false ->
  Replace.apply_rule E regex_mode text rule = text.
Proof.
  unfold Replace.apply_rule.
  destruct (Replace.rule_body E regex_mode (fst rule) (snd rule) text);
    simpl; [discriminate|reflexivity].
Qed.

(** In regular-expression mode a source that does not compile makes the
    body raise, whatever the target and the text. *)
Lemma rule_body_invalid_regex (old_text : string) (new_text : Replace.json_value)
      (text : string) :
  PyRe.re_compile E old_text = None ->
  is_ok (Replace.rule_body E true old_text new_text text) = false.
Proof.
  intros Hc. unfold Replace.rule_body.
  destruct new_text as [nt| | |]; try reflexivity.
  destruct (PyStr.contains Replace.placeholder nt);
    unfold PyRe.sub_with, PyRe.sub, PyRe.compile; rewrite Hc; reflexivity.
Qed.

(** In literal mode a rule whose source does not occur in the text
    leaves it as it was. *)
Lemma apply_rule_absent (rule : string * Replace.json_value) (text : string) :
  PyStr.contains (fst rule) text = false ->
  Replace.apply_rule E false text rule = text.
Proof.
  intros H. unfold Replace.apply_rule, Replace.rule_body.
  rewrite H. reflexivity.
Qed.

Lemma apply_rules_absent (rules : Replace.replacement_map) (text : string) :
  (forall rule, In rule rules -> PyStr.contains (fst rule) text = false) ->
  Replace.apply_rules E false rules text = text.
Proof.
  induction rules as [|rule rules IH]; intros H; [reflexivity|].
  rewrite apply_rules_cons, apply_rule_absent by (apply H; left; reflexivity).
  apply IH. intros r Hr. apply H. right. exact Hr.
Qed.

End ReplaceFacts.

(** C2. Rules are applied one after the other to the result so far, in
    the order of the mapping: applying [rules1 ++ rules2] is applying
    [rules2] to the result of [rules1], in either mode and with any
    engine; and in literal mode the rules [{"A": "B", "B": "C"}] turn
    ["A"] into ["C"], the second rule working on what the first has
    produced. *)
Theorem C2_sequential_chaining :
  (forall (E : PyRe.ReEngine) (regex_mode : bool)
          (rules1 rules2 : Replace.replacement_map) (text : string),
      Replace.apply_rules E regex_mode (rules1 ++ rules2) text
      = Replace.apply_rules E regex_mode rules2
          (Replace.apply_rules E regex_mode rules1 text))
  /\ (forall E : PyRe.ReEngine,
         Replace.apply_rules E false
           [("A", Replace.JString "B"); ("B", Replace.JString "C")] "A" = "C")
  /\ (forall E : PyRe.ReEngine,
         Replace.apply_rules E false
           [("B", Replace.JString "C"); ("A", Replace.JString "B")] "A" = "B").
Proof.
  split; [|split].
  - intros. apply apply_rules_app.
  - intros E. reflexivity.
  - intros E. reflexivity.
Qed.

(** C3, as stated, fails: with the single rule ["ab" -> "b"], whose
    target does not contain its source, the first pass turns ["aab"] into
    ["ab"], and the second pass changes it again. *)
Lemma C3_counterexample :
  ~ (forall (T : string) (R : Replace.replacement_map),
        Spec.targets_free_of_sources R ->
        Spec.changed Frag.engine false R
          (Replace.apply_rules Frag.engine false R T) = false).
Proof.
  intros H.
  specialize (H "aab" [("ab", Replace.JString "b")]).
  assert (Hfree : Spec.targets_free_of_sources [("ab", Replace.JString "b")]).
  { intros r1 r2 t [<-|[]] [<-|[]] Ht. simpl in Ht.
    injection Ht as <-. reflexivity. }
  specialize (H Hfree). vm_compute in H. discriminate.
Qed.

(** C3, amended. In literal mode a pass over a text in which no source
    occurs changes nothing; so the second pass over the output of a first
    pass reports no change whenever no source occurs in that output. *)
Theorem C3_literal_pass_on_migrated_text (E : PyRe.ReEngine)
        (R : Replace.replacement_map) (T : string) :
  Spec.fully_migrated R (Replace.apply_rules E false R T) ->
  Spec.changed E false R (Replace.apply_rules E false R T) = false.
Proof.
  intros H. unfold Spec.changed.
  rewrite (apply_rules_absent E R _ H), String.eqb_refl. reflexivity.
Qed.

Lemma C3_literal_pass_on_migrated_text_witness :
  Spec.changed Frag.engine false [("x", Replace.JString "y")]
    (Replace.apply_rules Frag.engine false [("x", Replace.JString "y")] "x x x")
  = false.
Proof.
  apply (C3_literal_pass_on_migrated_text Frag.engine
           [("x", Replace.JString "y")] "x x x").
  intros r [<-|[]]. vm_compute. reflexivity.
Defined.

(** ** Regular-expression mode *)

(** The rule of the specification's example: the two groups fill the two
    placeholders. *)
Example regex_two_groups :
  Replace.apply_rules Frag.engine true
    [("(\w+)-(\w+)", Replace.JString "{{match}}_{{match}}")] "foo-bar"
  = "foo_bar".
Proof. vm_compute. reflexivity. Qed.

Example regex_one_group :
  Replace.apply_rules Frag.engine true
    [("<(\w+)>", Replace.JString "<<{{match}}>>")] "<bold> text <i>"
  = "<<bold>> text <<i>>".
Proof. vm_compute. reflexivity. Qed.

(** Without a group, every placeholder is the whole match. *)
Example regex_no_group :
  Replace.apply_rules Frag.engine true
    [("<<BLTO\d+", Replace.JString "[{{match}}|{{match}}]")] "<<BLTO12 x"
  = "[<<BLTO12|<<BLTO12] x".
Proof. vm_compute. reflexivity. Qed.

(** As long as no placeholder is formed by the text of a group, the code
    and the words of the specification agree. *)
Example render_agrees :
  Spec.render_template "{{match}}_{{match}}" ["foo"; "bar"] = "foo_bar"
  /\ Replace.fill_groups "{{match}}_{{match}}" [Some "foo"; Some "bar"]
     = Ok "foo_bar".
Proof. split; reflexivity. Qed.

(** C4, at the input where the code departs from it. The pattern
    [(.+)-(.+)] matches the whole of ["{{match}}-x"] with the groups
    ["{{match}}"] and ["x"]. The code fills the first placeholder with
    group 1, whose text is itself a placeholder, and then fills that one
    with group 2: the result is ["x_{{match}}"], where group 1 first and
    group 2 second give ["{{match}}_x"]. *)
Theorem C4_group_text_holding_placeholder :
  PyRe.search Frag.engine "(.+)-(.+)" "{{match}}-x"
  = Ok (Some (PyRe.mkMatch 0 11 [Some "{{match}}"; Some "x"]))
  /\ Replace.apply_rules Frag.engine true
       [("(.+)-(.+)", Replace.JString "{{match}}_{{match}}")] "{{match}}-x"
     = "x_{{match}}"
  /\ Spec.render_template "{{match}}_{{match}}" ["{{match}}"; "x"]
     = "{{match}}_x".
Proof. repeat split; vm_compute; reflexivity. Qed.

(** A group that took no part in the match makes the callback raise: the
    rule is skipped as a whole. *)
Example regex_unmatched_group :
  Replace.rule_body Frag.engine true "(a)|b" (Replace.JString "[{{match}}]") "ab"
  = Raise TypeError
  /\ Replace.apply_rules Frag.engine true
       [("(a)|b", Replace.JString "[{{match}}]")] "ab" = "ab".
Proof. split; vm_compute; reflexivity. Qed.

(** *** Targets without a placeholder *)

Section TemplateFacts.

Variable E : PyRe.ReEngine.

Lemma sub_loop_ext (f g : PyRe.Match -> result string) (text : string)
      (ms : list PyRe.Match) :
  (forall m, f m = g m) ->
  forall i, PyRe.sub_loop f text i ms = PyRe.sub_loop g text i ms.
Proof.
  intros Hfg. induction ms as [|m ms IH]; intros i; simpl; [reflexivity|].
  rewrite Hfg, IH. reflexivity.
Qed.

Lemma concat_empty_cons (x : string) (xs : list string) :
  String.concat "" (x :: xs) = x +:+ String.concat "" xs.
Proof.
  destruct xs; simpl; [|reflexivity].
  induction x; simpl; congruence.
Qed.

Lemma contains_backslash_cons (a : ascii) (s : string) :
  PyStr.contains "\" (String a s) = false ->
  Ascii.eqb a "\" = false /\ PyStr.contains "\" s = false.
Proof.
  cbn [PyStr.contains PyStr.startswith]. intros H.
  apply orb_false_elim in H as [H1 H2].
  rewrite andb_true_r, Ascii.eqb_sym in H1.
  split; assumption.
Qed.

(** A template without a backslash is literal text: it parses, and it
    expands to itself at every match. *)
Lemma parse_template_plain (c : PyRe.pattern E) (s : string) :
  PyStr.contains "\" s = false ->
  exists items,
    PyRe.parse_template E (String.length s) c s = Ok items
    /\ forall text m, PyRe.expand_template items text m = s.
Proof.
  induction s as [|a s IH]; intros H.
  - exists []. split; reflexivity.
  - apply contains_backslash_cons in H as [Ha Hs].
    destruct (IH Hs) as (items & Hp & Hx).
    exists (PyRe.lit1 a :: items). split.
    + simpl. rewrite Ha. simpl. rewrite Hp. reflexivity.
    + intros text m. unfold PyRe.expand_template in *.
      rewrite map_cons, concat_empty_cons, Hx. reflexivity.
Qed.

Lemma sub_plain (old_text nt text : string) :
  PyStr.contains "\" nt = false ->
  PyRe.sub E old_text nt text
  = PyRe.sub_with E old_text (fun _ => Ok nt) text.
Proof.
  intros H. unfold PyRe.sub, PyRe.sub_with.
  destruct (PyRe.compile E old_text) as [c|e]; [|reflexivity].
  simpl. destruct (parse_template_plain c nt H) as (items & -> & Hx).
  simpl. apply sub_loop_ext. intros m. rewrite Hx. reflexivity.
Qed.

Lemma concat_empty_app (l1 l2 : list string) :
  String.concat "" (l1 ++ l2) = String.concat "" l1 +:+ String.concat "" l2.
Proof.
  induction l1 as [|x l1 IH]; [reflexivity|].
  rewrite <- app_comm_cons, !concat_empty_cons, IH, string_app_assoc.
  reflexivity.
Qed.

Lemma expand_template_app (items1 items2 : list PyRe.titem) (text : string)
      (m : PyRe.Match) :
  PyRe.expand_template (items1 ++ items2) text m
  = PyRe.expand_template items1 text m +:+ PyRe.expand_template items2 text m.
Proof. unfold PyRe.expand_template. rewrite map_app. apply concat_empty_app. Qed.

Lemma expand_template_cons (it : PyRe.titem) (items : list PyRe.titem)
      (text : string) (m : PyRe.Match) :
  PyRe.expand_template (it :: items) text m
  = PyRe.expand_item text m it +:+ PyRe.expand_template items text m.
Proof. unfold PyRe.expand_template. rewrite map_cons. apply concat_empty_cons. Qed.

Lemma parse_template_nil (fuel : nat) (c : PyRe.pattern E) :
  PyRe.parse_template E fuel c "" = Ok [].
Proof. destruct fuel; reflexivity. Qed.

(** The plain text a template begins with is read as itself, and the
    rest of the template is read after it. *)
Lemma parse_template_plain_app (c : PyRe.pattern E) (pre : string) :
  PyStr.contains "\" pre = false ->
  exists items,
    (forall text m, PyRe.expand_template items text m = pre)
    /\ forall fuel rest,
         PyRe.parse_template E (String.length pre + fuel) c (pre +:+ rest)
         = match PyRe.parse_template E fuel c rest with
           | Ok r => Ok (items ++ r)
           | Raise e => Raise e
           end.
Proof.
  induction pre as [|a pre IH]; intros H.
  - exists []. split; [reflexivity|]. intros fuel rest. cbn [String.length plus].
    cbn [String.append app].
    destruct (PyRe.parse_template E fuel c rest); reflexivity.
  - apply contains_backslash_cons in H as [Ha Hs].
    destruct (IH Hs) as (items & Hx & Hp).
    exists (PyRe.lit1 a :: items). split.
    + intros text m. rewrite expand_template_cons, Hx. reflexivity.
    + intros fuel rest. cbn [String.length plus String.append].
      cbn [PyRe.parse_template]. rewrite Ha. cbn [negb]. rewrite Hp.
      destruct (PyRe.parse_template E fuel c rest); reflexivity.
Qed.

(** A plain template, with any fuel left over. *)
Lemma parse_template_plain_fuel (c : PyRe.pattern E) (post : string) :
  PyStr.contains "\" post = false ->
  exists items,
    (forall text m, PyRe.expand_template items text m = post)
    /\ forall fuel,
         PyRe.parse_template E (String.length post + fuel) c post = Ok items.
Proof.
  intros H. destruct (parse_template_plain_app c post H) as (items & Hx & Hp).
  exists items. split; [exact Hx|]. intros fuel.
  specialize (Hp fuel ""). rewrite parse_template_nil, app_nil_r in Hp.
  replace (post +:+ "") with post in Hp; [exact Hp|].
  clear. induction post as [|a post IH]; [reflexivity|].
  cbn [String.append]. rewrite <- IH. reflexivity.
Qed.

(** The template [pre\e post], for plain [pre]: what is read after
    [pre] decides. *)
Lemma sub_of_template (old_text pre tail text : string)
      (c : PyRe.pattern E) :
  PyRe.re_compile E old_text = Some c ->
  PyStr.contains "\" pre = false ->
  forall fuel,
    String.length (pre +:+ tail) = String.length pre + fuel ->
    PyRe.sub E old_text (pre +:+ tail) text
    = match PyRe.parse_template E fuel c tail with
      | Ok r =>
          PyRe.sub_with E old_text
            (fun m => Ok (pre +:+ PyRe.expand_template r text m)) text
      | Raise e => Raise e
      end.
Proof.
  intros Hc Hpre fuel Hlen. unfold PyRe.sub, PyRe.sub_with, PyRe.compile.
  rewrite Hc. cbn. rewrite Hlen.
  destruct (parse_template_plain_app c pre Hpre) as (items & Hx & Hp).
  rewrite Hp. destruct (PyRe.parse_template E fuel c tail) as [r|e];
    [|reflexivity].
  cbn. apply sub_loop_ext. intros m.
  rewrite expand_template_app, Hx. reflexivity.
Qed.

Lemma sub_with_ext (old_text text : string)
      (f g : PyRe.Match -> result string) :
  (forall m, f m = g m) ->
  PyRe.sub_with E old_text f text = PyRe.sub_with E old_text g text.
Proof.
  intros H. unfold PyRe.sub_with.
  destruct (PyRe.compile E old_text) as [c|e]; [|reflexivity].
  simpl. apply sub_loop_ext. exact H.
Qed.

Lemma letter_is_no_digit (e : ascii) :
  PyRe.is_ascii_letter e = true ->
  PyRe.is_digit e = false /\ Ascii.eqb e "0" = false.
Proof.
  intros H. split.
  - unfold PyRe.is_ascii_letter, PyRe.is_digit in *. cbv zeta in *.
    apply not_true_is_false. intros Hd.
    apply andb_prop in Hd as [_ Hd]. apply Nat.leb_le in Hd.
    apply orb_prop in H as [H|H]; apply andb_prop in H as [H1 H2];
      apply Nat.leb_le in H1, H2; lia.
  - destruct (Ascii.eqb e "0") eqn:He; [|reflexivity].
    apply Ascii.eqb_eq in He. subst e. discriminate H.
Qed.

Lemma startswith_sep (sub : string) (b : ascii) (x y : string) :
  PyMore.has_char b sub = false ->
  PyStr.startswith sub (x +:+ String b y) = PyStr.startswith sub x.
Proof.
  revert x. induction sub as [|a sub IH]; intros x H; [reflexivity|].
  cbn [PyMore.has_char] in H. apply orb_false_elim in H as [Hab Hs].
  destruct x as [|d x]; cbn [String.append PyStr.startswith].
  - rewrite Ascii.eqb_sym, Hab. reflexivity.
  - rewrite (IH x Hs). reflexivity.
Qed.

Lemma contains_sep (sub : string) (b : ascii) (x y : string) :
  PyMore.has_char b sub = false ->
  PyStr.contains sub (x +:+ String b y)
  = PyStr.contains sub x || PyStr.contains sub (String b y).
Proof.
  intros H. induction x as [|d x IH].
  - cbn [String.append]. destruct sub as [|a sub]; [reflexivity|].
    reflexivity.
  - pose proof (startswith_sep sub b (String d x) y H) as Hs.
    cbn [String.append] in *. cbn [PyStr.contains].
    rewrite Hs, IH, orb_assoc. reflexivity.
Qed.

(** A placeholder does not come about where an escape is put between
    two texts that hold none. *)
Lemma placeholder_absent (pre post : string) (e : ascii) :
  PyStr.contains Replace.placeholder pre = false ->
  PyStr.contains Replace.placeholder post = false ->
  Ascii.eqb "{" e = false ->
  PyStr.contains Replace.placeholder (pre +:+ String "\" (String e post))
  = false.
Proof.
  intros Hpre Hpost He.
  rewrite contains_sep by reflexivity. rewrite Hpre. cbn [orb].
  unfold Replace.placeholder in *.
  cbn [PyStr.contains PyStr.startswith]. rewrite He, Hpost. reflexivity.
Qed.

End TemplateFacts.

(** C5, as stated, fails: the target [\1\1] holds no placeholder, and the
    rule ["(a)" -> "\1\1"] turns ["a"] into ["aa"], the group taken
    twice, not into the four characters of the target. *)
Lemma C5_counterexample :
  PyStr.contains Replace.placeholder "\1\1" = false
  /\ Replace.rule_body Frag.engine true "(a)" (Replace.JString "\1\1") "a"
     = Ok "aa"
  /\ PyRe.sub_with Frag.engine "(a)" (fun _ => Ok "\1\1") "a" = Ok "\1\1"
  /\ ~ (forall old_text nt text : string,
           PyStr.contains Replace.placeholder nt = false ->
           Replace.rule_body Frag.engine true old_text (Replace.JString nt) text
           = PyRe.sub_with Frag.engine old_text (fun _ => Ok nt) text).
Proof.
  split; [reflexivity|]. split; [vm_compute; reflexivity|].
  split; [vm_compute; reflexivity|].
  intros H. specialize (H "(a)" "\1\1" "a" eq_refl).
  vm_compute in H. discriminate.
Qed.

(** C5, amended. In regular-expression mode a target without a
    placeholder is given to [re.sub] as a replacement template. A
    target that holds no backslash is put, character for character, in
    the place of every match of the source. In a target with a
    backslash the escape is read: [\n] gives a newline, [\\] one
    backslash, [\1] the text of the first group of the match. A
    reference to a group the source does not have, or an escape that
    is not known, makes the rule raise, and a rule that raises is
    skipped: the text is left as it was. *)
Theorem C5_target_is_a_template (E : PyRe.ReEngine)
        (old_text pre post text : string) :
  PyStr.contains Replace.placeholder pre = false ->
  PyStr.contains Replace.placeholder post = false ->
  PyStr.contains "\" pre = false ->
  PyStr.contains "\" post = false ->
  Replace.rule_body E true old_text (Replace.JString pre) text
  = PyRe.sub_with E old_text (fun _ => Ok pre) text
  /\ Replace.rule_body E true old_text
       (Replace.JString (pre +:+ "\n" +:+ post)) text
     = PyRe.sub_with E old_text
         (fun _ => Ok (pre +:+ String PyStr.nl post)) text
  /\ Replace.rule_body E true old_text
       (Replace.JString (pre +:+ "\\" +:+ post)) text
     = PyRe.sub_with E old_text (fun _ => Ok (pre +:+ "\" +:+ post)) text
  /\ (Spec.digit_first post = false ->
      forall c, PyRe.re_compile E old_text = Some c ->
        Replace.rule_body E true old_text
          (Replace.JString (pre +:+ "\1" +:+ post)) text
        = if PyRe.pat_groups E c <? 1 then Raise ReError
          else PyRe.sub_with E old_text
                 (fun m => Ok (pre +:+ Spec.group1 m +:+ post)) text)
  /\ (forall e, PyRe.is_ascii_letter e = true ->
                PyRe.template_escape e = None ->
                Ascii.eqb e "g" = false ->
        forall c, PyRe.re_compile E old_text = Some c ->
          Replace.rule_body E true old_text
            (Replace.JString (pre +:+ String "\" (String e post))) text
          = Raise ReError)
  /\ (forall nt,
        is_ok (Replace.rule_body E true old_text (Replace.JString nt) text)
        = false ->
        Replace.apply_rule E true text (old_text, Replace.JString nt) = text).
Proof.
  intros Hpre Hpost Hbpre Hbpost.
  assert (Hlen : forall e,
            String.length (pre +:+ String "\" (String e post))
            = String.length pre + S (String.length post + 1)).
  { intros e. rewrite str_length_app. cbn [String.length]. lia. }
  assert (Hbody : forall e, Ascii.eqb "{" e = false ->
            Replace.rule_body E true old_text
              (Replace.JString (pre +:+ String "\" (String e post))) text
            = PyRe.sub E old_text (pre +:+ String "\" (String e post)) text).
  { intros e He. unfold Replace.rule_body.
    rewrite (placeholder_absent pre post e Hpre Hpost He). reflexivity. }
  split; [|split; [|split; [|split; [|split]]]].
  - unfold Replace.rule_body. rewrite Hpre. apply sub_plain. exact Hbpre.
  - cbn [String.append]. rewrite Hbody by reflexivity.
    destruct (PyRe.re_compile E old_text) as [c|] eqn:Hc.
    + rewrite (sub_of_template E old_text pre _ text c Hc Hbpre _ (Hlen _)).
      destruct (parse_template_plain_fuel E c post Hbpost) as (items & Hx & Hp).
      change (PyRe.parse_template E (S (String.length post + 1)) c
                (String "\" (String "n" post)))
        with (PyRe.cons_item (Ok (PyRe.lit1 PyStr.nl))
                (PyRe.parse_template E (String.length post + 1) c post)).
      rewrite Hp.
      change (PyRe.cons_item (Ok ?x) (Ok items)) with (Ok (x :: items)).
      cbv beta iota. apply sub_with_ext. intros m.
      rewrite expand_template_cons, Hx. reflexivity.
    + unfold PyRe.sub, PyRe.sub_with, PyRe.compile. rewrite Hc. reflexivity.
  - cbn [String.append]. rewrite Hbody by reflexivity.
    destruct (PyRe.re_compile E old_text) as [c|] eqn:Hc.
    + rewrite (sub_of_template E old_text pre _ text c Hc Hbpre _ (Hlen _)).
      destruct (parse_template_plain_fuel E c post Hbpost) as (items & Hx & Hp).
      change (PyRe.parse_template E (S (String.length post + 1)) c
                (String "\" (String "\" post)))
        with (PyRe.cons_item (Ok (PyRe.lit1 "\"))
                (PyRe.parse_template E (String.length post + 1) c post)).
      rewrite Hp.
      change (PyRe.cons_item (Ok ?x) (Ok items)) with (Ok (x :: items)).
      cbv beta iota. apply sub_with_ext. intros m.
      rewrite expand_template_cons, Hx. reflexivity.
    + unfold PyRe.sub, PyRe.sub_with, PyRe.compile. rewrite Hc. reflexivity.
  - intros Hdigit c Hc. cbn [String.append]. rewrite Hbody by reflexivity.
    rewrite (sub_of_template E old_text pre _ text c Hc Hbpre _ (Hlen _)).
    destruct (parse_template_plain_fuel E c post Hbpost) as (items & Hx & Hp).
    assert (Hstep : PyRe.parse_template E (S (String.length post + 1)) c
                      (String "\" (String "1" post))
                    = PyRe.cons_item (PyRe.addgroup E c 1)
                        (PyRe.parse_template E (String.length post + 1) c post)).
    { destruct post as [|d post']; [reflexivity|].
      cbn [Spec.digit_first] in Hdigit.
      cbn [PyRe.parse_template]. cbn [Ascii.eqb Bool.eqb negb andb].
      change (PyRe.is_digit "1") with true. cbv iota.
      rewrite Hdigit. reflexivity. }
    rewrite Hstep, Hp. unfold PyRe.addgroup.
    destruct (PyRe.pat_groups E c <? 1); [reflexivity|].
    change (PyRe.cons_item (Ok ?x) (Ok items)) with (Ok (x :: items)).
    cbv beta iota. apply sub_with_ext. intros m.
    rewrite expand_template_cons, Hx. reflexivity.
  - intros e Hletter Hesc Hg c Hc.
    assert (He : Ascii.eqb "{" e = false).
    { destruct (Ascii.eqb "{" e) eqn:He; [|reflexivity].
      apply Ascii.eqb_eq in He. subst e. discriminate Hletter. }
    rewrite (Hbody e He).
    rewrite (sub_of_template E old_text pre _ text c Hc Hbpre _ (Hlen _)).
    destruct (letter_is_no_digit e Hletter) as [Hd H0].
    cbn [PyRe.parse_template]. rewrite Ascii.eqb_refl. cbn [negb].
    rewrite Hg, H0, Hd, Hesc, Hletter. reflexivity.
  - intros nt Hraise. apply (apply_rule_raise E true (old_text, Replace.JString nt)).
    exact Hraise.
Qed.

Lemma C5_target_is_a_template_witness :
  Replace.rule_body Frag.engine true "(b)" (Replace.JString "[\1]") "abc"
  = Ok "a[b]c"
  /\ Replace.rule_body Frag.engine true "(b)" (Replace.JString "[\n]") "abc"
     = Ok ("a[" +:+ String PyStr.nl "]c")
  /\ Replace.rule_body Frag.engine true "(b)" (Replace.JString "[\\]") "abc"
     = Ok "a[\]c"
  /\ Replace.rule_body Frag.engine true "(b)" (Replace.JString "[\q]") "abc"
     = Raise ReError
  /\ Replace.rule_body Frag.engine true "(b)" (Replace.JString "[") "abc"
     = Ok "a[c".
Proof.
  destruct (PyRe.re_compile Frag.engine "(b)") as [c|] eqn:Hc;
    [|vm_compute in Hc; discriminate].
  destruct (C5_target_is_a_template Frag.engine "(b)" "[" "]" "abc"
              eq_refl eq_refl eq_refl eq_refl)
    as (Hplain & Hn & Hb & H1 & Hq & _).
  split; [|split; [|split; [|split]]].
  - refine (eq_trans (H1 eq_refl c Hc) _).
    vm_compute in Hc. injection Hc as <-. vm_compute. reflexivity.
  - refine (eq_trans Hn _). vm_compute. reflexivity.
  - refine (eq_trans Hb _). vm_compute. reflexivity.
  - exact (Hq "q"%char eq_refl eq_refl eq_refl c Hc).
  - refine (eq_trans Hplain _). vm_compute. reflexivity.
Defined.

Example plain_target_result :
  Replace.apply_rules Frag.engine true [("\d+", Replace.JString "<n>")] "a1b22"
  = "a<n>b<n>".
Proof. vm_compute. reflexivity. Qed.

(** The escapes of a template: a group, a newline, a backslash; a
    reference to a group the pattern does not have is refused, and the
    rule is skipped. *)
Example template_escapes :
  PyRe.sub Frag.engine "(b)" "[\1\n\\]" "abc"
  = Ok ("a[b" +:+ String PyStr.nl "\]c")
  /\ PyRe.sub Frag.engine "b" "\1" "abc" = Raise ReError
  /\ Replace.apply_rules Frag.engine true [("b", Replace.JString "\1")] "abc"
     = "abc".
Proof. repeat split; vm_compute; reflexivity. Qed.

(** *** Rules that raise *)

(** C6. The loop over the rules never raises: it yields a text. A rule
    whose body raises where it is applied is skipped: the text is left as
    the rules before it made it, and the rules after it are applied to
    that text, as if the rule were not in the mapping. A rule after it
    whose body returns a text is applied: the rules that follow see the
    text it returned. In regular-expression mode the rule is skipped in
    this way whenever its source does not compile, whatever the text. *)
Theorem C6_raising_rule_is_skipped (E : PyRe.ReEngine) (regex_mode : bool)
        (rules1 rules2 : Replace.replacement_map)
        (rule : string * Replace.json_value) (text : string) :
  (regex_mode = true /\ PyRe.re_compile E (fst rule) = None)
  \/ is_ok (Replace.rule_body E regex_mode (fst rule) (snd rule)
              (Replace.apply_rules E regex_mode rules1 text)) = false ->
  Replace.apply_rule E regex_mode
    (Replace.apply_rules E regex_mode rules1 text) rule
  = Replace.apply_rules E regex_mode rules1 text
  /\ Replace.apply_rules E regex_mode (rules1 ++ rule :: rules2) text
     = Replace.apply_rules E regex_mode (rules1 ++ rules2) text
  /\ Replace.apply_rules E regex_mode (rules1 ++ rule :: rules2) text
     = Replace.apply_rules E regex_mode rules2
         (Replace.apply_rules E regex_mode rules1 text)
  /\ (forall (next : string * Replace.json_value) (t : string),
        Replace.rule_body E regex_mode (fst next) (snd next)
          (Replace.apply_rules E regex_mode rules1 text) = Ok t ->
        Replace.apply_rules E regex_mode (rules1 ++ rule :: next :: rules2) text
        = Replace.apply_rules E regex_mode rules2 t).
Proof.
  intros H.
  assert (Hskip : Replace.apply_rule E regex_mode
                    (Replace.apply_rules E regex_mode rules1 text) rule
                  = Replace.apply_rules E regex_mode rules1 text).
  { apply apply_rule_raise. destruct H as [[-> Hc]|H]; [|exact H].
    apply rule_body_invalid_regex. exact Hc. }
  split; [exact Hskip|].
  split; [rewrite !apply_rules_app, apply_rules_cons, Hskip; reflexivity|].
  split; [rewrite apply_rules_app, apply_rules_cons, Hskip; reflexivity|].
  intros next t Hnext.
  rewrite apply_rules_app, !apply_rules_cons, Hskip.
  unfold Replace.apply_rule at 1. rewrite Hnext. reflexivity.
Qed.

Lemma C6_raising_rule_is_skipped_witness :
  Replace.apply_rules Frag.engine true
    [("a", Replace.JString "b"); ("(", Replace.JString "x");
     ("b", Replace.JString "c")] "a(a"
  = "c(c".
Proof.
  refine (proj2 (proj2 (proj2
            (C6_raising_rule_is_skipped Frag.engine true
               [("a", Replace.JString "b")] []
               ("(", Replace.JString "x") "a(a" _)))
            ("b", Replace.JString "c") "c(c" _).
  - left. split; [reflexivity|vm_compute; reflexivity].
  - vm_compute. reflexivity.
Defined.

(** The valid rules around an invalid one are applied. *)
Example invalid_rule_isolated :
  Frag.parse "(" = Frag.PErr
  /\ Replace.apply_rules Frag.engine true
       [("a", Replace.JString "b"); ("(", Replace.JString "x");
        ("b", Replace.JString "c")] "a(a" = "c(c".
Proof. split; vm_compute; reflexivity. Qed.

(** Other exceptions: a target that is not a string, in either mode. *)
Example non_string_target_skipped :
  Replace.rule_body Frag.engine false "a" (Replace.JNumber 5) "aa"
  = Raise TypeError
  /\ Replace.apply_rules Frag.engine false
       [("a", Replace.JNumber 5); ("aa", Replace.JString "b")] "aa" = "b"
  /\ Replace.apply_rules Frag.engine true
       [("a", Replace.JNull); ("a+", Replace.JString "b")] "aa" = "b".
Proof. repeat split; vm_compute; reflexivity. Qed.

(** ** The counter and the details *)

Section TallyFacts.

Variable E : PyRe.ReEngine.
Variable regex_mode : bool.
Variable rules : Replace.replacement_map.

#[local] Abbreviation text_changes := (Spec.changed E regex_mode rules).
#[local] Abbreviation count_changed := (Spec.count_changed E regex_mode rules).
#[local] Abbreviation grows_by := Spec.grows_by.

Lemma grows_by_trans (n m : nat) (a b c : Replace.tally) :
  grows_by n a b -> grows_by m b c -> grows_by (n + m) a c.
Proof. unfold Spec.grows_by. intros [? ?] [? ?]. split; lia. Qed.

Lemma process_paragraph_grows (cut : nat) (loc : string)
      (acc : Replace.tally) (text : string) :
  grows_by (if text_changes text then 1 else 0) acc
           (snd (Replace.process_paragraph E regex_mode rules cut loc acc text)).
Proof.
  unfold Replace.process_paragraph, Spec.changed, Spec.grows_by.
  destruct (negb _); simpl; [rewrite length_app; simpl|]; split; lia.
Qed.

(** The loops add up what their bodies add. *)
Lemma enum_loop_grows {A : Type} (f : nat -> Replace.tally -> A -> A * Replace.tally)
      (weight : A -> nat) :
  (forall i acc x, grows_by (weight x) acc (snd (f i acc x))) ->
  forall l i acc,
    grows_by (list_sum (map weight l)) acc (snd (Replace.enum_loop f i acc l)).
Proof.
  intros Hf. induction l as [|x l IH]; intros i acc; simpl.
  - split; simpl; lia.
  - specialize (Hf i acc x). destruct (f i acc x) as [y acc1]. simpl in Hf.
    specialize (IH (S i) acc1).
    destruct (Replace.enum_loop f (S i) acc1 l) as [ys acc2]. simpl in *.
    eapply grows_by_trans; eassumption.
Qed.

Lemma list_sum_indicator (l : list string) :
  list_sum (map (fun text => if text_changes text then 1 else 0) l)
  = count_changed l.
Proof.
  unfold Spec.count_changed. induction l as [|x l IH]; [reflexivity|].
  change (list_sum (map ?f (x :: l))) with (f x + list_sum (map f l)).
  rewrite IH. cbn [List.filter].
  destruct (Spec.changed E regex_mode rules x); reflexivity.
Qed.

Lemma count_changed_app (l1 l2 : list string) :
  count_changed (l1 ++ l2) = count_changed l1 + count_changed l2.
Proof. unfold Spec.count_changed. rewrite List.filter_app, List.length_app. reflexivity. Qed.

Lemma list_sum_flat {A : Type} (g : A -> list string) (l : list A) :
  list_sum (map (fun x => count_changed (g x)) l) = count_changed (flat_map g l).
Proof.
  induction l as [|x l IH]; simpl; [reflexivity|].
  rewrite count_changed_app, IH. reflexivity.
Qed.

Lemma cell_grows (cut : nat) (loc : nat -> string) (acc : Replace.tally)
      (c : Cell) :
  grows_by (count_changed c) acc
    (snd (Replace.enum_loop
            (fun para_idx =>
               Replace.process_paragraph E regex_mode rules cut (loc para_idx))
            0 acc c)).
Proof.
  rewrite <- list_sum_indicator.
  apply (enum_loop_grows _ (fun text => if text_changes text then 1 else 0)).
  intros. apply process_paragraph_grows.
Qed.

Lemma tables_grow (acc : Replace.tally) (ts : list Table) :
  grows_by
    (count_changed
       (flat_map (fun t : Table =>
          flat_map (fun r : Row => flat_map (fun c : Cell => c) r) t) ts))
    acc (snd (Replace.process_tables E regex_mode rules acc ts)).
Proof.
  unfold Replace.process_tables.
  rewrite <- (list_sum_flat
    (fun t : Table => flat_map (fun r : Row => flat_map (fun c : Cell => c) r) t)).
  apply (enum_loop_grows _ (fun t : Table => count_changed
           (flat_map (fun r : Row => flat_map (fun c : Cell => c) r) t))).
  intros ti acc1 t.
  rewrite <- (list_sum_flat (fun r : Row => flat_map (fun c : Cell => c) r)).
  apply (enum_loop_grows _ (fun r : Row => count_changed
           (flat_map (fun c : Cell => c) r))).
  intros ri acc2 r.
  rewrite <- (list_sum_flat (fun c : Cell => c)).
  apply (enum_loop_grows _ (fun c : Cell => count_changed c)).
  intros ci acc3 c. apply cell_grows.
Qed.

End TallyFacts.


(** Three substitutions in one paragraph count once; a changed paragraph
    in a table cell counts as well. *)
Example count_per_paragraph :
  Replace.perform_replacement_in_doc Frag.engine
    (mkDocument ["x x x"; "none"] [[[["ax"; "b"]]]])
    [("x", Replace.JString "y")] false
  = (mkDocument ["y y y"; "none"] [[[["ay"; "b"]]]], 2,
     [Replace.mkDetail "paragraph_0" "x x x" "y y y";
      Replace.mkDetail "table_0_row_0_cell_0_para_0" "ax" "ay"]).
Proof. vm_compute. reflexivity. Qed.

(** ** The scanners *)

Section ScanFacts.

Lemma lines_with_absent (token full_text : string) :
  PyStr.contains token full_text = false ->
  Scan.lines_with token full_text = [].
Proof.
  intros H. unfold Scan.lines_with.
  destruct (List.filter _ _) as [|line lines] eqn:Hf; [reflexivity|].
  assert (Hin : In line (line :: lines)) by (left; reflexivity).
  rewrite <- Hf in Hin. apply List.filter_In in Hin as [Hl Ht].
  rewrite (contains_line _ _ _ Hl Ht) in H. discriminate.
Qed.

Lemma scan_fold (full_text : string) (patterns matched lines : list string) :
  fold_left (Scan.scan_token full_text) patterns (matched, lines)
  = (matched ++ List.filter (fun token => PyStr.contains token full_text) patterns,
     lines ++ flat_map (fun token => Scan.lines_with token full_text) patterns).
Proof.
  revert matched lines.
  induction patterns as [|token patterns IH]; intros matched lines; simpl.
  - rewrite !app_nil_r. reflexivity.
  - unfold Scan.scan_token at 2.
    destruct (PyStr.contains token full_text) eqn:Ht; simpl.
    + rewrite IH, <- !app_assoc. reflexivity.
    + rewrite IH, (lines_with_absent _ _ Ht). reflexivity.
Qed.

(** The excerpts one pattern adds are the hits of that pattern alone,
    in document order. *)
Lemma lines_with_hits (token full_text : string) :
  Scan.lines_with token full_text
  = Scan.hits_in_document_order PyStr.contains [token]
      (PyStr.split_nl full_text).
Proof.
  unfold Scan.lines_with, Scan.hits_in_document_order.
  induction (PyStr.split_nl full_text) as [|line lines IH]; simpl;
    [reflexivity|].
  destruct (PyStr.contains token line); simpl; rewrite IH; reflexivity.
Qed.

Lemma hits_no_pattern (matches : string -> string -> bool)
      (lines : list string) :
  Scan.hits_in_document_order matches [] lines = [].
Proof.
  unfold Scan.hits_in_document_order.
  induction lines as [|line lines IH]; simpl; [reflexivity|exact IH].
Qed.

Lemma hits_cons (matches : string -> string -> bool) (p : string)
      (ps lines : list string) :
  Permutation
    (Scan.hits_in_document_order matches [p] lines
     ++ Scan.hits_in_document_order matches ps lines)
    (Scan.hits_in_document_order matches (p :: ps) lines).
Proof.
  unfold Scan.hits_in_document_order.
  induction lines as [|line lines IH]; [constructor|].
  cbn [flat_map List.filter map]. rewrite <- !app_assoc.
  destruct (matches p line); cbn [map app].
  - constructor.
    etransitivity; [apply Permutation_app_swap_app|].
    apply Permutation_app_head. exact IH.
  - etransitivity; [apply Permutation_app_swap_app|].
    apply Permutation_app_head. exact IH.
Qed.

(** Taking the hits pattern by pattern or line by line gives the same
    excerpts, each as many times. *)
Lemma hits_by_pattern (matches : string -> string -> bool)
      (patterns lines : list string) :
  Permutation
    (flat_map (fun pattern =>
                 Scan.hits_in_document_order matches [pattern] lines) patterns)
    (Scan.hits_in_document_order matches patterns lines).
Proof.
  induction patterns as [|p ps IH]; cbn [flat_map].
  - rewrite hits_no_pattern. constructor.
  - etransitivity; [apply Permutation_app_head, IH|]. apply hits_cons.
Qed.

Lemma in_hits (matches : string -> string -> bool)
      (patterns lines : list string) (excerpt : string) :
  In excerpt (Scan.hits_in_document_order matches patterns lines)
  <-> exists pattern line,
        In pattern patterns /\ In line lines
        /\ matches pattern line = true /\ excerpt = PyStr.strip line.
Proof.
  unfold Scan.hits_in_document_order. rewrite in_flat_map. split.
  - intros (line & Hl & Hin). apply in_map_iff in Hin as (p & <- & Hp).
    apply List.filter_In in Hp as [Hp Hm]. exists p, line. auto.
  - intros (p & line & Hp & Hl & Hm & ->). exists line. split; [exact Hl|].
    apply in_map_iff. exists p. split; [reflexivity|].
    apply List.filter_In. auto.
Qed.

Variable E : PyRe.ReEngine.

Lemma search_compiled (pattern line : string) :
  PyRe.re_compile E pattern <> None ->
  exists found, PyRe.search E pattern line = Ok found.
Proof.
  intros H. unfold PyRe.search, PyRe.compile.
  destruct (PyRe.re_compile E pattern); [|contradiction].
  eexists. reflexivity.
Qed.

Lemma match_line_ok (line : string) (patterns : list string)
      (acc : gset string * list string) :
  (forall p, In p patterns -> PyRe.re_compile E p <> None) ->
  exists names,
    Scan.match_line E line patterns acc
    = Ok (names,
          snd acc ++ map (fun _ => PyStr.strip line)
                         (List.filter (fun p => Scan.found E p line) patterns)).
Proof.
  revert acc. induction patterns as [|p ps IH]; intros acc Hc; simpl.
  - exists (fst acc). rewrite app_nil_r. destruct acc. reflexivity.
  - destruct (search_compiled p line (Hc p (or_introl eq_refl))) as [f Hf].
    unfold Scan.found at 1. rewrite Hf. simpl.
    assert (Hps : forall q, In q ps -> PyRe.re_compile E q <> None)
      by (intros q Hq; apply Hc; right; exact Hq).
    destruct f as [m|].
    + destruct (IH ({[p]} ∪ fst acc, snd acc ++ [PyStr.strip line]) Hps)
        as [names ->].
      exists names. simpl. rewrite <- app_assoc. reflexivity.
    + destruct (IH acc Hps) as [names ->]. exists names. reflexivity.
Qed.

Lemma match_lines_ok (lines patterns : list string)
      (acc : gset string * list string) :
  (forall p, In p patterns -> PyRe.re_compile E p <> None) ->
  exists names,
    Scan.match_lines E lines patterns acc
    = Ok (names,
          snd acc ++ Scan.hits_in_document_order (Scan.found E) patterns lines).
Proof.
  intros Hc. revert acc.
  induction lines as [|line lines IH]; intros acc; simpl.
  - exists (fst acc). rewrite app_nil_r. destruct acc. reflexivity.
  - destruct (match_line_ok line patterns acc Hc) as [names ->]. simpl.
    destruct (IH (names, snd acc ++ map (fun _ => PyStr.strip line)
                   (List.filter (fun p => Scan.found E p line) patterns)))
      as [names' ->].
    exists names'. simpl. rewrite <- app_assoc. reflexivity.
Qed.

Lemma legacy_excerpts (doc : Document) (patterns : list string) :
  (forall p, In p patterns -> PyRe.re_compile E p <> None) ->
  snd (Scan.get_matching_lines_combined E doc patterns)
  = Scan.hits_in_document_order (Scan.found E) patterns
      (extract_full_text_lines doc).
Proof.
  intros Hc. unfold Scan.get_matching_lines_combined.
  destruct (match_lines_ok (extract_full_text_lines doc) patterns (∅, []) Hc)
    as [names ->]. reflexivity.
Qed.

End ScanFacts.

(** C1, as stated, fails for [scan_documents]: the pattern [a.c] matches
    the line ["abc"] as a regular expression, and the scan of a document
    with that one line reports no match, since the three characters
    [a.c] do not occur in it. *)
Lemma C1_counterexample :
  let doc := mkDocument ["abc"] [] in
  In "abc" (extract_full_text_lines doc)
  /\ PyRe.search Frag.engine "a.c" "abc" = Ok (Some (PyRe.mkMatch 0 3 []))
  /\ Scan.scan_document ["a.c"] doc = ([], []).
Proof. repeat split; vm_compute; auto. Qed.

(** C1, amended. [scan_documents] takes a pattern as literal text: the
    matched patterns are those that occur in the full text, and the
    excerpts are the stripped lines of the full text in which a pattern
    occurs. [get_matching_lines_combined] of the first scanner takes a
    pattern as a regular expression: when the patterns compile, the
    excerpts are the stripped lines in which [re.search] finds a match
    of a pattern, anywhere in the line. *)
Theorem C1_scan_match_semantics (E : PyRe.ReEngine) (patterns : list string)
        (doc : Document) :
  (forall p, In p patterns -> PyRe.re_compile E p <> None) ->
  let full_text := PyStr.join_nl (extract_full_text_lines doc) in
  fst (Scan.scan_document patterns doc)
  = List.filter (fun token => PyStr.contains token full_text) patterns
  /\ (forall excerpt,
         In excerpt (snd (Scan.scan_document patterns doc))
         <-> exists token line,
               In token patterns /\ In line (PyStr.split_nl full_text)
               /\ PyStr.contains token line = true
               /\ excerpt = PyStr.strip line)
  /\ (forall excerpt,
         In excerpt (snd (Scan.get_matching_lines_combined E doc patterns))
         <-> exists pattern line,
               In pattern patterns /\ In line (extract_full_text_lines doc)
               /\ Scan.found E pattern line = true
               /\ excerpt = PyStr.strip line).
Proof.
  intros Hc full_text. unfold Scan.scan_document. fold full_text.
  rewrite scan_fold. simpl. split; [reflexivity|]. split.
  - intros excerpt.
    rewrite <- in_hits, <- (Permutation_in' eq_refl (hits_by_pattern _ _ _)).
    rewrite (flat_map_ext _ _ (fun token => lines_with_hits token full_text)).
    reflexivity.
  - intros excerpt. rewrite (legacy_excerpts E doc patterns Hc).
    apply in_hits.
Qed.

Lemma C1_scan_match_semantics_witness :
  let doc := mkDocument ["abc"; "a.c here"] [] in
  let patterns := ["a.c"] in
  let full_text := PyStr.join_nl (extract_full_text_lines doc) in
  fst (Scan.scan_document patterns doc)
  = List.filter (fun token => PyStr.contains token full_text) patterns
  /\ (forall excerpt,
         In excerpt (snd (Scan.scan_document patterns doc))
         <-> exists token line,
               In token patterns /\ In line (PyStr.split_nl full_text)
               /\ PyStr.contains token line = true
               /\ excerpt = PyStr.strip line)
  /\ (forall excerpt,
         In excerpt (snd (Scan.get_matching_lines_combined Frag.engine doc patterns))
         <-> exists pattern line,
               In pattern patterns /\ In line (extract_full_text_lines doc)
               /\ Scan.found Frag.engine pattern line = true
               /\ excerpt = PyStr.strip line).
Proof.
  apply (C1_scan_match_semantics Frag.engine ["a.c"]
           (mkDocument ["abc"; "a.c here"] [])).
  intros p [<-|[]]. vm_compute. discriminate.
Defined.

(** The two scanners on the same document and pattern. *)
Example scanners_differ :
  let doc := mkDocument ["abc"; "a.c here"] [] in
  Scan.scan_document ["a.c"] doc = (["a.c"], ["a.c here"])
  /\ snd (Scan.get_matching_lines_combined Frag.engine doc ["a.c"])
     = ["abc"; "a.c here"].
Proof. split; vm_compute; reflexivity. Qed.

(** C9, as stated, fails for [scan_documents]: with the patterns ["a"]
    and ["b"] and the lines ["b"] and ["a"], the excerpts come out as
    ["a"], ["b"], the order of the patterns, and not in the order of the
    lines. *)
Lemma C9_counterexample :
  let doc := mkDocument ["b"; "a"] [] in
  let full_text := PyStr.join_nl (extract_full_text_lines doc) in
  PyStr.split_nl full_text = ["b"; "a"]
  /\ snd (Scan.scan_document ["a"; "b"] doc) = ["a"; "b"]
  /\ Scan.hits_in_document_order PyStr.contains ["a"; "b"]
       (PyStr.split_nl full_text) = ["b"; "a"]
  /\ snd (Scan.scan_document ["a"; "b"] doc)
     <> Scan.hits_in_document_order PyStr.contains ["a"; "b"]
          (PyStr.split_nl full_text).
Proof. repeat split; try (vm_compute; reflexivity). vm_compute. discriminate. Qed.

(** C9, amended. In [scan_documents] the excerpts hold each stripped
    line once for every pattern that occurs in it, duplicates kept; they
    are grouped by pattern, in the order of the patterns, and within a
    group they are in document order, so for a single pattern the whole
    list is in document order. In [get_matching_lines_combined], when
    the patterns compile, the excerpts are in document order whatever
    the number of patterns. *)
Theorem C9_excerpts_grouped_by_pattern (E : PyRe.ReEngine)
        (patterns : list string) (doc : Document) :
  (forall p, In p patterns -> PyRe.re_compile E p <> None) ->
  let lines := PyStr.split_nl (PyStr.join_nl (extract_full_text_lines doc)) in
  snd (Scan.scan_document patterns doc)
  = flat_map (fun token =>
                Scan.hits_in_document_order PyStr.contains [token] lines)
             patterns
  /\ Permutation (snd (Scan.scan_document patterns doc))
                 (Scan.hits_in_document_order PyStr.contains patterns lines)
  /\ (forall token,
         snd (Scan.scan_document [token] doc)
         = Scan.hits_in_document_order PyStr.contains [token] lines)
  /\ snd (Scan.get_matching_lines_combined E doc patterns)
     = Scan.hits_in_document_order (Scan.found E) patterns
         (extract_full_text_lines doc).
Proof.
  intros Hc lines.
  assert (Hv3 : forall ps,
             snd (Scan.scan_document ps doc)
             = flat_map (fun token =>
                  Scan.hits_in_document_order PyStr.contains [token] lines) ps).
  { intros ps. unfold Scan.scan_document. rewrite scan_fold. simpl.
    apply flat_map_ext. intros token. apply lines_with_hits. }
  split; [apply Hv3|]. split; [|split].
  - rewrite Hv3. apply hits_by_pattern.
  - intros token. rewrite Hv3. simpl. apply app_nil_r.
  - apply legacy_excerpts. exact Hc.
Qed.

Lemma C9_excerpts_grouped_by_pattern_witness :
  let doc := mkDocument ["b"; " a b "; "a"] [] in
  let patterns := ["a"; "b"] in
  let lines := PyStr.split_nl (PyStr.join_nl (extract_full_text_lines doc)) in
  snd (Scan.scan_document patterns doc)
  = flat_map (fun token =>
                Scan.hits_in_document_order PyStr.contains [token] lines)
             patterns
  /\ Permutation (snd (Scan.scan_document patterns doc))
                 (Scan.hits_in_document_order PyStr.contains patterns lines)
  /\ (forall token,
         snd (Scan.scan_document [token] doc)
         = Scan.hits_in_document_order PyStr.contains [token] lines)
  /\ snd (Scan.get_matching_lines_combined Frag.engine doc patterns)
     = Scan.hits_in_document_order (Scan.found Frag.engine) patterns
         (extract_full_text_lines doc).
Proof.
  apply (C9_excerpts_grouped_by_pattern Frag.engine ["a"; "b"]
           (mkDocument ["b"; " a b "; "a"] [])).
  intros p [<-|[<-|[]]]; vm_compute; discriminate.
Defined.

Example excerpts_of_both_scanners :
  let doc := mkDocument ["b"; " a b "; "a"] [] in
  snd (Scan.scan_document ["a"; "b"] doc) = ["a b"; "a"; "b"; "a b"]
  /\ snd (Scan.get_matching_lines_combined Frag.engine doc ["a"; "b"])
     = ["b"; "a b"; "a b"; "a"].
Proof. split; vm_compute; reflexivity. Qed.

(** ** The batch driver *)

Section DryRunFacts.

Context {W : Type}.
Variable os : Batch.OS W.
Variable E : PyRe.ReEngine.
Variable backup_root : string.
Variable rules : Replace.replacement_map.
Variable regex_mode : bool.
Variable stop_at : nat -> bool.

(** What one file adds to a dry run: an event, and the counters. *)
Lemma process_file_dry (i : nat) (file_path : string) (st : Batch.state W) :
  let st' := Batch.process_file os E Batch.dry_run backup_root rules
               regex_mode i file_path st in
  Batch.world st' = Batch.world st
  /\ Batch.trace st' = Batch.trace st ++ [Batch.EvOpen i]
  /\ Batch.current_output_dir st' = Batch.current_output_dir st
  /\ Batch.total_replacements st' = Batch.total_replacements st
  /\ Batch.processed_files st'
     = Batch.processed_files st
       + (if is_ok (Batch.load_document os (Batch.world st) file_path)
          then 1 else 0)
  /\ Batch.modified_files st'
     = Batch.modified_files st
       + (if match Batch.load_document os (Batch.world st) file_path with
             | Ok doc =>
                 0 <? snd (fst (Replace.perform_replacement_in_doc
                                  E doc rules regex_mode))
             | Raise _ => false
             end
          then 1 else 0).
Proof.
  unfold Batch.process_file, Batch.log. cbn [Batch.world].
  destruct (Batch.load_document os (Batch.world st) file_path) as [doc|e];
    cbn [is_ok Batch.world Batch.trace Batch.current_output_dir
         Batch.total_replacements Batch.processed_files Batch.modified_files].
  - destruct (Replace.perform_replacement_in_doc E doc rules regex_mode)
      as [[doc' n] ds]. cbn [fst snd].
    unfold Batch.write_out.
    change (String.eqb Batch.dry_run Batch.dry_run) with true. cbv iota.
    destruct (0 <? n); cbn; repeat split; lia.
  - repeat split; lia.
Qed.

Lemma loop_dry (files : list string) :
  forall (i : nat) (st : Batch.state W),
    let r := Batch.loop os E Batch.dry_run backup_root rules regex_mode
               stop_at i files st in
    Batch.world (fst r) = Batch.world st
    /\ (exists evs, Batch.trace (fst r) = Batch.trace st ++ evs
                    /\ Forall (fun ev => Batch.is_write ev = false) evs)
    /\ Batch.current_output_dir (fst r) = Batch.current_output_dir st
    /\ Batch.total_replacements (fst r) = Batch.total_replacements st
    /\ Batch.processed_files (fst r)
       = Batch.processed_files st
         + length (List.filter (Batch.readable os (Batch.world st))
                               (Batch.reached stop_at i files))
    /\ Batch.modified_files (fst r)
       = Batch.modified_files st
         + length (List.filter
                     (Batch.would_change os E rules regex_mode (Batch.world st))
                     (Batch.reached stop_at i files)).
Proof.
  induction files as [|file_path files IH]; intros i st; cbv zeta.
  - cbn. split; [reflexivity|]. split; [|repeat split; lia].
    exists []. rewrite app_nil_r. split; constructor.
  - cbn [Batch.loop Batch.reached].
    destruct (stop_at i).
    + cbn. split; [reflexivity|]. split; [|repeat split; lia].
      exists [Batch.EvPoll i]. split; [reflexivity|repeat constructor].
    + set (st0 := Batch.log (Batch.EvExists i) (Batch.log (Batch.EvPoll i) st)).
      assert (H0 : Batch.world st0 = Batch.world st
                   /\ Batch.trace st0
                      = Batch.trace st ++ [Batch.EvPoll i; Batch.EvExists i]
                   /\ Batch.current_output_dir st0 = Batch.current_output_dir st
                   /\ Batch.total_replacements st0 = Batch.total_replacements st
                   /\ Batch.processed_files st0 = Batch.processed_files st
                   /\ Batch.modified_files st0 = Batch.modified_files st).
      { subst st0. cbn. rewrite <- app_assoc. repeat split. }
      destruct H0 as (H0w & H0t & H0d & H0tot & H0p & H0m).
      rewrite H0w. cbn [List.filter].
      assert (Hr : Batch.readable os (Batch.world st) file_path
                   = Batch.path_exists os (Batch.world st) file_path
                     && is_ok (Batch.load_document os (Batch.world st) file_path))
        by reflexivity.
      assert (Hc : Batch.would_change os E rules regex_mode (Batch.world st)
                     file_path
                   = Batch.path_exists os (Batch.world st) file_path
                     && match Batch.load_document os (Batch.world st) file_path with
                        | Ok doc =>
                            0 <? snd (fst (Replace.perform_replacement_in_doc
                                             E doc rules regex_mode))
                        | Raise _ => false
                        end)
        by reflexivity.
      rewrite Hr, Hc. clear Hr Hc.
      destruct (Batch.path_exists os (Batch.world st) file_path) eqn:Hex;
        cbn [negb andb].
      * pose proof (process_file_dry i file_path st0) as Hpf. cbv zeta in Hpf.
        set (st1 := Batch.process_file os E Batch.dry_run backup_root
                      rules regex_mode i file_path st0) in *.
        destruct Hpf as (Hw & Ht & Hd & Htot & Hp & Hm).
        rewrite H0w in Hp, Hm.
        specialize (IH (S i) st1). cbv zeta in IH.
        destruct IH as (IHw & (evs & IHt & IHe) & IHd & IHtot & IHp & IHm).
        assert (Hw1 : Batch.world st1 = Batch.world st) by congruence.
        rewrite Hw1 in IHp, IHm.
        split; [congruence|]. split; [|split; [congruence|]].
        { exists ([Batch.EvPoll i; Batch.EvExists i; Batch.EvOpen i] ++ evs).
          split.
          - rewrite IHt, Ht, H0t, <- !app_assoc. reflexivity.
          - repeat constructor. exact IHe. }
        split; [congruence|]. split.
        { rewrite IHp, Hp, H0p.
          destruct (is_ok (Batch.load_document os (Batch.world st) file_path));
            cbn [length]; lia. }
        { rewrite IHm, Hm, H0m.
          destruct (Batch.load_document os (Batch.world st) file_path) as [doc|e];
            [destruct (0 <? _)|]; cbn [length]; lia. }
      * specialize (IH (S i) st0). cbv zeta in IH.
        destruct IH as (IHw & (evs & IHt & IHe) & IHd & IHtot & IHp & IHm).
        rewrite H0w in IHp, IHm.
        split; [congruence|]. split; [|repeat split; congruence].
        exists ([Batch.EvPoll i; Batch.EvExists i] ++ evs). split.
        -- rewrite IHt, H0t, <- !app_assoc. reflexivity.
        -- repeat constructor. exact IHe.
Qed.

End DryRunFacts.

(** C7. In a dry run the world a run ends in is the world it started in:
    no document is saved, no copy is made and no output directory is
    set, whatever the rules, the files and the moment of a stop. The
    would-be changes are still computed: the files that were read are
    counted as processed, and those in which a paragraph would change as
    modified. *)
Theorem C7_dry_run_writes_nothing {W : Type} (os : Batch.OS W)
        (E : PyRe.ReEngine) (backup_root : string)
        (rules : Replace.replacement_map) (regex_mode : bool)
        (stop_at : nat -> bool) (w : W) (loaded_files : list string)
        (st : Batch.state W) (stopped : bool) :
  Batch.process_replacements os E Batch.dry_run backup_root rules regex_mode
    stop_at w loaded_files = Some (st, stopped) ->
  Batch.world st = w
  /\ Forall (fun ev => Batch.is_write ev = false) (Batch.trace st)
  /\ Batch.current_output_dir st = None
  /\ Batch.processed_files st
     = length (List.filter (Batch.readable os w)
                           (Batch.reached stop_at 0 loaded_files))
  /\ Batch.modified_files st
     = length (List.filter (Batch.would_change os E rules regex_mode w)
                           (Batch.reached stop_at 0 loaded_files)).
Proof.
  unfold Batch.process_replacements. intros H.
  assert (Hloop : Batch.loop os E Batch.dry_run backup_root rules regex_mode
                    stop_at 0 loaded_files (Batch.initial w) = (st, stopped)).
  { destruct loaded_files; [discriminate|]. destruct rules; [discriminate|].
    change (String.eqb Batch.dry_run Batch.dry_run) with true in H.
    cbn [negb andb] in H. injection H as H. exact H. }
  pose proof (loop_dry os E backup_root rules regex_mode stop_at loaded_files
                0 (Batch.initial w)) as L.
  cbv zeta in L. rewrite Hloop in L. cbn [fst Batch.initial Batch.world
    Batch.trace Batch.current_output_dir Batch.total_replacements
    Batch.processed_files Batch.modified_files] in L.
  destruct L as (Lw & (evs & Lt & Le) & Ld & Ltot & Lp & Lm).
  split; [assumption|]. split; [rewrite Lt; exact Le|].
  repeat split; assumption.
Qed.

Lemma C7_dry_run_writes_nothing_witness :
  let w : SimpleFS.world :=
    <["a.docx" := mkDocument ["x"] []]>
      (<["b.docx" := mkDocument ["none"] []]> ∅) in
  let files := ["a.docx"; "missing.docx"; "b.docx"] in
  let rules := [("x", Replace.JString "y")] in
  match Batch.process_replacements SimpleFS.os Frag.engine Batch.dry_run ""
          rules false (fun _ => false) w files with
  | Some (st, stopped) =>
      Batch.world st = w
      /\ Forall (fun ev => Batch.is_write ev = false) (Batch.trace st)
      /\ Batch.current_output_dir st = None
      /\ Batch.processed_files st
         = length (List.filter (Batch.readable SimpleFS.os w)
                               (Batch.reached (fun _ => false) 0 files))
      /\ Batch.modified_files st
         = length (List.filter
                     (Batch.would_change SimpleFS.os Frag.engine rules false w)
                     (Batch.reached (fun _ => false) 0 files))
  | None => False
  end.
Proof.
  intros w files rules.
  destruct (Batch.process_replacements SimpleFS.os Frag.engine Batch.dry_run ""
              rules false (fun _ => false) w files) as [[st stopped]|] eqn:H.
  - exact (C7_dry_run_writes_nothing SimpleFS.os Frag.engine "" rules false
             (fun _ => false) w files st stopped H).
  - vm_compute in H. discriminate.
Defined.

(** The counters of that dry run: two files read, one that would change;
    the same run in place rewrites the file that changes. *)
Example dry_run_and_in_place :
  let w : SimpleFS.world :=
    <["a.docx" := mkDocument ["x"] []]>
      (<["b.docx" := mkDocument ["none"] []]> ∅) in
  let files := ["a.docx"; "missing.docx"; "b.docx"] in
  let rules := [("x", Replace.JString "y")] in
  let summary (mode : string) :=
    option_map (fun r : Batch.state SimpleFS.world * bool =>
                  (Batch.processed_files (fst r), Batch.modified_files (fst r),
                   Batch.total_replacements (fst r),
                   Batch.world (fst r) !! "a.docx"))
      (Batch.process_replacements SimpleFS.os Frag.engine mode "" rules false
         (fun _ => false) w files) in
  summary Batch.dry_run = Some (2, 1, 0, Some (mkDocument ["x"] []))
  /\ summary Batch.in_place = Some (2, 1, 1, Some (mkDocument ["y"] [])).
Proof. split; vm_compute; reflexivity. Qed.

Section StopFacts.

Context {W : Type}.
Variable os : Batch.OS W.
Variable E : PyRe.ReEngine.
Variable mode : string.
Variable backup_root : string.
Variable rules : Replace.replacement_map.
Variable regex_mode : bool.
Variable stop_at : nat -> bool.

Lemma write_out_events (i : nat) (file_path : string) (doc : Document)
      (n : nat) (st : Batch.state W) :
  let r := Batch.write_out os mode backup_root i file_path doc n st in
  Batch.processed_files (fst r) = Batch.processed_files st
  /\ exists evs, Batch.trace (fst r) = Batch.trace st ++ evs
                 /\ Batch.events_of_file i evs.
Proof.
  unfold Batch.write_out, Batch.events_of_file, Batch.log, Batch.set_world.
  destruct (String.eqb mode Batch.dry_run).
  { cbn. split; [reflexivity|]. exists []. rewrite app_nil_r.
    split; [reflexivity|constructor]. }
  destruct (PyStr.contains "Modified Copies" mode).
  - destruct (Batch.create_output_copy os (Batch.world st) file_path
                backup_root _) as [w1 [[output_dir output_file_path]|e]].
    + destruct (Batch.save_document os w1 doc output_file_path) as [w2 [u|e]];
        cbn; (split; [reflexivity|]);
        exists [Batch.EvCopy i; Batch.EvSave i output_file_path];
        rewrite <- app_assoc; (split; [reflexivity|repeat constructor]).
    + cbn. split; [reflexivity|]. exists [Batch.EvCopy i].
      split; [reflexivity|repeat constructor].
  - destruct (Batch.save_document os (Batch.world st) doc file_path)
      as [w1 [u|e]];
      cbn; (split; [reflexivity|]); exists [Batch.EvSave i file_path];
      (split; [reflexivity|repeat constructor]).
Qed.

Lemma process_file_events (i : nat) (file_path : string) (st : Batch.state W) :
  let st' := Batch.process_file os E mode backup_root rules regex_mode
               i file_path st in
  Batch.processed_files st <= Batch.processed_files st'
  /\ Batch.processed_files st' <= Batch.processed_files st + 1
  /\ exists evs, Batch.trace st' = Batch.trace st ++ evs
                 /\ Batch.events_of_file i evs.
Proof.
  unfold Batch.process_file. cbv zeta.
  set (st0 := Batch.log (Batch.EvOpen i) st).
  assert (H0 : Batch.processed_files st0 = Batch.processed_files st
               /\ Batch.trace st0 = Batch.trace st ++ [Batch.EvOpen i])
    by (split; reflexivity).
  destruct H0 as [H0p H0t].
  destruct (Batch.load_document os (Batch.world st0) file_path) as [doc|e].
  - destruct (Replace.perform_replacement_in_doc E doc rules regex_mode)
      as [[doc' n] ds].
    destruct (0 <? n).
    + pose proof (write_out_events i file_path doc' n st0) as Hw.
      cbv zeta in Hw.
      destruct (Batch.write_out os mode backup_root i file_path doc' n st0)
        as [st1 r].
      cbn [fst] in Hw. destruct Hw as (Hp & evs & Ht & He).
      assert (Hevs : exists evs', Batch.trace st1 = Batch.trace st ++ evs'
                                  /\ Batch.events_of_file i evs').
      { exists (Batch.EvOpen i :: evs). split.
        - rewrite Ht, H0t, <- app_assoc. reflexivity.
        - constructor; [split; reflexivity|exact He]. }
      destruct r; cbn; (split; [lia|]); (split; [lia|]); exact Hevs.
    + cbn. split; [lia|]. split; [lia|].
      exists [Batch.EvOpen i]. split; [reflexivity|repeat constructor].
  - rewrite H0p. split; [lia|]. split; [lia|].
    exists [Batch.EvOpen i]. split; [exact H0t|repeat constructor].
Qed.

(** A file that goes through is counted. *)
Lemma process_file_through (i : nat) (file_path : string) (st : Batch.state W) :
  Batch.goes_through os E mode backup_root rules regex_mode i file_path st
  = true ->
  Batch.processed_files
    (Batch.process_file os E mode backup_root rules regex_mode i file_path st)
  = Batch.processed_files st + 1.
Proof.
  unfold Batch.goes_through, Batch.process_file. cbv zeta. intros H.
  apply andb_prop in H as [_ H].
  change (Batch.world (Batch.log (Batch.EvOpen i) st)) with (Batch.world st).
  destruct (Batch.load_document os (Batch.world st) file_path) as [doc|e];
    [|discriminate].
  destruct (Replace.perform_replacement_in_doc E doc rules regex_mode)
    as [[doc' n] ds].
  destruct (0 <? n); [|reflexivity].
  pose proof (write_out_events i file_path doc' n
                (Batch.log (Batch.EvOpen i) st)) as Hw.
  cbv zeta in Hw.
  destruct (Batch.write_out os mode backup_root i file_path doc' n
              (Batch.log (Batch.EvOpen i) st)) as [st1 r].
  cbn [fst snd] in *. destruct Hw as [Hp _].
  destruct r as [u|e]; [|discriminate].
  cbn [Batch.processed_files]. rewrite Hp. reflexivity.
Qed.

(** A file that is not there does not go through. *)
Lemma goes_through_exists (i : nat) (file_path : string) (st : Batch.state W) :
  Batch.goes_through os E mode backup_root rules regex_mode i file_path st
  = true ->
  Batch.path_exists os (Batch.world st) file_path = true.
Proof.
  unfold Batch.goes_through. intros H. apply andb_prop in H as [H _]. exact H.
Qed.

End StopFacts.

Section StopLoop.

Context {W : Type}.
Variable os : Batch.OS W.
Variable E : PyRe.ReEngine.
Variable mode : string.
Variable backup_root : string.
Variable rules : Replace.replacement_map.
Variable regex_mode : bool.
Variable stop_at : nat -> bool.

Lemma events_of_file_no_poll (i : nat) (evs : list Batch.event) :
  Batch.events_of_file i evs -> List.filter Batch.is_poll evs = [].
Proof.
  induction 1 as [|ev evs [_ Hp] _ IH]; [reflexivity|].
  cbn [List.filter]. rewrite Hp. exact IH.
Qed.

Lemma events_of_file_up_to (i k : nat) (evs : list Batch.event) :
  i < k -> Batch.events_of_file i evs -> Batch.events_up_to k evs.
Proof.
  intros Hik. unfold Batch.events_of_file, Batch.events_up_to.
  apply List.Forall_impl. intros ev [Hi _]. split; lia.
Qed.

(** The loop started at file [i], when the flag is first found set
    before file [k]. *)
Lemma loop_stopped (files : list string) :
  forall (i k : nat) (st : Batch.state W),
    i <= k -> k < i + length files ->
    (forall j, i <= j -> j < k -> stop_at j = false) ->
    stop_at k = true ->
    let r := Batch.loop os E mode backup_root rules regex_mode stop_at
               i files st in
    snd r = true
    /\ Batch.processed_files st <= Batch.processed_files (fst r)
    /\ Batch.processed_files (fst r) <= Batch.processed_files st + (k - i)
    /\ (exists evs,
           Batch.trace (fst r) = Batch.trace st ++ evs
           /\ Batch.events_up_to k evs
           /\ List.filter Batch.is_poll evs
              = map Batch.EvPoll (seq i (S k - i)))
    /\ (Batch.all_go_through os E mode backup_root rules regex_mode stop_at
          i files st = true ->
        Batch.processed_files (fst r) = Batch.processed_files st + (k - i)).
Proof.
  induction files as [|file_path files IH]; intros i k st Hik Hk Hgo Hstop;
    cbv zeta.
  { cbn [length] in Hk. lia. }
  cbn [Batch.loop].
  destruct (Nat.eq_dec i k) as [->|Hne].
  - rewrite Hstop. cbn [fst snd].
    change (Batch.processed_files (Batch.log (Batch.EvPoll k) st))
      with (Batch.processed_files st).
    change (Batch.trace (Batch.log (Batch.EvPoll k) st))
      with (Batch.trace st ++ [Batch.EvPoll k]).
    replace (k - k) with 0 by lia. replace (S k - k) with 1 by lia.
    split; [reflexivity|]. split; [lia|]. split; [lia|]. split; [|intros; lia].
    exists [Batch.EvPoll k]. split; [reflexivity|]. split; [|reflexivity].
    constructor; [|constructor]. split; [cbn; lia|reflexivity].
  - rewrite (Hgo i) by lia.
    set (st0 := Batch.log (Batch.EvExists i) (Batch.log (Batch.EvPoll i) st)).
    assert (H0 : Batch.processed_files st0 = Batch.processed_files st
                 /\ Batch.trace st0
                    = Batch.trace st ++ [Batch.EvPoll i; Batch.EvExists i]).
    { subst st0. cbn. rewrite <- app_assoc. split; reflexivity. }
    destruct H0 as [H0p H0t].
    assert (Hhead : Batch.events_up_to k [Batch.EvPoll i; Batch.EvExists i]).
    { repeat constructor; cbn; lia. }
    assert (Hseq : seq i (S k - i) = i :: seq (S i) (S k - S i)).
    { replace (S k - i) with (S (S k - S i)) by lia. reflexivity. }
    assert (Hstep : forall st1 evs1,
               Batch.processed_files st <= Batch.processed_files st1 ->
               Batch.processed_files st1 <= Batch.processed_files st + 1 ->
               Batch.trace st1 = Batch.trace st0 ++ evs1 ->
               Batch.events_of_file i evs1 ->
               let r := Batch.loop os E mode backup_root rules regex_mode
                          stop_at (S i) files st1 in
               snd r = true
               /\ Batch.processed_files st <= Batch.processed_files (fst r)
               /\ Batch.processed_files (fst r)
                  <= Batch.processed_files st + (k - i)
               /\ (exists evs,
                      Batch.trace (fst r) = Batch.trace st ++ evs
                      /\ Batch.events_up_to k evs
                      /\ List.filter Batch.is_poll evs
                         = map Batch.EvPoll (seq i (S k - i)))
               /\ (Batch.all_go_through os E mode backup_root rules
                     regex_mode stop_at (S i) files st1 = true ->
                   Batch.processed_files (fst r)
                   = Batch.processed_files st1 + (k - S i))).
    { intros st1 evs1 Hlo Hhi Ht1 He1. cbv zeta.
      assert (Hgo' : forall j, S i <= j -> j < k -> stop_at j = false)
        by (intros j ? ?; apply Hgo; lia).
      cbn [length] in Hk.
      destruct (IH (S i) k st1 ltac:(lia) ltac:(lia) Hgo' Hstop)
        as (Hs & Hp1 & Hp2 & (evs & Ht & Hu & Hf) & Hall).
      split; [exact Hs|]. split; [lia|]. split; [lia|]. split; [|exact Hall].
      exists ([Batch.EvPoll i; Batch.EvExists i] ++ evs1 ++ evs).
      split; [|split].
      - rewrite Ht, Ht1, H0t, <- !app_assoc. reflexivity.
      - unfold Batch.events_up_to in *. rewrite !Forall_app.
        split; [exact Hhead|]. split; [|exact Hu].
        apply (events_of_file_up_to i k evs1); [lia|exact He1].
      - cbn [app List.filter Batch.is_poll].
        rewrite List.filter_app, (events_of_file_no_poll i evs1 He1), Hf, Hseq.
        reflexivity. }
    change (Batch.world st0) with (Batch.world st).
    destruct (Batch.path_exists os (Batch.world st) file_path) eqn:Hex;
      cbn [negb].
    + pose proof (process_file_events os E mode backup_root rules regex_mode
                    i file_path st0) as Hpf. cbv zeta in Hpf.
      destruct Hpf as (Hp1 & Hp2 & evs1 & Ht1 & He1).
      rewrite H0p in Hp1, Hp2.
      destruct (Hstep _ evs1 Hp1 Hp2 Ht1 He1) as (Hs & Hq1 & Hq2 & Hev & Hall).
      split; [exact Hs|]. split; [exact Hq1|]. split; [exact Hq2|].
      split; [exact Hev|].
      intros Hwell. cbn [Batch.all_go_through] in Hwell.
      rewrite (Hgo i) in Hwell by lia. cbv zeta in Hwell. fold st0 in Hwell.
      apply andb_prop in Hwell as [Hthis Hrest].
      rewrite (Hall Hrest).
      rewrite (process_file_through os E mode backup_root rules regex_mode
                 i file_path st0 Hthis), H0p.
      lia.
    + destruct (Hstep st0 [] ltac:(lia) ltac:(lia)
                  ltac:(rewrite app_nil_r; reflexivity)
                  ltac:(constructor))
        as (Hs & Hq1 & Hq2 & Hev & Hall).
      split; [exact Hs|]. split; [exact Hq1|]. split; [exact Hq2|].
      split; [exact Hev|].
      intros Hwell. cbn [Batch.all_go_through] in Hwell.
      rewrite (Hgo i) in Hwell by lia. cbv zeta in Hwell. fold st0 in Hwell.
      apply andb_prop in Hwell as [Hthis _].
      apply goes_through_exists in Hthis.
      change (Batch.world st0) with (Batch.world st) in Hthis.
      congruence.
Qed.

End StopLoop.

Lemma process_replacements_loop {W : Type} (os : Batch.OS W) (E : PyRe.ReEngine)
      (mode backup_root : string) (rules : Replace.replacement_map)
      (regex_mode : bool) (stop_at : nat -> bool) (w : W)
      (loaded_files : list string) (r : Batch.state W * bool) :
  Batch.process_replacements os E mode backup_root rules regex_mode stop_at
    w loaded_files = Some r ->
  r = Batch.loop os E mode backup_root rules regex_mode stop_at 0 loaded_files
        (Batch.initial w).
Proof.
  unfold Batch.process_replacements. intros H.
  destruct loaded_files; [discriminate|]. destruct rules; [discriminate|].
  destruct (negb (String.eqb mode Batch.dry_run)
            && PyStr.contains "Modified Copies" mode
            && String.eqb backup_root ""); [discriminate|].
  injection H as <-. reflexivity.
Qed.




(** A file that is not there is not counted: with the second file
    missing the counter of that run is 1, and the hypothesis of the
    equality fails. *)
Example stopped_run_with_missing_file :
  Batch.all_go_through SimpleFS.os Frag.engine Batch.in_place ""
    [("x", Replace.JString "y")] false (fun i => 2 <=? i) 0
    ["a.docx"; "missing.docx"; "b.docx"]
    (Batch.initial (<["a.docx" := mkDocument ["x"] []]>
                      (<["b.docx" := mkDocument ["x"] []]> ∅)))
  = false.
Proof. vm_compute. reflexivity. Qed.

(** That run in full: the third file is never touched, and the file that
    is not there is not counted. *)
Example stopped_run :
  option_map (fun r : Batch.state SimpleFS.world * bool =>
                (Batch.processed_files (fst r), Batch.trace (fst r), snd r))
    (Batch.process_replacements SimpleFS.os Frag.engine Batch.in_place ""
       [("x", Replace.JString "y")] false (fun i => 2 <=? i)
       (<["a.docx" := mkDocument ["x"] []]>
          (<["b.docx" := mkDocument ["x"] []]> ∅))
       ["a.docx"; "missing.docx"; "b.docx"])
  = Some (1,
          [Batch.EvPoll 0; Batch.EvExists 0; Batch.EvOpen 0;
           Batch.EvSave 0 "a.docx";
           Batch.EvPoll 1; Batch.EvExists 1; Batch.EvPoll 2],
          true).
Proof. vm_compute. reflexivity. Qed.

(** ** Further properties of the replacement engine *)

Section DocumentFacts.

Variable E : PyRe.ReEngine.
Variable regex_mode : bool.
Variable rules : Replace.replacement_map.

(** The text a paragraph is left with is what the rules make of it. *)
Lemma process_paragraph_text (cut : nat) (loc : string) (acc : Replace.tally)
      (text : string) :
  fst (Replace.process_paragraph E regex_mode rules cut loc acc text)
  = Replace.apply_rules E regex_mode rules text.
Proof.
  unfold Replace.process_paragraph.
  destruct (String.eqb (Replace.apply_rules E regex_mode rules text) text) eqn:He;
    cbn [negb fst]; [|reflexivity].
  apply String.eqb_eq in He. symmetry. exact He.
Qed.

Lemma enum_loop_map {A : Type} (f : nat -> Replace.tally -> A -> A * Replace.tally)
      (g : A -> A) :
  (forall i acc x, fst (f i acc x) = g x) ->
  forall l i acc, fst (Replace.enum_loop f i acc l) = map g l.
Proof.
  intros Hf. induction l as [|x l IH]; intros i acc; [reflexivity|].
  cbn [Replace.enum_loop map].
  specialize (Hf i acc x). destruct (f i acc x) as [y acc1]. cbn [fst] in Hf.
  specialize (IH (S i) acc1).
  destruct (Replace.enum_loop f (S i) acc1 l) as [ys acc2]. cbn [fst] in *.
  rewrite Hf, IH. reflexivity.
Qed.

(** What a loop appends to the details, when each round appends what
    [w] says. *)
Lemma enum_loop_details {A : Type}
      (f : nat -> Replace.tally -> A -> A * Replace.tally)
      (w : A -> list (string * string)) :
  (forall i acc x,
      map Spec.excerpts (snd (snd (f i acc x)))
      = map Spec.excerpts (snd acc) ++ w x) ->
  forall l i acc,
    map Spec.excerpts (snd (snd (Replace.enum_loop f i acc l)))
    = map Spec.excerpts (snd acc) ++ flat_map w l.
Proof.
  intros Hf. induction l as [|x l IH]; intros i acc.
  - cbn. rewrite app_nil_r. reflexivity.
  - cbn [Replace.enum_loop flat_map].
    specialize (Hf i acc x). destruct (f i acc x) as [y acc1]. cbn [snd] in Hf.
    specialize (IH (S i) acc1).
    destruct (Replace.enum_loop f (S i) acc1 l) as [ys acc2]. cbn [snd] in *.
    rewrite IH, Hf, app_assoc. reflexivity.
Qed.

Lemma process_paragraph_details (cut : nat) (loc : string) (acc : Replace.tally)
      (text : string) :
  map Spec.excerpts
      (snd (snd (Replace.process_paragraph E regex_mode rules cut loc acc text)))
  = map Spec.excerpts (snd acc)
    ++ Spec.excerpts_of E regex_mode rules cut text.
Proof.
  unfold Replace.process_paragraph, Spec.excerpts_of, Spec.changed.
  destruct (negb _); cbn [snd].
  - rewrite map_app. reflexivity.
  - rewrite app_nil_r. reflexivity.
Qed.

End DocumentFacts.

(** X1. [perform_replacement_in_doc] leaves a document of the same
    shape in which every paragraph, top-level or in a table cell, holds
    what the rules make of its text; a paragraph the rules do not change
    keeps its text. *)
Theorem X1_document_rewritten_pointwise (E : PyRe.ReEngine) (doc : Document)
        (rules : Replace.replacement_map) (regex_mode : bool) :
  fst (fst (Replace.perform_replacement_in_doc E doc rules regex_mode))
  = mkDocument
      (map (Replace.apply_rules E regex_mode rules) (paragraphs doc))
      (map (map (map (map (Replace.apply_rules E regex_mode rules))))
           (tables doc)).
Proof.
  unfold Replace.perform_replacement_in_doc, Replace.process_paragraphs,
    Replace.process_tables.
  pose proof (enum_loop_map
    (fun para_idx =>
       Replace.process_paragraph E regex_mode rules 100
         (Replace.para_location para_idx))
    (Replace.apply_rules E regex_mode rules)
    (fun i acc x => process_paragraph_text E regex_mode rules 100 _ acc x)
    (paragraphs doc) 0 (0, [])) as Hp.
  destruct (Replace.enum_loop _ 0 (0, []) (paragraphs doc)) as [ps acc1].
  cbn [fst] in Hp.
  match goal with
  | |- context [Replace.enum_loop ?f 0 acc1 (tables doc)] =>
      pose proof (enum_loop_map f
        (map (map (map (Replace.apply_rules E regex_mode rules))))) as Ht
  end.
  rewrite (surjective_pairing (Replace.enum_loop _ 0 acc1 (tables doc))).
  cbn [fst]. rewrite Hp, Ht; [reflexivity|].
  intros ti a t. apply enum_loop_map.
  intros ri a' r. apply enum_loop_map.
  intros ci a'' c. apply enum_loop_map.
  intros pi a''' p. apply process_paragraph_text.
Qed.

Lemma details_excerpts (E : PyRe.ReEngine) (doc : Document)
      (rules : Replace.replacement_map) (regex_mode : bool) :
  map Spec.excerpts
      (snd (Replace.perform_replacement_in_doc E doc rules regex_mode))
  = flat_map (Spec.excerpts_of E regex_mode rules 100) (paragraphs doc)
    ++ flat_map
         (flat_map (flat_map (flat_map (Spec.excerpts_of E regex_mode rules 50))))
         (tables doc).
Proof.
  unfold Replace.perform_replacement_in_doc, Replace.process_paragraphs,
    Replace.process_tables.
  pose proof (enum_loop_details
    (fun para_idx =>
       Replace.process_paragraph E regex_mode rules 100
         (Replace.para_location para_idx))
    (Spec.excerpts_of E regex_mode rules 100)
    (fun i acc x => process_paragraph_details E regex_mode rules 100 _ acc x)
    (paragraphs doc) 0 (0, [])) as Hp.
  destruct (Replace.enum_loop _ 0 (0, []) (paragraphs doc)) as [ps acc1].
  cbn [snd map app] in Hp.
  match goal with
  | |- context [Replace.enum_loop ?f 0 acc1 (tables doc)] =>
      pose proof (enum_loop_details f
        (flat_map (flat_map (flat_map
           (Spec.excerpts_of E regex_mode rules 50))))) as Ht
  end.
  rewrite (surjective_pairing (Replace.enum_loop _ 0 acc1 (tables doc))).
  cbn [snd]. rewrite Ht, Hp; [reflexivity|].
  intros ti a t. apply enum_loop_details.
  intros ri a' r. apply enum_loop_details.
  intros ci a'' c. apply enum_loop_details.
  intros pi a''' p. apply process_paragraph_details.
Qed.


(** X2. [replacement_details] lists, in the order of the document, the
    excerpts of exactly the paragraphs whose text changed: the text
    before and after, cut to 100 characters for a top-level paragraph
    and to 50 for a paragraph of a table cell. *)
Theorem X2_details_are_changed_excerpts (E : PyRe.ReEngine) (doc : Document)
        (rules : Replace.replacement_map) (regex_mode : bool) :
  map Spec.excerpts
      (snd (Replace.perform_replacement_in_doc E doc rules regex_mode))
  = flat_map (Spec.excerpts_of E regex_mode rules 100) (paragraphs doc)
    ++ flat_map
         (flat_map (flat_map (flat_map (Spec.excerpts_of E regex_mode rules 50))))
         (tables doc).
Proof. apply details_excerpts. Qed.

Lemma take_length (n : nat) (s : string) : String.length (PyStr.take n s) <= n.
Proof.
  revert s. induction n as [|n IH]; intros [|c s]; simpl; try lia.
  specialize (IH s). lia.
Qed.

Lemma preview_length (n : nat) (s : string) :
  String.length (PyStr.preview n s) <= n + 3.
Proof.
  unfold PyStr.preview. destruct (n <? String.length s) eqn:Hn.
  - rewrite str_length_app. pose proof (take_length n s). simpl. lia.
  - apply Nat.ltb_ge in Hn. lia.
Qed.

Lemma excerpts_of_bounded (E : PyRe.ReEngine) (regex_mode : bool)
      (rules : Replace.replacement_map) (cut : nat) (text : string) :
  cut <= 100 ->
  Forall (fun e : string * string =>
            String.length (fst e) <= 103 /\ String.length (snd e) <= 103)
         (Spec.excerpts_of E regex_mode rules cut text).
Proof.
  intros Hc. unfold Spec.excerpts_of.
  destruct (Spec.changed E regex_mode rules text); [|constructor].
  constructor; [|constructor]. cbn [fst snd].
  pose proof (preview_length cut text).
  pose proof (preview_length cut (Replace.apply_rules E regex_mode rules text)).
  split; lia.
Qed.

(** X3. No excerpt of a detail is longer than 103 characters: at most
    100 characters of the text and the three dots. *)
Theorem X3_detail_excerpts_bounded (E : PyRe.ReEngine) (doc : Document)
        (rules : Replace.replacement_map) (regex_mode : bool) :
  Forall (fun d => String.length (Replace.original d) <= 103
                   /\ String.length (Replace.modified d) <= 103)
         (snd (Replace.perform_replacement_in_doc E doc rules regex_mode)).
Proof.
  apply (proj1 (Forall_map Spec.excerpts
                  (fun e => String.length (fst e) <= 103
                            /\ String.length (snd e) <= 103) _)).
  rewrite details_excerpts. apply Forall_app. split.
  - apply Forall_flat_map, Forall_forall. intros p _.
    apply excerpts_of_bounded. lia.
  - apply Forall_flat_map, Forall_forall. intros t _.
    apply Forall_flat_map, Forall_forall. intros r _.
    apply Forall_flat_map, Forall_forall. intros c _.
    apply Forall_flat_map, Forall_forall. intros p _.
    apply excerpts_of_bounded. lia.
Qed.

(** ** Validation and rules that cannot work *)

Lemma validate_rule_nil (rule : string * Replace.json_value) :
  Helpers.validate_rule rule = []
  <-> PyStr.strip (fst rule) <> ""
      /\ String.length (fst rule) <= 1000
      /\ exists t, snd rule = Replace.JString t.
Proof.
  destruct rule as [old_text new_text]. unfold Helpers.validate_rule.
  cbn [fst snd]. split.
  - intros H. apply app_eq_nil in H as [H1 H2]. apply app_eq_nil in H2 as [H2 H3].
    split; [|split].
    + destruct (String.eqb (PyStr.strip old_text) "") eqn:He; [discriminate|].
      apply String.eqb_neq. exact He.
    + destruct (1000 <? String.length old_text) eqn:Hl; [discriminate|].
      apply Nat.ltb_ge. exact Hl.
    + destruct new_text; try discriminate. eexists. reflexivity.
  - intros (H1 & H2 & t & ->).
    apply String.eqb_neq in H1. apply Nat.ltb_ge in H2.
    rewrite H1, H2. reflexivity.
Qed.

(** X4. [validate_replacement_map] reports nothing exactly when every
    rule has a source that is not blank and not longer than 1000
    characters, and a target that is a string. *)
Theorem X4_validation_clean_iff (replacement_map : Replace.replacement_map) :
  Helpers.validate_replacement_map replacement_map = []
  <-> forall rule, In rule replacement_map ->
        PyStr.strip (fst rule) <> ""
        /\ String.length (fst rule) <= 1000
        /\ exists t, snd rule = Replace.JString t.
Proof.
  unfold Helpers.validate_replacement_map.
  induction replacement_map as [|rule rules IH]; cbn [flat_map].
  - split; [intros _ r []|reflexivity].
  - split.
    + intros H. apply app_eq_nil in H as [H1 H2].
      intros r [<-|Hr]; [apply validate_rule_nil; exact H1|].
      apply IH; assumption.
    + intros H.
      rewrite (proj2 (validate_rule_nil rule) (H rule (or_introl eq_refl))).
      apply IH. intros r Hr. apply H. right. exact Hr.
Qed.

Lemma apply_rule_non_string (E : PyRe.ReEngine) (regex_mode : bool)
      (rule : string * Replace.json_value) (text : string) :
  Spec.string_target rule = false ->
  Replace.apply_rule E regex_mode text rule = text.
Proof.
  destruct rule as [old_text new_text]. unfold Spec.string_target. cbn [snd].
  intros H. unfold Replace.apply_rule, Replace.rule_body. cbn [fst snd].
  destruct new_text; try discriminate;
    destruct regex_mode; try reflexivity;
    destruct (PyStr.contains old_text text); reflexivity.
Qed.

(** X5. A rule whose target is not a string changes no text, in either
    mode: the rules give what they give without such rules. *)
Theorem X5_non_string_targets_have_no_effect (E : PyRe.ReEngine)
        (regex_mode : bool) (rules : Replace.replacement_map) (text : string) :
  Replace.apply_rules E regex_mode rules text
  = Replace.apply_rules E regex_mode (List.filter Spec.string_target rules) text.
Proof.
  revert text. induction rules as [|rule rules IH]; intros text; [reflexivity|].
  cbn [List.filter]. destruct (Spec.string_target rule) eqn:Hs.
  - rewrite !apply_rules_cons. apply IH.
  - rewrite apply_rules_cons, (apply_rule_non_string E regex_mode rule text Hs).
    apply IH.
Qed.

(** ** Edge cases of a literal rule *)

Lemma interleave_length (new s : string) :
  String.length (PyStr.interleave new s)
  = String.length s + (String.length s + 1) * String.length new.
Proof.
  induction s as [|c s IH]; simpl.
  - lia.
  - rewrite str_length_app. simpl. rewrite IH. lia.
Qed.

Lemma contains_empty (s : string) : PyStr.contains "" s = true.
Proof. destruct s; reflexivity. Qed.

(** X6. In literal mode a rule with the empty source is applied to every
    text: its target is put before every character and at the end, so a
    text of n characters grows by (n + 1) times the length of the
    target. *)
Theorem X6_empty_source_inserts_everywhere (E : PyRe.ReEngine)
        (new text : string) :
  Replace.apply_rule E false text ("", Replace.JString new)
  = PyStr.interleave new text
  /\ String.length (Replace.apply_rule E false text ("", Replace.JString new))
     = String.length text + (String.length text + 1) * String.length new.
Proof.
  assert (H : Replace.apply_rule E false text ("", Replace.JString new)
              = PyStr.interleave new text).
  { unfold Replace.apply_rule, Replace.rule_body. cbn [fst snd].
    rewrite contains_empty. reflexivity. }
  split; [exact H|]. rewrite H. apply interleave_length.
Qed.

Lemma drop_length_app (p t : string) : PyStr.drop (String.length p) (p +:+ t) = t.
Proof. induction p as [|a p IH]; simpl; [reflexivity|exact IH]. Qed.

Lemma replace_from_same (old : string) (k : nat) (s : string) :
  old <> "" ->
  PyStr.replace_from old old k s = PyStr.drop k s.
Proof.
  intros Hne. revert k. induction s as [|c s IH]; intros k.
  - destruct k; reflexivity.
  - destruct k as [|k]; cbn [PyStr.replace_from PyStr.drop]; [|apply IH].
    destruct (PyStr.startswith old (String c s)) eqn:Hs.
    + rewrite IH. destruct old as [|a old]; [contradiction|].
      apply startswith_inv in Hs as [t Ht]. simpl in Ht.
      injection Ht as -> ->. simpl. rewrite Nat.sub_0_r, drop_length_app.
      reflexivity.
    + rewrite IH. reflexivity.
Qed.

Lemma interleave_empty (s : string) : PyStr.interleave "" s = s.
Proof. induction s as [|c s IH]; simpl; [reflexivity|]. rewrite IH. reflexivity. Qed.

Lemma replace_same (old s : string) : PyStr.replace old old s = s.
Proof.
  destruct old as [|a old]; [apply interleave_empty|].
  unfold PyStr.replace. rewrite replace_from_same; [reflexivity|discriminate].
Qed.

(** X7. In literal mode a rule whose target is its source leaves every
    text as it is, so it adds nothing to the count of replacements. *)
Theorem X7_literal_rule_onto_itself (E : PyRe.ReEngine) (old text : string) :
  Replace.apply_rule E false text (old, Replace.JString old) = text.
Proof.
  unfold Replace.apply_rule, Replace.rule_body. cbn [fst snd].
  destruct (PyStr.contains old text); [|reflexivity].
  rewrite replace_same. reflexivity.
Qed.

(** ** The lists of recent files *)

Lemma mem_In (x : string) (l : list string) :
  PyMore.mem x l = true <-> In x l.
Proof.
  unfold PyMore.mem. rewrite existsb_exists. split.
  - intros (y & Hy & He). apply String.eqb_eq in He. subst. exact Hy.
  - intros H. exists x. split; [exact H|apply String.eqb_refl].
Qed.

Lemma remove_first_In (x y : string) (l : list string) :
  In y (PyMore.remove_first x l) -> In y l.
Proof.
  induction l as [|z l IH]; simpl; [tauto|].
  destruct (String.eqb x z); [tauto|]. intros [H|H]; [tauto|]. right. apply IH, H.
Qed.

Lemma remove_first_NoDup (x : string) (l : list string) :
  List.NoDup l -> List.NoDup (PyMore.remove_first x l) /\ ~ In x (PyMore.remove_first x l).
Proof.
  induction 1 as [|z l Hz Hl IH]; simpl.
  - split; [constructor|tauto].
  - destruct (String.eqb x z) eqn:He.
    + apply String.eqb_eq in He. subst z. split; assumption.
    + apply String.eqb_neq in He. destruct IH as [IH1 IH2]. split.
      * constructor; [|exact IH1]. intros H. apply Hz.
        apply remove_first_In with x. exact H.
      * intros [H|H]; [congruence|contradiction].
Qed.

Lemma remove_first_absent (x : string) (l : list string) :
  ~ In x l -> PyMore.remove_first x l = l.
Proof.
  induction l as [|z l IH]; simpl; [reflexivity|]. intros H.
  destruct (String.eqb x z) eqn:He.
  - apply String.eqb_eq in He. subst. tauto.
  - rewrite IH; [reflexivity|tauto].
Qed.

Lemma firstn_In (A : Type) (n : nat) (l : list A) (x : A) :
  In x (firstn n l) -> In x l.
Proof.
  revert l. induction n as [|n IH]; intros [|y l]; simpl; try tauto.
  intros [H|H]; [tauto|]. right. apply IH, H.
Qed.

Lemma firstn_NoDup (A : Type) (n : nat) (l : list A) :
  List.NoDup l -> List.NoDup (firstn n l).
Proof.
  revert l. induction n as [|n IH]; intros [|y l] H; simpl; try constructor.
  - inversion H; subst. intros Hy. apply firstn_In in Hy. contradiction.
  - inversion H; subst. apply IH. assumption.
Qed.

Lemma add_recent_front (n : nat) (file_path : string) (recent : list string) :
  exists rest,
    Helpers.add_recent (S n) file_path recent = file_path :: rest
    /\ List.length rest <= n
    /\ (forall x, In x rest -> In x recent).
Proof.
  unfold Helpers.add_recent. cbn [firstn]. eexists. split; [reflexivity|]. split.
  - apply firstn_le_length.
  - intros x Hx. apply firstn_In in Hx.
    destruct (PyMore.mem file_path recent); [|exact Hx].
    apply remove_first_In with file_path. exact Hx.
Qed.

Lemma add_recent_NoDup (n : nat) (file_path : string) (recent : list string) :
  List.NoDup recent -> List.NoDup (Helpers.add_recent n file_path recent).
Proof.
  intros H. unfold Helpers.add_recent. apply firstn_NoDup.
  destruct (PyMore.mem file_path recent) eqn:Hm.
  - destruct (remove_first_NoDup file_path recent H) as [H1 H2].
    constructor; assumption.
  - constructor; [|exact H]. intros Hin. apply mem_In in Hin. congruence.
Qed.

Lemma mem_head (x : string) (l : list string) : PyMore.mem x (x :: l) = true.
Proof. unfold PyMore.mem. simpl. rewrite String.eqb_refl. reflexivity. Qed.

Lemma add_recent_again (n : nat) (file_path : string) (recent : list string) :
  Helpers.add_recent (S n) file_path
    (Helpers.add_recent (S n) file_path recent)
  = Helpers.add_recent (S n) file_path recent.
Proof.
  unfold Helpers.add_recent at 1.
  set (r := Helpers.add_recent (S n) file_path recent).
  assert (Hr : exists rest, r = file_path :: rest /\ List.length rest <= n).
  { destruct (add_recent_front n file_path recent) as (rest & H1 & H2 & _).
    exists rest. split; assumption. }
  destruct Hr as (rest & Hr & Hlen). rewrite Hr.
  rewrite mem_head. cbn [PyMore.remove_first]. rewrite String.eqb_refl.
  cbn [firstn]. f_equal. apply firstn_all2. exact Hlen.
Qed.

(** X8. After [add_to_recent_files] the path is the first of the recent
    files, the list has at most 10 entries, all the others were in it
    before, and adding the same path once more changes nothing; the
    same holds of [add_to_recent_replacements] with 5 entries. *)
Theorem X8_recent_lists_bounded_and_fronted (file_path : string)
        (recent : list string) :
  (List.hd_error (Helpers.add_to_recent_files file_path recent) = Some file_path
   /\ List.length (Helpers.add_to_recent_files file_path recent) <= 10
   /\ (forall x, In x (Helpers.add_to_recent_files file_path recent) ->
                 x = file_path \/ In x recent)
   /\ Helpers.add_to_recent_files file_path
        (Helpers.add_to_recent_files file_path recent)
      = Helpers.add_to_recent_files file_path recent)
  /\ (List.hd_error (Helpers.add_to_recent_replacements file_path recent)
      = Some file_path
      /\ List.length (Helpers.add_to_recent_replacements file_path recent) <= 5
      /\ (forall x, In x (Helpers.add_to_recent_replacements file_path recent) ->
                    x = file_path \/ In x recent)
      /\ Helpers.add_to_recent_replacements file_path
           (Helpers.add_to_recent_replacements file_path recent)
         = Helpers.add_to_recent_replacements file_path recent).
Proof.
  unfold Helpers.add_to_recent_files, Helpers.add_to_recent_replacements.
  split.
  - destruct (add_recent_front 9 file_path recent) as (rest & H1 & H2 & H3).
    split; [rewrite H1; reflexivity|]. split; [rewrite H1; simpl; lia|].
    split; [|apply add_recent_again].
    rewrite H1. intros x [Hx|Hx]; [left; congruence|right; apply H3, Hx].
  - destruct (add_recent_front 4 file_path recent) as (rest & H1 & H2 & H3).
    split; [rewrite H1; reflexivity|]. split; [rewrite H1; simpl; lia|].
    split; [|apply add_recent_again].
    rewrite H1. intros x [Hx|Hx]; [left; congruence|right; apply H3, Hx].
Qed.

(** X9. A list of recent files without a repeated path stays without one
    when a path is added to it, whether the path was in the list or
    not. *)
Theorem X9_recent_files_stay_distinct (file_path : string)
        (recent : list string) :
  List.NoDup recent ->
  List.NoDup (Helpers.add_to_recent_files file_path recent)
  /\ List.NoDup (Helpers.add_to_recent_replacements file_path recent).
Proof.
  intros H. split; apply add_recent_NoDup; exact H.
Qed.

Lemma X9_recent_files_stay_distinct_witness :
  List.NoDup ["a.docx"; "b.docx"; "c.docx"]
  /\ List.NoDup (Helpers.add_to_recent_files "b.docx" ["a.docx"; "b.docx"; "c.docx"])
  /\ Helpers.add_to_recent_files "b.docx" ["a.docx"; "b.docx"; "c.docx"]
     = ["b.docx"; "a.docx"; "c.docx"].
Proof.
  assert (H : List.NoDup ["a.docx"; "b.docx"; "c.docx"]).
  { repeat constructor; simpl; intros F;
      repeat (destruct F as [F|F]; [discriminate|]); exact F. }
  split; [exact H|]. split; [|reflexivity].
  exact (proj1 (X9_recent_files_stay_distinct "b.docx"
                  ["a.docx"; "b.docx"; "c.docx"] H)).
Defined.

(** ** The file filters of the scanners *)

Lemma take_drop (n : nat) (s : string) : PyStr.take n s +:+ PyStr.drop n s = s.
Proof.
  revert s. induction n as [|n IH]; intros [|c s]; simpl; try reflexivity.
  rewrite IH. reflexivity.
Qed.

Lemma endswith_iff (suffix s : string) :
  PyMore.endswith suffix s = true <-> exists p, s = p +:+ suffix.
Proof.
  unfold PyMore.endswith. split.
  - intros H. apply andb_prop in H as [_ H]. apply String.eqb_eq in H.
    set (k := String.length s - String.length suffix) in *.
    exists (PyStr.take k s). rewrite <- H. symmetry. apply take_drop.
  - intros [p ->]. rewrite str_length_app.
    replace (String.length p + String.length suffix - String.length suffix)
      with (String.length p) by lia.
    rewrite drop_length_app, String.eqb_refl.
    rewrite andb_true_r. apply Nat.leb_le. lia.
Qed.

Lemma dcp_is_docx (f : string) :
  PyMore.endswith ".dcp.docx" f = true -> PyMore.endswith ".docx" f = true.
Proof.
  intros H. apply endswith_iff in H as [p ->]. apply endswith_iff.
  exists (p +:+ ".dcp"). rewrite string_app_assoc. reflexivity.
Qed.

(** X10. The file filters of the two scanners: a name passes the filter
    for both kinds exactly when it passes one of the other two, and no
    name passes both of those. *)
Theorem X10_file_filters_partition (f : string) :
  Setup.both f = Setup.only_dcp f || Setup.only_docx f
  /\ Setup.only_dcp f && Setup.only_docx f = false.
Proof.
  unfold Setup.both, Setup.only_dcp, Setup.only_docx.
  pose proof (dcp_is_docx f) as H.
  destruct (PyMore.endswith ".dcp.docx" f); simpl.
  - rewrite H by reflexivity. rewrite andb_false_r. split; reflexivity.
  - rewrite andb_true_r. split; reflexivity.
Qed.

(** ** The full text and its lines *)

Lemma split_nl_app_line (a b : string) :
  PyStr.split_nl (a +:+ String PyStr.nl b) = PyStr.split_nl a ++ PyStr.split_nl b.
Proof.
  induction a as [|c a IH]; simpl.
  - reflexivity.
  - destruct (Ascii.eqb c PyStr.nl); [rewrite IH; reflexivity|].
    rewrite IH. pose proof (split_nl_not_nil a) as Hn.
    destruct (PyStr.split_nl a) as [|l ls]; [contradiction|]. reflexivity.
Qed.

Lemma split_join_lines (line : string) (lines : list string) :
  PyStr.split_nl (PyStr.join_nl (line :: lines))
  = flat_map PyStr.split_nl (line :: lines).
Proof.
  revert line. induction lines as [|l lines IH]; intros line.
  - simpl. rewrite app_nil_r. reflexivity.
  - change (PyStr.join_nl (line :: l :: lines))
      with (line +:+ String PyStr.nl (PyStr.join_nl (l :: lines))).
    rewrite split_nl_app_line, IH. reflexivity.
Qed.

Lemma split_nl_single (s : string) :
  PyMore.has_char PyStr.nl s = false -> PyStr.split_nl s = [s].
Proof.
  induction s as [|c s IH]; [reflexivity|].
  cbn [PyMore.has_char PyStr.split_nl]. intros H.
  apply orb_false_elim in H as [H1 H2].
  rewrite Ascii.eqb_sym, H1, (IH H2). reflexivity.
Qed.

(** X11. The lines the scanner of [DocXScan_v3.0.py] looks through are
    the lines of the paragraphs and cells, not the paragraphs and cells:
    a text with a line break in it, such as a cell of several
    paragraphs, counts as several lines. A document with no paragraph
    and no cell has one empty line. *)
Theorem X11_lines_of_the_full_text (doc : Document) :
  PyStr.split_nl (PyStr.join_nl (extract_full_text_lines doc))
  = match extract_full_text_lines doc with
    | [] => [""]
    | lines => flat_map PyStr.split_nl lines
    end.
Proof.
  destruct (extract_full_text_lines doc) as [|line lines]; [reflexivity|].
  apply split_join_lines.
Qed.

(** X12. When no paragraph and no cell holds a line break, the lines
    looked through are the texts of [extract_full_text_lines], one for
    one. *)
Theorem X12_one_line_per_text (doc : Document) :
  extract_full_text_lines doc <> [] ->
  Forall (fun t => PyMore.has_char PyStr.nl t = false)
         (extract_full_text_lines doc) ->
  PyStr.split_nl (PyStr.join_nl (extract_full_text_lines doc))
  = extract_full_text_lines doc.
Proof.
  intros Hne Hall.
  destruct (extract_full_text_lines doc) as [|line lines] eqn:He;
    [contradiction|].
  rewrite split_join_lines. clear He Hne.
  induction Hall as [|t ts Ht _ IH]; [reflexivity|].
  cbn [flat_map]. rewrite (split_nl_single t Ht), IH. reflexivity.
Qed.

Lemma X12_one_line_per_text_witness :
  PyStr.split_nl
    (PyStr.join_nl
       (extract_full_text_lines
          (mkDocument ["Dear <<Client>>"; ""] [[[["PROMTINTO(x)"]; []]]])))
  = ["Dear <<Client>>"; ""; "PROMTINTO(x)"; ""].
Proof.
  refine (eq_trans
            (X12_one_line_per_text
               (mkDocument ["Dear <<Client>>"; ""] [[[["PROMTINTO(x)"]; []]]])
               _ _)
            eq_refl).
  - discriminate.
  - repeat constructor.
Defined.

(** ** The count of matches *)

Lemma count_from_positive (sub s : string) :
  sub <> "" -> PyStr.contains sub s = true -> 1 <= PyMore.count_from sub 0 s.
Proof.
  intros Hne. induction s as [|c s IH].
  - destruct sub; [contradiction|discriminate].
  - cbn [PyStr.contains PyMore.count_from]. intros H.
    destruct (PyStr.startswith sub (String c s)) eqn:Hs.
    + lia.
    + apply IH. exact H.
Qed.

Lemma count_from_none (sub : string) (k : nat) (s : string) :
  PyStr.contains sub s = false -> PyMore.count_from sub k s = 0.
Proof.
  revert k. induction s as [|c s IH]; intros k H; [reflexivity|].
  cbn [PyStr.contains] in H. apply orb_false_elim in H as [H1 H2].
  cbn [PyMore.count_from]. destruct k; [rewrite H1|]; apply IH; exact H2.
Qed.

Lemma count_positive_iff (sub s : string) :
  1 <= PyMore.count sub s <-> PyStr.contains sub s = true.
Proof.
  destruct sub as [|a sub].
  - simpl. rewrite contains_empty. split; [reflexivity|lia].
  - unfold PyMore.count. split.
    + intros H. destruct (PyStr.contains (String a sub) s) eqn:Hc;
        [reflexivity|]. rewrite count_from_none in H by exact Hc. lia.
    + apply count_from_positive. discriminate.
Qed.

Lemma count_sum_bound (full_text : string) (tokens : list string) :
  Forall (fun token => PyStr.contains token full_text = true) tokens ->
  List.length tokens <= Setup.token_count full_text tokens.
Proof.
  unfold Setup.token_count. induction 1 as [|t ts Ht _ IH]; simpl; [lia|].
  apply count_positive_iff in Ht. lia.
Qed.

(** X13. The token match count of a file is at least the number of
    patterns found in it, so it is positive for every file the scanner
    reports; a pattern adds to it exactly when it occurs in the full
    text. *)
Theorem X13_token_count_at_least_matched (patterns : list string)
        (doc : Document) :
  let full_text := PyStr.join_nl (extract_full_text_lines doc) in
  let matched := fst (Scan.scan_document patterns doc) in
  List.length matched <= Setup.token_count full_text matched
  /\ (forall token, 1 <= PyMore.count token full_text
                    <-> PyStr.contains token full_text = true).
Proof.
  intros full_text matched. split; [|intros token; apply count_positive_iff].
  apply count_sum_bound. subst matched. unfold Scan.scan_document.
  fold full_text. rewrite scan_fold. cbn [fst app].
  apply List.Forall_forall. intros token Hin.
  apply List.filter_In in Hin as [_ H]. exact H.
Qed.

(** ** The name of an output copy *)

Section OutputNameFacts.

Variable path_exists : string -> bool.
Variable join : string -> string -> string.
Variable basename : string -> string.
Variable splitext : string -> string * string.

Lemma free_path_is_free (fuel counter : nat)
      (output_dir base_name ext output_path p : string) :
  Helpers.free_path path_exists join fuel counter output_dir base_name ext
                    output_path = Some p ->
  path_exists p = false.
Proof.
  revert counter output_path.
  induction fuel as [|fuel IH]; intros counter output_path; simpl;
    destruct (path_exists output_path) eqn:He; try discriminate;
    try (intros H; injection H as <-; exact He).
  apply IH.
Qed.

Lemma free_path_first (k fuel counter : nat)
      (output_dir base_name ext output_path : string) :
  path_exists output_path = true ->
  (forall j, counter <= j < counter + k ->
             path_exists (Helpers.numbered join output_dir base_name ext j)
             = true) ->
  path_exists (Helpers.numbered join output_dir base_name ext (counter + k))
  = false ->
  k < fuel ->
  Helpers.free_path path_exists join fuel counter output_dir base_name ext
                    output_path
  = Some (Helpers.numbered join output_dir base_name ext (counter + k)).
Proof.
  revert fuel counter output_path.
  induction k as [|k IH]; intros fuel counter output_path He Hall Hfree Hf.
  - destruct fuel as [|fuel]; [lia|]. simpl. rewrite He.
    rewrite Nat.add_0_r in *. destruct fuel; simpl; rewrite Hfree; reflexivity.
  - destruct fuel as [|fuel]; [lia|]. simpl. rewrite He.
    replace (counter + S k) with (S counter + k) in * by lia.
    apply IH; try lia; try assumption.
    + apply Hall. lia.
    + intros j Hj. apply Hall. lia.
Qed.

End OutputNameFacts.

(** X14. The path [create_output_copy] copies a file to is never the
    path of a file that is already there. *)
Theorem X14_output_copy_never_overwrites
        (path_exists : string -> bool) (join : string -> string -> string)
        (basename : string -> string) (splitext : string -> string * string)
        (fuel : nat) (output_dir file_path p : string) :
  Helpers.output_path_for path_exists join basename splitext fuel
                          output_dir file_path = Some p ->
  path_exists p = false.
Proof.
  unfold Helpers.output_path_for.
  destruct (splitext (basename file_path)) as [base_name ext].
  apply free_path_is_free.
Qed.

Lemma X14_output_copy_never_overwrites_witness :
  Helpers.output_path_for
    (fun p => PyMore.mem p ["out/a.docx"; "out/a_1.docx"])
    (fun d f => d +:+ "/" +:+ f) (fun p => PyStr.drop 3 p)
    (fun f => (PyStr.take 1 f, PyStr.drop 1 f)) 5 "out" "in/a.docx"
  = Some "out/a_2.docx"
  /\ PyMore.mem "out/a_2.docx" ["out/a.docx"; "out/a_1.docx"] = false.
Proof.
  split; [reflexivity|].
  exact (X14_output_copy_never_overwrites
           (fun p => PyMore.mem p ["out/a.docx"; "out/a_1.docx"])
           (fun d f => d +:+ "/" +:+ f) (fun p => PyStr.drop 3 p)
           (fun f => (PyStr.take 1 f, PyStr.drop 1 f)) 5 "out" "in/a.docx"
           "out/a_2.docx" eq_refl).
Defined.

(** X15. When the name of the file is taken in the output directory,
    the copy gets the first number from 1 on whose name is free: the
    names with the numbers below it are all taken. *)
Theorem X15_output_copy_first_free_number
        (path_exists : string -> bool) (join : string -> string -> string)
        (basename : string -> string) (splitext : string -> string * string)
        (fuel k : nat) (output_dir file_path : string) :
  let base_name := fst (splitext (basename file_path)) in
  let ext := snd (splitext (basename file_path)) in
  path_exists (join output_dir (basename file_path)) = true ->
  (forall j, 1 <= j < 1 + k ->
             path_exists (Helpers.numbered join output_dir base_name ext j)
             = true) ->
  path_exists (Helpers.numbered join output_dir base_name ext (1 + k)) = false ->
  k < fuel ->
  Helpers.output_path_for path_exists join basename splitext fuel
                          output_dir file_path
  = Some (Helpers.numbered join output_dir base_name ext (1 + k)).
Proof.
  intros base_name ext. subst base_name ext. unfold Helpers.output_path_for.
  destruct (splitext (basename file_path)) as [base_name ext]. cbn [fst snd].
  apply free_path_first.
Qed.

Lemma X15_output_copy_first_free_number_witness :
  Helpers.output_path_for
    (fun p => PyMore.mem p ["out/a.docx"; "out/a_1.docx"])
    (fun d f => d +:+ "/" +:+ f) (fun p => PyStr.drop 3 p)
    (fun f => (PyStr.take 1 f, PyStr.drop 1 f)) 5 "out" "in/a.docx"
  = Some "out/a_2.docx".
Proof.
  refine (X15_output_copy_first_free_number
            (fun p => PyMore.mem p ["out/a.docx"; "out/a_1.docx"])
            (fun d f => d +:+ "/" +:+ f) (fun p => PyStr.drop 3 p)
            (fun f => (PyStr.take 1 f, PyStr.drop 1 f)) 5 1 "out" "in/a.docx"
            eq_refl _ eq_refl _).
  - intros j Hj. assert (j = 1) as -> by lia. reflexivity.
  - lia.
Defined.

(** ** The counters of a batch *)

Section CounterFacts.

Context {W : Type}.
Variable os : Batch.OS W.
Variable E : PyRe.ReEngine.
Variable mode : string.
Variable backup_root : string.
Variable rules : Replace.replacement_map.
Variable regex_mode : bool.
Variable stop_at : nat -> bool.

(** What holds of the counters before file [i] is looked at. *)
#[local] Abbreviation counters_ok i st :=
  (Batch.modified_files st <= Batch.processed_files st
   /\ Batch.processed_files st <= i
   /\ if String.eqb mode Batch.dry_run
      then Batch.total_replacements st = 0
      else Batch.modified_files st <= Batch.total_replacements st).

Lemma write_out_counters (i : nat) (file_path : string) (doc : Document)
      (n : nat) (st : Batch.state W) :
  let r := Batch.write_out os mode backup_root i file_path doc n st in
  Batch.processed_files (fst r) = Batch.processed_files st
  /\ match snd r with
     | Ok _ =>
         Batch.modified_files (fst r) = Batch.modified_files st + 1
         /\ Batch.total_replacements (fst r)
            = Batch.total_replacements st
              + (if String.eqb mode Batch.dry_run then 0 else n)
     | Raise _ =>
         Batch.modified_files (fst r) = Batch.modified_files st
         /\ Batch.total_replacements (fst r) = Batch.total_replacements st
     end.
Proof.
  unfold Batch.write_out.
  destruct (String.eqb mode Batch.dry_run).
  - cbn. repeat split; lia.
  - destruct (PyStr.contains "Modified Copies" mode).
    + destruct (Batch.create_output_copy os (Batch.world st) file_path
                  backup_root _) as [w1 [[output_dir output_file_path]|e]].
      * destruct (Batch.save_document os w1 doc output_file_path)
          as [w2 [u|e]]; cbn; repeat split; lia.
      * cbn. repeat split; lia.
    + destruct (Batch.save_document os (Batch.world st) doc file_path)
        as [w1 [u|e]]; cbn; repeat split; lia.
Qed.

Lemma process_file_counters (i : nat) (file_path : string)
      (st : Batch.state W) :
  counters_ok i st ->
  counters_ok (S i)
    (Batch.process_file os E mode backup_root rules regex_mode i file_path st).
Proof.
  intros (H1 & H2 & H3). unfold Batch.process_file.
  destruct (Batch.load_document os
              (Batch.world (Batch.log (Batch.EvOpen i) st)) file_path)
    as [doc|e].
  - destruct (Replace.perform_replacement_in_doc E doc rules regex_mode)
      as [[doc' n] ds].
    destruct (0 <? n) eqn:Hn.
    + apply Nat.ltb_lt in Hn.
      pose proof (write_out_counters i file_path doc' n
                    (Batch.log (Batch.EvOpen i) st)) as Hw.
      cbv zeta in Hw.
      destruct (Batch.write_out os mode backup_root i file_path doc' n
                  (Batch.log (Batch.EvOpen i) st)) as [st1 r].
      cbn [fst snd Batch.log Batch.processed_files Batch.modified_files
           Batch.total_replacements] in Hw.
      destruct Hw as (Hp & Hr).
      destruct r as [u|e]; destruct Hr as (Hm & Ht);
        cbn [Batch.processed_files Batch.modified_files
             Batch.total_replacements];
        destruct (String.eqb mode Batch.dry_run); repeat split; lia.
    + cbn. destruct (String.eqb mode Batch.dry_run); repeat split; lia.
  - cbn. destruct (String.eqb mode Batch.dry_run); repeat split; lia.
Qed.

Lemma loop_counters (files : list string) :
  forall (i : nat) (st : Batch.state W),
    counters_ok i st ->
    counters_ok (i + List.length files)
      (fst (Batch.loop os E mode backup_root rules regex_mode stop_at
              i files st)).
Proof.
  induction files as [|file_path files IH]; intros i st H.
  - cbn. rewrite Nat.add_0_r. exact H.
  - cbn [Batch.loop List.length].
    replace (i + S (List.length files)) with (S i + List.length files) by lia.
    destruct (stop_at i).
    + cbn. destruct H as (H1 & H2 & H3).
      destruct (String.eqb mode Batch.dry_run); repeat split; lia.
    + destruct (negb _).
      * apply IH. cbn. destruct H as (H1 & H2 & H3).
        destruct (String.eqb mode Batch.dry_run); repeat split; lia.
      * apply IH. apply process_file_counters. exact H.
Qed.

(** *** A batch that changes nothing *)

Lemma process_file_unchanged (i : nat) (file_path : string)
      (st : Batch.state W) :
  Batch.would_change os E rules regex_mode (Batch.world st) file_path = false ->
  Batch.path_exists os (Batch.world st) file_path = true ->
  let st' := Batch.process_file os E mode backup_root rules regex_mode
               i file_path st in
  Batch.world st' = Batch.world st
  /\ Batch.trace st' = Batch.trace st ++ [Batch.EvOpen i]
  /\ Batch.current_output_dir st' = Batch.current_output_dir st
  /\ Batch.total_replacements st' = Batch.total_replacements st
  /\ Batch.modified_files st' = Batch.modified_files st.
Proof.
  unfold Batch.would_change. intros Hc He. rewrite He in Hc.
  cbn [andb] in Hc. unfold Batch.process_file, Batch.log. cbn [Batch.world].
  destruct (Batch.load_document os (Batch.world st) file_path) as [doc|e].
  - destruct (Replace.perform_replacement_in_doc E doc rules regex_mode)
      as [[doc' n] ds]. cbn [fst snd] in Hc. rewrite Hc. cbn.
    repeat split.
  - cbn. repeat split.
Qed.

Lemma loop_unchanged (files : list string) :
  forall (i : nat) (st : Batch.state W),
    (forall f, In f files ->
       Batch.would_change os E rules regex_mode (Batch.world st) f = false) ->
    let r := Batch.loop os E mode backup_root rules regex_mode stop_at
               i files st in
    Batch.world (fst r) = Batch.world st
    /\ (exists evs, Batch.trace (fst r) = Batch.trace st ++ evs
                    /\ Forall (fun ev => Batch.is_write ev = false) evs)
    /\ Batch.current_output_dir (fst r) = Batch.current_output_dir st
    /\ Batch.total_replacements (fst r) = Batch.total_replacements st
    /\ Batch.modified_files (fst r) = Batch.modified_files st.
Proof.
  induction files as [|file_path files IH]; intros i st Hall; cbv zeta.
  - cbn. split; [reflexivity|]. split; [|repeat split].
    exists []. rewrite app_nil_r. split; constructor.
  - cbn [Batch.loop]. destruct (stop_at i).
    + cbn. split; [reflexivity|]. split; [|repeat split].
      exists [Batch.EvPoll i]. split; [reflexivity|repeat constructor].
    + set (st0 := Batch.log (Batch.EvExists i) (Batch.log (Batch.EvPoll i) st)).
      assert (H0 : Batch.world st0 = Batch.world st
                   /\ Batch.trace st0
                      = Batch.trace st ++ [Batch.EvPoll i; Batch.EvExists i]
                   /\ Batch.current_output_dir st0 = Batch.current_output_dir st
                   /\ Batch.total_replacements st0 = Batch.total_replacements st
                   /\ Batch.modified_files st0 = Batch.modified_files st).
      { subst st0. cbn. rewrite <- app_assoc. repeat split. }
      destruct H0 as (H0w & H0t & H0d & H0tot & H0m).
      destruct (Batch.path_exists os (Batch.world st0) file_path) eqn:Hex;
        cbn [negb].
      * assert (Hc : Batch.would_change os E rules regex_mode
                       (Batch.world st0) file_path = false).
        { rewrite H0w. apply Hall. left. reflexivity. }
        pose proof (process_file_unchanged i file_path st0 Hc Hex) as Hpf.
        cbv zeta in Hpf.
        set (st1 := Batch.process_file os E mode backup_root rules regex_mode
                      i file_path st0) in *.
        destruct Hpf as (Hw & Ht & Hd & Htot & Hm).
        assert (Hw1 : Batch.world st1 = Batch.world st) by congruence.
        assert (Hall1 : forall f, In f files ->
                  Batch.would_change os E rules regex_mode (Batch.world st1) f
                  = false).
        { intros f Hf. rewrite Hw1. apply Hall. right. exact Hf. }
        specialize (IH (S i) st1 Hall1). cbv zeta in IH.
        destruct IH as (IHw & (evs & IHt & IHe) & IHd & IHtot & IHm).
        split; [congruence|]. split; [|repeat split; congruence].
        exists ([Batch.EvPoll i; Batch.EvExists i; Batch.EvOpen i] ++ evs).
        split.
        -- rewrite IHt, Ht, H0t, <- !app_assoc. reflexivity.
        -- repeat constructor. exact IHe.
      * assert (Hall0 : forall f, In f files ->
                  Batch.would_change os E rules regex_mode (Batch.world st0) f
                  = false).
        { intros f Hf. rewrite H0w. apply Hall. right. exact Hf. }
        specialize (IH (S i) st0 Hall0). cbv zeta in IH.
        destruct IH as (IHw & (evs & IHt & IHe) & IHd & IHtot & IHm).
        split; [congruence|]. split; [|repeat split; congruence].
        exists ([Batch.EvPoll i; Batch.EvExists i] ++ evs). split.
        -- rewrite IHt, H0t, <- !app_assoc. reflexivity.
        -- repeat constructor. exact IHe.
Qed.

End CounterFacts.

Lemma process_replacements_is_loop {W : Type} (os : Batch.OS W)
      (E : PyRe.ReEngine) (mode backup_root : string)
      (rules : Replace.replacement_map) (regex_mode : bool)
      (stop_at : nat -> bool) (w : W) (loaded_files : list string)
      (r : Batch.state W * bool) :
  Batch.process_replacements os E mode backup_root rules regex_mode
    stop_at w loaded_files = Some r ->
  Batch.loop os E mode backup_root rules regex_mode stop_at 0 loaded_files
    (Batch.initial w) = r.
Proof.
  unfold Batch.process_replacements.
  destruct loaded_files; [discriminate|]. destruct rules; [discriminate|].
  destruct (_ && _ && _); [discriminate|]. intros H. injection H as H. exact H.
Qed.

(** X16. The counters a batch ends with, in every mode and whatever
    fails or stops it: no more files are counted as modified than as
    processed, and no more as processed than were loaded. A dry run
    counts no replacement; in the other modes every file counted as
    modified has added at least one replacement to the total. *)
Theorem X16_batch_counters {W : Type} (os : Batch.OS W)
        (E : PyRe.ReEngine) (mode backup_root : string)
        (rules : Replace.replacement_map) (regex_mode : bool)
        (stop_at : nat -> bool) (w : W) (loaded_files : list string)
        (st : Batch.state W) (stopped : bool) :
  Batch.process_replacements os E mode backup_root rules regex_mode
    stop_at w loaded_files = Some (st, stopped) ->
  Batch.modified_files st <= Batch.processed_files st
  /\ Batch.processed_files st <= List.length loaded_files
  /\ if String.eqb mode Batch.dry_run
     then Batch.total_replacements st = 0
     else Batch.modified_files st <= Batch.total_replacements st.
Proof.
  intros H. apply process_replacements_is_loop in H.
  pose proof (loop_counters os E mode backup_root rules regex_mode stop_at
                loaded_files 0 (Batch.initial w)) as L.
  rewrite H in L. cbn [fst] in L. apply L. cbn.
  destruct (String.eqb mode Batch.dry_run); repeat split; lia.
Qed.

Lemma X16_batch_counters_witness :
  let w : SimpleFS.world :=
    <["a.docx" := mkDocument ["x and x"; "x"] []]>
      (<["b.docx" := mkDocument ["none"] []]> ∅) in
  let files := ["a.docx"; "missing.docx"; "b.docx"] in
  let rules := [("x", Replace.JString "y")] in
  match Batch.process_replacements SimpleFS.os Frag.engine Batch.in_place ""
          rules false (fun _ => false) w files with
  | Some (st, stopped) =>
      Batch.modified_files st <= Batch.processed_files st
      /\ Batch.processed_files st <= 3
      /\ Batch.modified_files st <= Batch.total_replacements st
  | None => False
  end.
Proof.
  intros w files rules.
  destruct (Batch.process_replacements SimpleFS.os Frag.engine Batch.in_place ""
              rules false (fun _ => false) w files) as [[st stopped]|] eqn:H.
  - exact (X16_batch_counters SimpleFS.os Frag.engine Batch.in_place "" rules
             false (fun _ => false) w files st stopped H).
  - vm_compute in H. discriminate.
Defined.

(** X17. A batch whose rules change no paragraph of any loaded file
    writes nothing, in any mode: the files are as they were, no copy and
    no output directory is made, and no file is counted as modified. *)
Theorem X17_nothing_to_change_writes_nothing {W : Type} (os : Batch.OS W)
        (E : PyRe.ReEngine) (mode backup_root : string)
        (rules : Replace.replacement_map) (regex_mode : bool)
        (stop_at : nat -> bool) (w : W) (loaded_files : list string)
        (st : Batch.state W) (stopped : bool) :
  (forall f, In f loaded_files ->
             Batch.would_change os E rules regex_mode w f = false) ->
  Batch.process_replacements os E mode backup_root rules regex_mode
    stop_at w loaded_files = Some (st, stopped) ->
  Batch.world st = w
  /\ Forall (fun ev => Batch.is_write ev = false) (Batch.trace st)
  /\ Batch.current_output_dir st = None
  /\ Batch.modified_files st = 0
  /\ Batch.total_replacements st = 0.
Proof.
  intros Hall H. apply process_replacements_is_loop in H.
  pose proof (loop_unchanged os E mode backup_root rules regex_mode stop_at
                loaded_files 0 (Batch.initial w) Hall) as L.
  cbv zeta in L. rewrite H in L.
  cbn [fst Batch.initial Batch.world Batch.trace Batch.current_output_dir
       Batch.total_replacements Batch.modified_files] in L.
  destruct L as (Lw & (evs & Lt & Le) & Ld & Ltot & Lm).
  split; [assumption|]. split; [rewrite Lt; exact Le|].
  repeat split; assumption.
Qed.

Lemma X17_nothing_to_change_writes_nothing_witness :
  let w : SimpleFS.world :=
    <["a.docx" := mkDocument ["hello"] []]>
      (<["b.docx" := mkDocument ["none"] []]> ∅) in
  let files := ["a.docx"; "missing.docx"; "b.docx"] in
  let rules := [("x", Replace.JString "y")] in
  match Batch.process_replacements SimpleFS.os Frag.engine Batch.in_place ""
          rules false (fun _ => false) w files with
  | Some (st, stopped) =>
      Batch.world st = w
      /\ Forall (fun ev => Batch.is_write ev = false) (Batch.trace st)
      /\ Batch.current_output_dir st = None
      /\ Batch.modified_files st = 0
      /\ Batch.total_replacements st = 0
  | None => False
  end.
Proof.
  intros w files rules.
  destruct (Batch.process_replacements SimpleFS.os Frag.engine Batch.in_place ""
              rules false (fun _ => false) w files) as [[st stopped]|] eqn:H.
  - refine (X17_nothing_to_change_writes_nothing SimpleFS.os Frag.engine
              Batch.in_place "" rules false (fun _ => false) w files st
              stopped _ H).
    intros f Hf. simpl in Hf.
    destruct Hf as [<-|[<-|[<-|[]]]]; vm_compute; reflexivity.
  - vm_compute in H. discriminate.
Defined.

(** ** The scanner of [docx_scan_final_1.0.py] *)

Section LegacyFacts.

Variable E : PyRe.ReEngine.

Lemma match_line_raises (line : string) (patterns : list string)
      (acc : gset string * list string) :
  (exists p, In p patterns /\ PyRe.re_compile E p = None) ->
  exists e, Scan.match_line E line patterns acc = Raise e.
Proof.
  intros (p & Hin & Hp). revert acc.
  induction patterns as [|p0 ps IH]; intros acc; [destruct Hin|].
  cbn [Scan.match_line].
  destruct (PyRe.search E p0 line) as [f|e] eqn:Hs.
  - destruct Hin as [->|Hin].
    + unfold PyRe.search, PyRe.compile in Hs. rewrite Hp in Hs. discriminate.
    + cbn. apply IH. exact Hin.
  - exists e. reflexivity.
Qed.

Lemma found_search (p line : string) (f : option PyRe.Match) :
  PyRe.search E p line = Ok f ->
  Scan.found E p line = match f with Some _ => true | None => false end.
Proof. intros H. unfold Scan.found. rewrite H. reflexivity. Qed.

Lemma match_line_names (line : string) (patterns : list string)
      (acc : gset string * list string) :
  (forall p, In p patterns -> PyRe.re_compile E p <> None) ->
  exists r,
    Scan.match_line E line patterns acc = Ok r
    /\ forall q, q ∈ fst r
                 <-> q ∈ fst acc
                     \/ (In q patterns /\ Scan.found E q line = true).
Proof.
  revert acc. induction patterns as [|p ps IH]; intros acc Hc.
  - exists acc. split; [reflexivity|]. intros q. simpl. tauto.
  - destruct (search_compiled E p line (Hc p (or_introl eq_refl))) as [f Hf].
    cbn [Scan.match_line]. rewrite Hf. cbn.
    pose proof (found_search p line f Hf) as Hfound.
    match goal with
    | |- context [Scan.match_line E line ps ?a] =>
        destruct (IH a (fun q Hq => Hc q (or_intror Hq))) as (r & Hr & Hq)
    end.
    exists r. split; [exact Hr|]. intros q. rewrite Hq. clear Hq Hr.
    destruct f as [m|]; cbn [fst].
    + rewrite elem_of_union, elem_of_singleton. split.
      * intros [[->|H]|[H1 H2]].
        -- right. split; [left; reflexivity|exact Hfound].
        -- left. exact H.
        -- right. split; [right; exact H1|exact H2].
      * intros [H|[[<-|H1] H2]].
        -- left. right. exact H.
        -- left. left. reflexivity.
        -- right. split; assumption.
    + split.
      * intros [H|[H1 H2]].
        -- left. exact H.
        -- right. split; [right; exact H1|exact H2].
      * intros [H|[[<-|H1] H2]].
        -- left. exact H.
        -- congruence.
        -- right. split; assumption.
Qed.

Lemma match_lines_names (lines patterns : list string)
      (acc : gset string * list string) :
  (forall p, In p patterns -> PyRe.re_compile E p <> None) ->
  exists r,
    Scan.match_lines E lines patterns acc = Ok r
    /\ forall q, q ∈ fst r
                 <-> q ∈ fst acc
                     \/ (In q patterns
                         /\ exists line, In line lines
                                         /\ Scan.found E q line = true).
Proof.
  intros Hc. revert acc. induction lines as [|line lines IH]; intros acc.
  - exists acc. split; [reflexivity|]. intros q. simpl.
    split; [tauto|]. intros [H|(_ & l & [] & _)]. exact H.
  - cbn [Scan.match_lines].
    destruct (match_line_names line patterns acc Hc) as (r1 & Hr1 & Hq1).
    rewrite Hr1. cbn.
    destruct (IH r1) as (r & Hr & Hq). exists r. split; [exact Hr|].
    intros q. rewrite Hq, Hq1. clear. split.
    + intros [[H|[H1 H2]]|(H1 & l & Hl & H2)].
      * left. exact H.
      * right. split; [exact H1|]. exists line. split; [left; reflexivity|exact H2].
      * right. split; [exact H1|]. exists l. split; [right; exact Hl|exact H2].
    + intros [H|(H1 & l & [<-|Hl] & H2)].
      * left. left. exact H.
      * left. right. split; assumption.
      * right. split; [exact H1|]. exists l. split; assumption.
Qed.

Lemma hits_nil_iff (matches : string -> string -> bool)
      (patterns lines : list string) :
  Scan.hits_in_document_order matches patterns lines = []
  <-> forall line p, In line lines -> In p patterns -> matches p line = false.
Proof.
  unfold Scan.hits_in_document_order.
  induction lines as [|line lines IH]; cbn [flat_map].
  - split; [intros _ l p []|reflexivity].
  - split.
    + intros H. apply app_eq_nil in H as [H1 H2].
      intros l p [<-|Hl] Hp; [|apply IH; assumption].
      destruct (matches p line) eqn:Hm; [|reflexivity].
      assert (Hin : In p (List.filter (fun pattern => matches pattern line)
                                      patterns))
        by (apply List.filter_In; split; assumption).
      destruct (List.filter _ patterns); [destruct Hin|discriminate].
    + intros H.
      assert (Hf : List.filter (fun pattern => matches pattern line) patterns
                   = []).
      { destruct (List.filter _ patterns) as [|p ps] eqn:Hf; [reflexivity|].
        assert (Hin : In p (List.filter (fun pattern => matches pattern line)
                                        patterns))
          by (rewrite Hf; left; reflexivity).
        apply List.filter_In in Hin as [Hp Hm].
        rewrite (H line p (or_introl eq_refl) Hp) in Hm. discriminate. }
      rewrite Hf. cbn [map app]. apply IH.
      intros l p Hl Hp. apply H; [right|]; assumption.
Qed.

End LegacyFacts.

(** X18. [get_matching_lines_combined] gives two empty results as soon as
    one of the patterns does not compile, whatever the other patterns
    match in the document. *)
Theorem X18_one_bad_pattern_hides_all_matches (E : PyRe.ReEngine)
        (doc : Document) (patterns : list string) :
  (exists p, In p patterns /\ PyRe.re_compile E p = None) ->
  Scan.get_matching_lines_combined E doc patterns = (∅, []).
Proof.
  intros H. unfold Scan.get_matching_lines_combined.
  destruct (extract_full_text_lines doc) as [|line lines]; [reflexivity|].
  cbn [Scan.match_lines].
  destruct (match_line_raises E line patterns (∅, []) H) as [e ->].
  reflexivity.
Qed.

Lemma X18_one_bad_pattern_hides_all_matches_witness :
  Scan.get_matching_lines_combined Frag.engine
    (mkDocument ["see TABLE(1)"] []) ["TABLE\("; "TABLE("] = (∅, [])
  /\ snd (Scan.get_matching_lines_combined Frag.engine
            (mkDocument ["see TABLE(1)"] []) ["TABLE\("])
     = ["see TABLE(1)"].
Proof.
  split; [|vm_compute; reflexivity].
  apply (X18_one_bad_pattern_hides_all_matches Frag.engine
           (mkDocument ["see TABLE(1)"] []) ["TABLE\("; "TABLE("]).
  exists "TABLE(". split; [right; left; reflexivity|vm_compute; reflexivity].
Defined.

(** X19. When all the patterns compile, the matched patterns of
    [get_matching_lines_combined] are the patterns that [re.search]
    finds in at least one line of the document, and there is a matched
    line exactly when there is a matched pattern. *)
Theorem X19_matched_patterns_of_legacy_scan (E : PyRe.ReEngine)
        (doc : Document) (patterns : list string) :
  (forall p, In p patterns -> PyRe.re_compile E p <> None) ->
  (forall q,
     q ∈ fst (Scan.get_matching_lines_combined E doc patterns)
     <-> In q patterns
         /\ exists line, In line (extract_full_text_lines doc)
                         /\ Scan.found E q line = true)
  /\ (snd (Scan.get_matching_lines_combined E doc patterns) = []
      <-> forall q,
            q ∉ fst (Scan.get_matching_lines_combined E doc patterns)).
Proof.
  intros Hc.
  assert (Hq : forall q,
     q ∈ fst (Scan.get_matching_lines_combined E doc patterns)
     <-> In q patterns
         /\ exists line, In line (extract_full_text_lines doc)
                         /\ Scan.found E q line = true).
  { unfold Scan.get_matching_lines_combined.
    destruct (match_lines_names E (extract_full_text_lines doc) patterns
                (∅, []) Hc) as (r & -> & Hq).
    intros q. rewrite Hq. cbn [fst]. split; [|tauto].
    intros [H|H]; [|exact H]. apply not_elem_of_empty in H. destruct H. }
  split; [exact Hq|].
  rewrite (legacy_excerpts E doc patterns Hc), hits_nil_iff. split.
  - intros H q Hin. apply Hq in Hin as (Hp & line & Hl & Hf).
    rewrite (H line q Hl Hp) in Hf. discriminate.
  - intros H line p Hl Hp. destruct (Scan.found E p line) eqn:Hf; [|reflexivity].
    exfalso. apply (H p). apply Hq. split; [exact Hp|].
    exists line. split; assumption.
Qed.

Lemma X19_matched_patterns_of_legacy_scan_witness :
  "jfig" ∈ fst (Scan.get_matching_lines_combined Frag.engine
                  (mkDocument ["a <<jfig b"] []) ["<<jfig"; "jfig"])
  <-> In "jfig" ["<<jfig"; "jfig"]
      /\ exists line, In line (extract_full_text_lines
                                 (mkDocument ["a <<jfig b"] []))
                      /\ Scan.found Frag.engine "jfig" line = true.
Proof.
  refine (proj1 (X19_matched_patterns_of_legacy_scan Frag.engine
                   (mkDocument ["a <<jfig b"] []) ["<<jfig"; "jfig"] _) "jfig").
  intros p [<-|[<-|[]]]; vm_compute; discriminate.
Defined.

(** ** The custom tokens and the labels of the report *)

Lemma lstrip_lstrip (s : string) : PyStr.lstrip (PyStr.lstrip s) = PyStr.lstrip s.
Proof.
  induction s as [|c s IH]; [reflexivity|]. cbn [PyStr.lstrip].
  destruct (PyStr.isspace c) eqn:Hc; [exact IH|].
  cbn [PyStr.lstrip]. rewrite Hc. reflexivity.
Qed.

Lemma rstrip_rstrip (s : string) : PyStr.rstrip (PyStr.rstrip s) = PyStr.rstrip s.
Proof.
  induction s as [|c s IH]; [reflexivity|]. cbn [PyStr.rstrip].
  destruct (PyStr.rstrip s) as [|d r] eqn:Hr.
  - destruct (PyStr.isspace c) eqn:Hc; [reflexivity|].
    cbn [PyStr.rstrip]. rewrite Hc. reflexivity.
  - cbn [PyStr.rstrip]. cbn [PyStr.rstrip] in IH.
    change (PyStr.rstrip (String d r)) with (PyStr.rstrip (String d r)) in IH.
    rewrite IH. reflexivity.
Qed.

Lemma rstrip_lstrip (r : string) :
  PyStr.rstrip r = r -> PyStr.rstrip (PyStr.lstrip r) = PyStr.lstrip r.
Proof.
  induction r as [|c r IH]; [reflexivity|]. intros H. cbn [PyStr.lstrip].
  destruct (PyStr.isspace c) eqn:Hc; [|exact H].
  apply IH. cbn [PyStr.rstrip] in H. rewrite Hc in H.
  destruct (PyStr.rstrip r) as [|d r'] eqn:Hr; [discriminate|].
  injection H as H. exact H.
Qed.

Lemma strip_strip (s : string) : PyStr.strip (PyStr.strip s) = PyStr.strip s.
Proof.
  unfold PyStr.strip.
  rewrite (rstrip_lstrip (PyStr.rstrip s) (rstrip_rstrip s)).
  apply lstrip_lstrip.
Qed.

Lemma has_char_lstrip (c : ascii) (s : string) :
  PyMore.has_char c s = false -> PyMore.has_char c (PyStr.lstrip s) = false.
Proof.
  induction s as [|d s IH]; [reflexivity|]. cbn [PyStr.lstrip].
  intros H. destruct (PyStr.isspace d); [|exact H].
  apply IH. cbn [PyMore.has_char] in H. apply orb_false_elim in H as [_ H].
  exact H.
Qed.

Lemma has_char_rstrip (c : ascii) (s : string) :
  PyMore.has_char c s = false -> PyMore.has_char c (PyStr.rstrip s) = false.
Proof.
  induction s as [|d s IH]; [reflexivity|]. cbn [PyMore.has_char PyStr.rstrip].
  intros H. apply orb_false_elim in H as [H1 H2]. specialize (IH H2).
  destruct (PyStr.rstrip s) as [|e r].
  - destruct (PyStr.isspace d); [reflexivity|].
    cbn [PyMore.has_char]. rewrite H1. reflexivity.
  - cbn [PyMore.has_char] in *. rewrite H1. exact IH.
Qed.

Lemma has_char_strip (c : ascii) (s : string) :
  PyMore.has_char c s = false -> PyMore.has_char c (PyStr.strip s) = false.
Proof. intros H. apply has_char_lstrip, has_char_rstrip, H. Qed.

Lemma split_on_not_nil (sep : ascii) (s : string) : PyMore.split_on sep s <> [].
Proof.
  induction s as [|c s IH]; cbn [PyMore.split_on]; [discriminate|].
  destruct (Ascii.eqb c sep); [discriminate|].
  destruct (PyMore.split_on sep s); [contradiction|discriminate].
Qed.

Lemma split_on_no_sep (sep : ascii) (s : string) :
  Forall (fun piece => PyMore.has_char sep piece = false)
         (PyMore.split_on sep s).
Proof.
  induction s as [|c s IH]; cbn [PyMore.split_on].
  - repeat constructor.
  - destruct (Ascii.eqb c sep) eqn:Hc.
    + constructor; [reflexivity|exact IH].
    + destruct (PyMore.split_on sep s) as [|l ls]; [repeat constructor|].
      * cbn [PyMore.has_char]. rewrite Ascii.eqb_sym, Hc. reflexivity.
      * inversion IH; subst. constructor; [|assumption].
        cbn [PyMore.has_char]. rewrite Ascii.eqb_sym, Hc. assumption.
Qed.

(** X20. The custom tokens of [scan_documents], and the custom patterns
    of [scan_docs]: none is empty, none begins or ends with white space
    and none holds a comma, whatever was typed. *)
Theorem X20_custom_tokens_are_clean (text : string) :
  Forall (fun t => t <> ""
                   /\ PyStr.strip t = t
                   /\ PyMore.has_char "," t = false)
         (Setup.custom_tokens text).
Proof.
  unfold Setup.custom_tokens. apply List.Forall_forall. intros t Ht.
  apply in_map_iff in Ht as (piece & <- & Hp).
  apply List.filter_In in Hp as [Hin Hne].
  split; [|split].
  - apply negb_true_iff, String.eqb_neq in Hne. exact Hne.
  - apply strip_strip.
  - apply has_char_strip.
    pose proof (split_on_no_sep "," text) as Hall.
    rewrite List.Forall_forall in Hall. apply Hall. exact Hin.
Qed.

Lemma dict_get_set (key value k : string) (d : Setup.token_map) :
  Setup.dict_get k (Setup.dict_set key value d)
  = if String.eqb key k then Some value else Setup.dict_get k d.
Proof.
  induction d as [|[k0 v0] d IH]; cbn [Setup.dict_set Setup.dict_get].
  - rewrite String.eqb_sym. destruct (String.eqb k key); reflexivity.
  - destruct (String.eqb k0 key) eqn:H0; cbn [Setup.dict_get].
    + apply String.eqb_eq in H0. subst k0.
      destruct (String.eqb key k); reflexivity.
    + destruct (String.eqb k0 k) eqn:H1; [|exact IH].
      apply String.eqb_eq in H1. subst k0. rewrite String.eqb_sym, H0.
      reflexivity.
Qed.

Lemma dict_get_add_custom (k : string) (cts : list string)
      (d : Setup.token_map) :
  Setup.dict_get k (Setup.add_custom d cts)
  = if PyMore.mem k cts then Some ("Custom: " +:+ k) else Setup.dict_get k d.
Proof.
  unfold Setup.add_custom, PyMore.mem. revert d.
  induction cts as [|ct cts IH]; intros d; [reflexivity|].
  cbn [fold_left existsb]. rewrite IH, dict_get_set.
  rewrite (String.eqb_sym k ct).
  destruct (String.eqb ct k) eqn:Hk.
  - apply String.eqb_eq in Hk. subst ct.
    destruct (existsb (String.eqb k) cts); reflexivity.
  - reflexivity.
Qed.

Lemma dict_has_get (k : string) (d : Setup.token_map) :
  Setup.dict_has k d = match Setup.dict_get k d with
                       | Some _ => true
                       | None => false
                       end.
Proof.
  unfold Setup.dict_has.
  induction d as [|[k0 v0] d IH]; cbn [existsb Setup.dict_get fst];
    [reflexivity|].
  destruct (String.eqb k0 k); [reflexivity|exact IH].
Qed.

Lemma dict_get_In (k v : string) (d : Setup.token_map) :
  List.NoDup (map fst d) -> In (k, v) d -> Setup.dict_get k d = Some v.
Proof.
  induction d as [|[k0 v0] d IH]; intros Hnd Hin; [destruct Hin|].
  cbn [map fst] in Hnd. inversion Hnd as [|? ? Hk0 Hd]; subst.
  cbn [Setup.dict_get]. destruct Hin as [Heq|Hin].
  - injection Heq as -> ->. rewrite String.eqb_refl. reflexivity.
  - destruct (String.eqb k0 k) eqn:Hk; [|apply IH; assumption].
    apply String.eqb_eq in Hk. subst k0. exfalso. apply Hk0.
    apply in_map_iff. exists (k, v). split; [reflexivity|exact Hin].
Qed.

(** X21. When [scan_documents] goes ahead with a selection, a token was
    selected, there is at least one pattern, and every pattern has a
    label in the report: a custom token is labelled as custom, also when
    it is a token of the loaded file, and every other pattern has the
    selected label. *)
Theorem X21_every_pattern_is_labelled (d d' : Setup.token_map)
        (selected_label custom_input : string) (patterns : list string) :
  List.NoDup (map fst d) ->
  Setup.select_patterns d selected_label custom_input = Some (d', patterns) ->
  selected_label <> Setup.no_selection
  /\ patterns <> []
  /\ forall token, In token patterns ->
       Setup.token_label d' token
       = if PyMore.mem token (Setup.custom_tokens custom_input)
         then "Custom: " +:+ token else selected_label.
Proof.
  intros Hnd. unfold Setup.select_patterns.
  destruct d as [|kv0 d0] eqn:Hd; [discriminate|]. rewrite <- Hd in *.
  replace (match d with [] => true | _ :: _ => false end) with false
    by (rewrite Hd; reflexivity).
  destruct (String.eqb selected_label Setup.no_selection) eqn:Hsel;
    [discriminate|].
  set (matched := map fst (List.filter
                             (fun kv => String.eqb (snd kv) selected_label) d)).
  set (cts := Setup.custom_tokens custom_input).
  destruct (matched ++ cts) as [|p ps] eqn:Hp; [discriminate|].
  intros H. injection H as <- <-.
  split; [apply String.eqb_neq; exact Hsel|]. split; [discriminate|].
  intros token Hin. rewrite <- Hp in Hin.
  unfold Setup.token_label. rewrite dict_has_get, dict_get_add_custom.
  destruct (PyMore.mem token cts) eqn:Hm; [reflexivity|].
  apply in_app_or in Hin as [Hin|Hin].
  - subst matched. apply in_map_iff in Hin as ([k v] & Hk & Hf).
    cbn [fst] in Hk. subst k. apply List.filter_In in Hf as [Hf Hv].
    cbn [snd] in Hv. apply String.eqb_eq in Hv. subst v.
    rewrite (dict_get_In token selected_label d Hnd Hf). reflexivity.
  - apply mem_In in Hin. congruence.
Qed.

Lemma X21_every_pattern_is_labelled_witness :
  Setup.select_patterns
    [("<<jfig", "JFIG"); ("jfig", "JFIG"); ("TABLE(", "Tables")]
    "JFIG" " jfig , {ATTY,, "
  = Some ([("<<jfig", "JFIG"); ("jfig", "Custom: jfig"); ("TABLE(", "Tables");
           ("{ATTY", "Custom: {ATTY")],
          ["<<jfig"; "jfig"; "jfig"; "{ATTY"])
  /\ Setup.token_label
       [("<<jfig", "JFIG"); ("jfig", "Custom: jfig"); ("TABLE(", "Tables");
        ("{ATTY", "Custom: {ATTY")] "jfig"
     = "Custom: jfig".
Proof.
  split; [vm_compute; reflexivity|].
  refine (proj2 (proj2 (X21_every_pattern_is_labelled
            [("<<jfig", "JFIG"); ("jfig", "JFIG"); ("TABLE(", "Tables")]
            [("<<jfig", "JFIG"); ("jfig", "Custom: jfig"); ("TABLE(", "Tables");
             ("{ATTY", "Custom: {ATTY")]
            "JFIG" " jfig , {ATTY,, "
            ["<<jfig"; "jfig"; "jfig"; "{ATTY"] _ _)) "jfig" _).
  - repeat constructor; simpl; intros F;
      repeat (destruct F as [F|F]; [discriminate|]); exact F.
  - vm_compute. reflexivity.
  - right. left. reflexivity.
Defined.

(** ** Where a change is reported *)

Section LocationFacts.

Variable E : PyRe.ReEngine.
Variable regex_mode : bool.
Variable rules : Replace.replacement_map.

Lemma enum_loop_locations {A : Type}
      (f : nat -> Replace.tally -> A -> A * Replace.tally)
      (w : nat * A -> list string) :
  (forall i acc x,
      map Replace.location (snd (snd (f i acc x)))
      = map Replace.location (snd acc) ++ w (i, x)) ->
  forall l i acc,
    map Replace.location (snd (snd (Replace.enum_loop f i acc l)))
    = map Replace.location (snd acc) ++ flat_map w (Spec.enumerate_from i l).
Proof.
  intros Hf. unfold Spec.enumerate_from.
  induction l as [|x l IH]; intros i acc.
  - cbn. rewrite app_nil_r. reflexivity.
  - cbn [Replace.enum_loop List.length seq combine flat_map].
    specialize (Hf i acc x). destruct (f i acc x) as [y acc1]. cbn [snd] in Hf.
    specialize (IH (S i) acc1).
    destruct (Replace.enum_loop f (S i) acc1 l) as [ys acc2]. cbn [snd] in *.
    rewrite IH, Hf, app_assoc. reflexivity.
Qed.

Lemma process_paragraph_location (cut : nat) (loc : string)
      (acc : Replace.tally) (text : string) :
  map Replace.location
      (snd (snd (Replace.process_paragraph E regex_mode rules cut loc acc text)))
  = map Replace.location (snd acc)
    ++ Spec.location_of E regex_mode rules loc text.
Proof.
  unfold Replace.process_paragraph, Spec.location_of, Spec.changed.
  destruct (negb _); cbn [snd].
  - rewrite map_app. reflexivity.
  - rewrite app_nil_r. reflexivity.
Qed.

End LocationFacts.

(** X22. The locations of [replacement_details] name, in the order of
    the document, the paragraphs whose text changed: a top-level
    paragraph by its index among the paragraphs, a paragraph of a table
    by the indices of its table, row, cell and of the paragraph in the
    cell, all counted from 0. *)
Theorem X22_detail_locations (E : PyRe.ReEngine) (doc : Document)
        (rules : Replace.replacement_map) (regex_mode : bool) :
  map Replace.location
      (snd (Replace.perform_replacement_in_doc E doc rules regex_mode))
  = Spec.changed_locations E regex_mode rules doc.
Proof.
  unfold Replace.perform_replacement_in_doc, Replace.process_paragraphs,
    Replace.process_tables, Spec.changed_locations.
  pose proof (enum_loop_locations
    (fun para_idx =>
       Replace.process_paragraph E regex_mode rules 100
         (Replace.para_location para_idx))
    (fun ix => Spec.location_of E regex_mode rules
                 (Replace.para_location (fst ix)) (snd ix))
    (fun i acc x => process_paragraph_location E regex_mode rules 100 _ acc x)
    (paragraphs doc) 0 (0, [])) as Hp.
  destruct (Replace.enum_loop _ 0 (0, []) (paragraphs doc)) as [ps acc1].
  cbn [snd map app] in Hp.
  rewrite (surjective_pairing (Replace.enum_loop _ 0 acc1 (tables doc))).
  cbn [snd]. rewrite <- Hp.
  apply (enum_loop_locations _
    (fun t => flat_map (fun r => flat_map (fun c => flat_map (fun p =>
       Spec.location_of E regex_mode rules
         (Replace.cell_location (fst t) (fst r) (fst c) (fst p)) (snd p))
       (Spec.enumerate_from 0 (snd c))) (Spec.enumerate_from 0 (snd r)))
       (Spec.enumerate_from 0 (snd t)))).
  intros ti a t.
  apply (enum_loop_locations _
    (fun r => flat_map (fun c => flat_map (fun p =>
       Spec.location_of E regex_mode rules
         (Replace.cell_location ti (fst r) (fst c) (fst p)) (snd p))
       (Spec.enumerate_from 0 (snd c))) (Spec.enumerate_from 0 (snd r)))).
  intros ri a' r.
  apply (enum_loop_locations _
    (fun c => flat_map (fun p =>
       Spec.location_of E regex_mode rules
         (Replace.cell_location ti ri (fst c) (fst p)) (snd p))
       (Spec.enumerate_from 0 (snd c)))).
  intros ci a'' c.
  apply (enum_loop_locations _
    (fun p => Spec.location_of E regex_mode rules
                (Replace.cell_location ti ri ci (fst p)) (snd p))).
  intros pi a''' p. apply process_paragraph_location.
Qed.

(** The locations of a document with a changed paragraph at the top
    level and one in a table. *)
Example locations_of_changes :
  map Replace.location
      (snd (Replace.perform_replacement_in_doc Frag.engine
              (mkDocument ["none"; "x"] [[[["a"]; ["b"; "x y"]]]])
              [("x", Replace.JString "z")] false))
  = ["paragraph_1"; "table_0_row_0_cell_1_para_1"].
Proof. vm_compute. reflexivity. Qed.

(** ** What the scanner counts and what the replacer replaces *)

Lemma startswith_length (p s : string) :
  PyStr.startswith p s = true -> String.length p <= String.length s.
Proof.
  intros H. apply startswith_inv in H as [t ->]. rewrite str_length_app. lia.
Qed.

Lemma replace_from_length (old new : string) (s : string) :
  old <> "" ->
  forall k,
    String.length (PyStr.replace_from old new k s)
    + PyMore.count_from old k s * String.length old
    + Nat.min k (String.length s)
    = String.length s + PyMore.count_from old k s * String.length new.
Proof.
  intros Hne. induction s as [|c s IH]; intros k.
  - destruct k; reflexivity.
  - destruct k as [|k]; cbn [PyStr.replace_from PyMore.count_from].
    + destruct (PyStr.startswith old (String c s)) eqn:Hs.
      * apply startswith_length in Hs.
        specialize (IH (String.length old - 1)).
        rewrite str_length_app. rewrite !Nat.mul_succ_l.
        assert (Hlo : 1 <= String.length old)
          by (destruct old; [contradiction|simpl; lia]).
        cbn [String.length Nat.min] in *.
        rewrite Nat.min_l in IH by lia. lia.
      * specialize (IH 0). cbn [String.length Nat.min] in *. lia.
    + specialize (IH k). cbn [String.length Nat.min].
      change (Nat.min (S k) (S (String.length s)))
        with (S (Nat.min k (String.length s))). lia.
Qed.

(** X23. The occurrences of a token that the scanner counts are the
    occurrences a literal rule on that token replaces: the text the
    rule gives is longer than the text by the number of occurrences
    times the difference of the lengths of target and token. *)
Theorem X23_count_is_the_number_replaced (old new s : string) :
  String.length (PyStr.replace old new s)
  + PyMore.count old s * String.length old
  = String.length s + PyMore.count old s * String.length new.
Proof.
  destruct old as [|a old].
  - unfold PyStr.replace, PyMore.count. rewrite interleave_length.
    cbn [String.length]. lia.
  - unfold PyStr.replace, PyMore.count.
    pose proof (replace_from_length (String a old) new s) as H.
    specialize (H ltac:(discriminate) 0). rewrite Nat.min_0_l in H. lia.
Qed.

(** ** A pattern that is not found *)

(** X24. A text in which [re.search] does not find the source of a rule,
    or for which it raises, is left as it is by the rule in regex
    mode, whatever the target. *)
Theorem X24_not_found_not_changed (E : PyRe.ReEngine) (old text : string)
        (new : Replace.json_value) :
  Scan.found E old text = false ->
  Replace.apply_rule E true text (old, new) = text.
Proof.
  unfold Scan.found, PyRe.search, PyRe.compile, Replace.apply_rule,
    Replace.rule_body. cbn [fst snd]. intros H.
  destruct new as [nt| | |]; try reflexivity.
  unfold PyRe.sub_with, PyRe.sub, PyRe.compile.
  destruct (PyRe.re_compile E old) as [c|];
    [|destruct (PyStr.contains _ nt); reflexivity].
  cbn in H. destruct (PyRe.finditer E c text) as [|m ms] eqn:Hf;
    [|discriminate].
  destruct (PyStr.contains Replace.placeholder nt); cbn.
  - rewrite Hf. reflexivity.
  - destruct (PyRe.parse_template E _ c nt); cbn; [rewrite Hf|]; reflexivity.
Qed.

Lemma X24_not_found_not_changed_witness :
  Scan.found Frag.engine "TABLE\(" "a table (1)" = false
  /\ Replace.apply_rule Frag.engine true "a table (1)"
       ("TABLE\(", Replace.JString "T(") = "a table (1)".
Proof.
  assert (H : Scan.found Frag.engine "TABLE\(" "a table (1)" = false)
    by (vm_compute; reflexivity).
  split; [exact H|].
  exact (X24_not_found_not_changed Frag.engine "TABLE\(" "a table (1)"
           (Replace.JString "T(") H).
Defined.

(** ** The text shown for a loaded token file *)

(** X25. The text [load_token_file] shows for a loaded file is never
    longer than 33 characters, whatever the name of the file and the
    number of tokens. *)
Theorem X25_display_text_bounded (filename : string) (tokens : nat) :
  String.length (Setup.display_text filename tokens) <= 33.
Proof.
  unfold Setup.display_text.
  set (t := "Loaded: " +:+ _).
  destruct (33 <? String.length t) eqn:Hl.
  - rewrite str_length_app. pose proof (take_length 30 t) as Ht.
    cbn [String.length]. lia.
  - apply Nat.ltb_ge in Hl. exact Hl.
Qed.

(** A long name is cut, a short one is shown whole. *)
Example display_text_examples :
  Setup.display_text "tokens.json" 7 = "Loaded: tokens.json (7 tokens)"
  /\ Setup.display_text "legal_tokens_2025_final.json" 120
     = "Loaded: legal_tokens_2025... (...".
Proof. split; vm_compute; reflexivity. Qed.

(** X26. Whatever file type is chosen, a file name that [scan_documents]
    takes up ends in [.docx] and does not begin with [~], the mark of a
    lock file of the word processor. *)
Theorem X26_scanned_files_are_documents (choice file : string)
        (file_filter : string -> bool) :
  Setup.file_type_map choice = Some file_filter ->
  Setup.scanned file_filter file = true ->
  PyMore.endswith ".docx" file = true /\ PyStr.startswith "~" file = false.
Proof.
  unfold Setup.file_type_map, Setup.scanned. intros Hc Hs.
  apply andb_prop in Hs as [Hf Ht]. apply negb_true_iff in Ht.
  split; [|exact Ht].
  destruct (String.eqb choice "Only .dcp.docx");
    [injection Hc as <-; apply dcp_is_docx; exact Hf|].
  destruct (String.eqb choice "Only .docx (excluding .dcp.docx)").
  { injection Hc as <-. unfold Setup.only_docx in Hf.
    apply andb_prop in Hf as [Hf _]. exact Hf. }
  destruct (String.eqb choice "Both (.docx and .dcp.docx)"); [|discriminate].
  injection Hc as <-. exact Hf.
Qed.

Lemma X26_scanned_files_are_documents_witness :
  PyMore.endswith ".docx" "lease.dcp.docx" = true
  /\ PyStr.startswith "~" "lease.dcp.docx" = false.
Proof.
  apply (X26_scanned_files_are_documents "Only .dcp.docx" "lease.dcp.docx"
           Setup.only_dcp); vm_compute; reflexivity.
Defined.

(** ** What a run leaves for an undo *)

Section HistoryFacts.

Context {W : Type}.
Variable os : Batch.OS W.
Variable E : PyRe.ReEngine.
Variable mode : string.
Variable backup_root : string.
Variable rules : Replace.replacement_map.
Variable regex_mode : bool.
Variable stop_at : nat -> bool.

Hypothesis no_copies :
  String.eqb mode Batch.dry_run
  || negb (PyStr.contains "Modified Copies" mode) = true.

Lemma write_out_no_dir (i : nat) (file_path : string) (doc : Document)
      (n : nat) (st : Batch.state W) :
  Batch.current_output_dir
    (fst (Batch.write_out os mode backup_root i file_path doc n st))
  = Batch.current_output_dir st.
Proof.
  unfold Batch.write_out.
  destruct (String.eqb mode Batch.dry_run); [reflexivity|].
  cbn [orb] in no_copies. apply negb_true_iff in no_copies.
  rewrite no_copies.
  destruct (Batch.save_document os (Batch.world st) doc file_path)
    as [w1 [u|e]]; reflexivity.
Qed.

Lemma process_file_no_dir (i : nat) (file_path : string)
      (st : Batch.state W) :
  Batch.current_output_dir
    (Batch.process_file os E mode backup_root rules regex_mode i file_path st)
  = Batch.current_output_dir st.
Proof.
  unfold Batch.process_file.
  destruct (Batch.load_document os
              (Batch.world (Batch.log (Batch.EvOpen i) st)) file_path)
    as [doc|e]; [|reflexivity].
  destruct (Replace.perform_replacement_in_doc E doc rules regex_mode)
    as [[doc' n] ds].
  destruct (0 <? n).
  - pose proof (write_out_no_dir i file_path doc' n
                  (Batch.log (Batch.EvOpen i) st)) as Hw.
    destruct (Batch.write_out os mode backup_root i file_path doc' n
                (Batch.log (Batch.EvOpen i) st)) as [st1 r].
    cbn [fst] in Hw. destruct r; cbn; rewrite Hw; reflexivity.
  - reflexivity.
Qed.

Lemma loop_no_dir (files : list string) :
  forall (i : nat) (st : Batch.state W),
    Batch.current_output_dir
      (fst (Batch.loop os E mode backup_root rules regex_mode stop_at
              i files st))
    = Batch.current_output_dir st.
Proof.
  induction files as [|file_path files IH]; intros i st; [reflexivity|].
  cbn [Batch.loop]. cbv zeta. destruct (stop_at i); [reflexivity|].
  destruct (negb (Batch.path_exists os _ file_path)).
  - rewrite IH. reflexivity.
  - rewrite IH, process_file_no_dir. reflexivity.
Qed.

End HistoryFacts.

(** X27. A run in a mode that makes no copies, such as the in-place
    mode, and a dry run make no output directory and add nothing to the
    backup history, whatever they change: such a run is not among the
    operations [undo_last_operation] can undo. *)
Theorem X27_in_place_run_leaves_no_history {W : Type} (os : Batch.OS W)
        (E : PyRe.ReEngine) (mode backup_root : string)
        (rules : Replace.replacement_map) (regex_mode : bool)
        (stop_at : nat -> bool) (w : W) (loaded_files : list string)
        (st : Batch.state W) (stopped : bool) :
  String.eqb mode Batch.dry_run
  || negb (PyStr.contains "Modified Copies" mode) = true ->
  Batch.process_replacements os E mode backup_root rules regex_mode
    stop_at w loaded_files = Some (st, stopped) ->
  Batch.current_output_dir st = None
  /\ forall stop_processing,
       History.records_history mode st stop_processing = false.
Proof.
  intros Hm H. apply process_replacements_is_loop in H.
  pose proof (loop_no_dir os E mode backup_root rules regex_mode stop_at Hm
                loaded_files 0 (Batch.initial w)) as L.
  rewrite H in L. cbn in L.
  split; [exact L|]. intros flag. unfold History.records_history.
  rewrite L. reflexivity.
Qed.

Lemma X27_in_place_run_leaves_no_history_witness :
  let w : SimpleFS.world :=
    <["a.docx" := mkDocument ["x"] []]>
      (<["b.docx" := mkDocument ["none"] []]> ∅) in
  let files := ["a.docx"; "b.docx"] in
  let rules := [("x", Replace.JString "y")] in
  match Batch.process_replacements SimpleFS.os Frag.engine Batch.in_place ""
          rules false (fun _ => false) w files with
  | Some (st, stopped) =>
      Batch.current_output_dir st = None
      /\ forall stop_processing,
           History.records_history Batch.in_place st stop_processing = false
  | None => False
  end.
Proof.
  intros w files rules.
  destruct (Batch.process_replacements SimpleFS.os Frag.engine Batch.in_place ""
              rules false (fun _ => false) w files) as [[st stopped]|] eqn:H.
  - exact (X27_in_place_run_leaves_no_history SimpleFS.os Frag.engine
             Batch.in_place "" rules false (fun _ => false) w files st
             stopped eq_refl H).
  - vm_compute in H. discriminate.
Defined.
